(** * EduSystem: a shallow embedding of the Django application

    The development follows the layout of the application:
    - [models.py]: the tables, the role based permission classes and the
      post-save receiver that creates user profiles;
    - [signals.py]: the post-save receivers that create notifications;
    - [serializers.py]: the validation hooks and [UserCreateSerializer.create];
    - [views.py]: the dashboard, [StudentViewSet.get_queryset] and the bulk
      endpoints.

    The database is a record of tables.  Code that talks to the ORM lives in
    a state-and-exception monad over that record: an exception leaves the
    rows written so far in place, [atomic] restores the state of entry. *)

From stdpp Require Import base decidable option numbers list strings sorting.
From Stdlib Require Import ZArith Lia.

Open Scope string_scope.

(** ** Dates and date-times *)

(** A [datetime.date]: Python compares dates as the tuples (year, month, day). *)
Record date := Date { d_year : Z; d_month : Z; d_day : Z }.

(** A [datetime.datetime]: a date and the seconds elapsed since midnight.
    Every date-time is read in one time zone. *)
Record datetime := DateTime { dt_date : date; dt_secs : Z }.

#[global] Instance date_eq_dec : EqDecision date.
Proof. solve_decision. Defined.
#[global] Instance datetime_eq_dec : EqDecision datetime.
Proof. solve_decision. Defined.

Definition date_ltb (a b : date) : bool :=
  (d_year a <? d_year b)%Z
  || ((d_year a =? d_year b)%Z
      && ((d_month a <? d_month b)%Z
          || ((d_month a =? d_month b)%Z && (d_day a <? d_day b)%Z))).

Definition datetime_leb (a b : datetime) : bool :=
  date_ltb (dt_date a) (dt_date b)
  || (bool_decide (dt_date a = dt_date b) && (dt_secs a <=? dt_secs b)%Z).

Definition is_leap (y : Z) : bool :=
  (y mod 4 =? 0)%Z && (negb (y mod 100 =? 0)%Z || (y mod 400 =? 0)%Z).

Definition days_in_month (y m : Z) : Z :=
  if (m =? 2)%Z then (if is_leap y then 29 else 28)%Z
  else if ((m =? 4) || (m =? 6) || (m =? 9) || (m =? 11))%Z then 30%Z
  else 31%Z.

Definition next_day (d : date) : date :=
  if (d_day d <? days_in_month (d_year d) (d_month d))%Z
  then Date (d_year d) (d_month d) (d_day d + 1)
  else if (d_month d <? 12)%Z then Date (d_year d) (d_month d + 1) 1
  else Date (d_year d + 1) 1 1.

Definition prev_day (d : date) : date :=
  if (1 <? d_day d)%Z then Date (d_year d) (d_month d) (d_day d - 1)
  else if (1 <? d_month d)%Z
  then Date (d_year d) (d_month d - 1) (days_in_month (d_year d) (d_month d - 1))
  else Date (d_year d - 1) 12 31.

(** [d + timedelta(days=k)] and [d - timedelta(days=k)]. *)
Definition add_days (d : date) (k : nat) : date := Nat.iter k next_day d.
Definition sub_days (d : date) (k : nat) : date := Nat.iter k prev_day d.

(** [dt.replace(day=1).date()] *)
Definition replace_day1 (dt : datetime) : date :=
  Date (d_year (dt_date dt)) (d_month (dt_date dt)) 1.

(** A date used where the ORM expects a date-time stands for its midnight. *)
Definition midnight (d : date) : datetime := DateTime d 0.

(** ** Formatted strings

    The messages of the notifications are f-strings over decimals and dates;
    a message is kept as the sequence of its pieces, the rendering of a
    number or of a date being Python's. *)
Inductive piece :=
| Lit (s : string)
| PNat (n : nat)
| PDec (z : Z)
| PDate (d : date).

Definition fstring := list piece.

#[global] Instance piece_eq_dec : EqDecision piece.
Proof. solve_decision. Defined.

(** ** Rows and tables *)

Definition key := nat.

(** A stored row: its primary key and its columns. *)
Record row (F : Type) := Row { pk : key; fields : F }.
Arguments Row {F} pk fields.
Arguments pk {F} r.
Arguments fields {F} r.

(** A table keeps its rows in insertion order together with the last value
    handed out by its AUTOINCREMENT sequence. *)
Record table (F : Type) := Table { rows : list (row F); last_id : key }.
Arguments Table {F} rows last_id.
Arguments rows {F} t.
Arguments last_id {F} t.

#[global] Instance row_eq_dec {F} `{EqDecision F} : EqDecision (row F).
Proof. solve_decision. Defined.

Section Tables.
Context {F : Type}.

Definition tbl_empty : table F := Table [] 0.

(** [Model.objects.filter(pk=i).first()] *)
Definition tbl_get (t : table F) (i : key) : option (row F) :=
  head (filter (fun r => pk r = i) (rows t)).

(** INSERT with a key drawn from the sequence. *)
Definition tbl_insert (f : F) (t : table F) : row F * table F :=
  let r := Row (S (last_id t)) f in
  (r, Table (rows t ++ [r]) (S (last_id t))).

(** INSERT with the key the instance already carries. *)
Definition tbl_insert_at (i : key) (f : F) (t : table F) : row F * table F :=
  (Row i f, Table (rows t ++ [Row i f]) (Nat.max (last_id t) i)).

(** UPDATE ... WHERE id = i *)
Definition tbl_update (i : key) (f : F) (t : table F) : table F :=
  Table (map (fun r => if decide (pk r = i) then Row i f else r) (rows t))
        (last_id t).

(** UPDATE ... SET ... WHERE P *)
Definition tbl_update_where (P : row F -> bool) (g : F -> F) (t : table F)
  : table F :=
  Table (map (fun r => if P r then Row (pk r) (g (fields r)) else r) (rows t))
        (last_id t).

(** DELETE ... WHERE id IN ids *)
Definition tbl_delete (P : row F -> bool) (t : table F) : table F :=
  Table (filter (fun r => P r = false) (rows t)) (last_id t).

(** The rows other than the one with key [i]: what a uniqueness check of
    an UPDATE of row [i], or of an INSERT when [i] is [None], looks at. *)
Definition others (i : option key) (t : table F) : list (row F) :=
  filter (fun r => Some (pk r) <> i) (rows t).

Definition pks (t : table F) : list key := map pk (rows t).

(** Primary keys are distinct and were all drawn from the sequence. *)
Definition tbl_wf (t : table F) : Prop :=
  NoDup (pks t) /\ Forall (fun i => i <= last_id t) (pks t).
End Tables.

(** ** models.py: the columns of every model

    A ForeignKey column holds the key of the row it refers to; a nullable
    column is an [option].  [Student.user] is declared NOT NULL but an
    instance built without a user carries [None] until the INSERT rejects
    it.  Decimals are held as their unscaled integer, PositiveIntegerFields
    as [nat].  Image columns are left out. *)

Record User := mkUser {
  username : string;
  is_staff : bool;
  is_superuser : bool }.

Record UserProfile := mkUserProfile {
  profile_user : key;
  role : string }.

Record Department := mkDepartment {
  dept_name : string;
  dept_code : string;
  hod : option key }.

Record Program := mkProgram {
  program_number : nat;
  program_name : string;
  program_code : string;
  program_type : string;
  program_department : key;
  duration_years : nat }.

Record Course := mkCourse {
  course_code : string;
  course_title : string;
  credit_hours : Z;
  course_semester : nat;
  course_program : key }.

Record Student := mkStudent {
  registration_no : string;
  student_user : option key;
  full_name : string;
  gender : string;
  dob : date;
  student_email : string;
  student_phone : string;
  address : string;
  student_program : key;
  enrollment_year : nat;
  student_is_active : bool }.

Record Staff := mkStaff {
  staff_user : key;
  staff_full_name : string;
  staff_type : string;
  designation : option key;
  staff_department : option key;
  staff_email : string;
  staff_phone : string;
  date_joined : date;
  staff_is_active : bool }.

Record Admission := mkAdmission {
  adm_student : key;
  adm_program : key;
  admission_date : date;
  adm_status : string }.

Record Enrollment := mkEnrollment {
  enr_student : key;
  enr_course : key;
  enr_semester : nat;
  enr_year : nat;
  date_enrolled : date }.

Record Attendance := mkAttendance {
  att_student : key;
  att_course : key;
  att_date : date;
  att_status : string }.

Record Exam := mkExam {
  exam_course : key;
  exam_type : string;
  exam_date : date;
  total_marks : nat }.

Record Grade := mkGrade {
  grade_student : key;
  grade_exam : key;
  obtained_marks : Z }.

Record Fee := mkFee {
  fee_student : key;
  amount : Z;
  due_date : date;
  is_paid : bool;
  payment_date : option date }.

Record Notification := mkNotification {
  recipient_student : option key;
  recipient_staff : option key;
  notif_type : string;
  title : string;
  message : fstring;
  created_at : datetime;
  read : bool;
  auto_resolved : bool }.

#[global] Instance User_eq_dec : EqDecision User.
Proof. solve_decision. Defined.
#[global] Instance UserProfile_eq_dec : EqDecision UserProfile.
Proof. solve_decision. Defined.
#[global] Instance Course_eq_dec : EqDecision Course.
Proof. solve_decision. Defined.
#[global] Instance Student_eq_dec : EqDecision Student.
Proof. solve_decision. Defined.
#[global] Instance Enrollment_eq_dec : EqDecision Enrollment.
Proof. solve_decision. Defined.
#[global] Instance Attendance_eq_dec : EqDecision Attendance.
Proof. solve_decision. Defined.
#[global] Instance Notification_eq_dec : EqDecision Notification.
Proof. solve_decision. Defined.

(** ** The database *)

Record DB := mkDB {
  users : table User;
  profiles : table UserProfile;
  departments : table Department;
  programs : table Program;
  courses : table Course;
  students : table Student;
  staffs : table Staff;
  admissions : table Admission;
  enrollments : table Enrollment;
  attendances : table Attendance;
  exams : table Exam;
  grades : table Grade;
  fees : table Fee;
  notifications : table Notification }.

Definition empty_db : DB :=
  mkDB tbl_empty tbl_empty tbl_empty tbl_empty tbl_empty tbl_empty tbl_empty
       tbl_empty tbl_empty tbl_empty tbl_empty tbl_empty tbl_empty tbl_empty.

(** One accessor pair per table: which table a manager reads and writes. *)
Record manager (F : Type) := Manager {
  view : DB -> table F;
  over : (table F -> table F) -> DB -> DB }.
Arguments view {F} m db.
Arguments over {F} m g db.

Definition User_objects : manager User :=
  Manager _ users (fun g d => mkDB (g (users d)) (profiles d) (departments d)
    (programs d) (courses d) (students d) (staffs d) (admissions d)
    (enrollments d) (attendances d) (exams d) (grades d) (fees d)
    (notifications d)).
Definition UserProfile_objects : manager UserProfile :=
  Manager _ profiles (fun g d => mkDB (users d) (g (profiles d)) (departments d)
    (programs d) (courses d) (students d) (staffs d) (admissions d)
    (enrollments d) (attendances d) (exams d) (grades d) (fees d)
    (notifications d)).
Definition Department_objects : manager Department :=
  Manager _ departments (fun g d => mkDB (users d) (profiles d)
    (g (departments d)) (programs d) (courses d) (students d) (staffs d)
    (admissions d) (enrollments d) (attendances d) (exams d) (grades d)
    (fees d) (notifications d)).
Definition Program_objects : manager Program :=
  Manager _ programs (fun g d => mkDB (users d) (profiles d) (departments d)
    (g (programs d)) (courses d) (students d) (staffs d) (admissions d)
    (enrollments d) (attendances d) (exams d) (grades d) (fees d)
    (notifications d)).
Definition Course_objects : manager Course :=
  Manager _ courses (fun g d => mkDB (users d) (profiles d) (departments d)
    (programs d) (g (courses d)) (students d) (staffs d) (admissions d)
    (enrollments d) (attendances d) (exams d) (grades d) (fees d)
    (notifications d)).
Definition Student_objects : manager Student :=
  Manager _ students (fun g d => mkDB (users d) (profiles d) (departments d)
    (programs d) (courses d) (g (students d)) (staffs d) (admissions d)
    (enrollments d) (attendances d) (exams d) (grades d) (fees d)
    (notifications d)).
Definition Staff_objects : manager Staff :=
  Manager _ staffs (fun g d => mkDB (users d) (profiles d) (departments d)
    (programs d) (courses d) (students d) (g (staffs d)) (admissions d)
    (enrollments d) (attendances d) (exams d) (grades d) (fees d)
    (notifications d)).
Definition Admission_objects : manager Admission :=
  Manager _ admissions (fun g d => mkDB (users d) (profiles d) (departments d)
    (programs d) (courses d) (students d) (staffs d) (g (admissions d))
    (enrollments d) (attendances d) (exams d) (grades d) (fees d)
    (notifications d)).
Definition Enrollment_objects : manager Enrollment :=
  Manager _ enrollments (fun g d => mkDB (users d) (profiles d) (departments d)
    (programs d) (courses d) (students d) (staffs d) (admissions d)
    (g (enrollments d)) (attendances d) (exams d) (grades d) (fees d)
    (notifications d)).
Definition Attendance_objects : manager Attendance :=
  Manager _ attendances (fun g d => mkDB (users d) (profiles d) (departments d)
    (programs d) (courses d) (students d) (staffs d) (admissions d)
    (enrollments d) (g (attendances d)) (exams d) (grades d) (fees d)
    (notifications d)).
Definition Exam_objects : manager Exam :=
  Manager _ exams (fun g d => mkDB (users d) (profiles d) (departments d)
    (programs d) (courses d) (students d) (staffs d) (admissions d)
    (enrollments d) (attendances d) (g (exams d)) (grades d) (fees d)
    (notifications d)).
Definition Grade_objects : manager Grade :=
  Manager _ grades (fun g d => mkDB (users d) (profiles d) (departments d)
    (programs d) (courses d) (students d) (staffs d) (admissions d)
    (enrollments d) (attendances d) (exams d) (g (grades d)) (fees d)
    (notifications d)).
Definition Fee_objects : manager Fee :=
  Manager _ fees (fun g d => mkDB (users d) (profiles d) (departments d)
    (programs d) (courses d) (students d) (staffs d) (admissions d)
    (enrollments d) (attendances d) (exams d) (grades d) (g (fees d))
    (notifications d)).
Definition Notification_objects : manager Notification :=
  Manager _ notifications (fun g d => mkDB (users d) (profiles d)
    (departments d) (programs d) (courses d) (students d) (staffs d)
    (admissions d) (enrollments d) (attendances d) (exams d) (grades d)
    (fees d) (g (notifications d))).

(** ** The monad of ORM code *)

Inductive exn :=
| DoesNotExist
| RelatedObjectDoesNotExist
| AttributeError
| IntegrityError
| ValidationError (msg : string).

Inductive result (A : Type) :=
| Ok (a : A)
| Raise (e : exn).
Arguments Ok {A} a.
Arguments Raise {A} e.

Definition M (A : Type) : Type := DB -> result A * DB.

Definition ret {A} (a : A) : M A := fun db => (Ok a, db).

Definition bind {A B} (m : M A) (k : A -> M B) : M B :=
  fun db =>
    match m db with
    | (Ok a, db') => k a db'
    | (Raise e, db') => (Raise e, db')
    end.

Definition raise {A} (e : exn) : M A := fun db => (Raise e, db).

Definition gets {A} (f : DB -> A) : M A := fun db => (Ok (f db), db).

Definition modify (f : DB -> DB) : M unit := fun db => (Ok tt, f db).

(** [@transaction.atomic]: an exception that leaves the block rolls the
    database back to the state of entry and goes on propagating. *)
Definition atomic {A} (m : M A) : M A :=
  fun db =>
    match m db with
    | (Ok a, db') => (Ok a, db')
    | (Raise e, _) => (Raise e, db)
    end.

Notation "x <- c ;; k" := (bind c (fun x => k))
  (at level 100, c at next level, right associativity).
Notation "c ;;; k" := (bind c (fun _ => k))
  (at level 100, right associativity).

(** [for x in xs: body(x)] *)
Fixpoint for_each {A} (xs : list A) (body : A -> M unit) : M unit :=
  match xs with
  | [] => ret tt
  | x :: xs' => body x ;;; for_each xs' body
  end.

(** [[f(x) for x in xs]] with an effectful [f]. *)
Fixpoint map_M {A B} (f : A -> M B) (xs : list A) : M (list B) :=
  match xs with
  | [] => ret []
  | x :: xs' => y <- f x ;; ys <- map_M f xs' ;; ret (y :: ys)
  end.

Definition state_after {A} (m : M A) (db : DB) : DB := snd (m db).
Definition outcome {A} (m : M A) (db : DB) : result A := fst (m db).

(** ** The ORM calls the application uses *)

Section ORM.
Context {F : Type}.
Variable objects : manager F.

(** What the database checks on a write: [constraints rs f] tells whether
    the columns [f] may be stored next to the rows [rs]. *)
Variable constraints : list (row F) -> F -> bool.

(** What [pre_save] does to the columns; its flag says whether the write
    is an INSERT (this is where [auto_now_add] columns get their value). *)
Variable pre_save : bool -> F -> F.

(** [Model.objects.all()] *)
Definition all : M (list (row F)) := gets (fun db => rows (view objects db)).

(** [Model.objects.get(pk=i)] and the access to a related object through
    a ForeignKey attribute. *)
Definition get (i : key) : M (row F) :=
  t <- gets (view objects) ;;
  match tbl_get t i with
  | Some r => ret r
  | None => raise DoesNotExist
  end.

(** The database part of [Model.save()]: an instance without a key is
    inserted, an instance with a key updates its row and is inserted when
    no row has that key.  The flag returned is [created]. *)
Definition write (i : option key) (f : F) : M (row F * bool) :=
  t <- gets (view objects) ;;
  match i with
  | None =>
      let f' := pre_save true f in
      if constraints (rows t) f' then
        _ <- modify (over objects (fun t => snd (tbl_insert f' t))) ;;
        ret (fst (tbl_insert f' t), true)
      else raise IntegrityError
  | Some k =>
      match tbl_get t k with
      | Some _ =>
          let f' := pre_save false f in
          if constraints (others (Some k) t) f' then
            _ <- modify (over objects (tbl_update k f')) ;;
            ret (Row k f', false)
          else raise IntegrityError
      | None =>
          let f' := pre_save true f in
          if constraints (rows t) f' then
            _ <- modify (over objects (fun t => snd (tbl_insert_at k f' t))) ;;
            ret (Row k f', true)
          else raise IntegrityError
      end
  end.
End ORM.

(** A column, or a tuple of columns, declared unique. *)
Definition unique_on {F K} `{EqDecision K} (col : F -> K)
    (rs : list (row F)) (f : F) : bool :=
  bool_decide (Forall (fun r => col (fields r) <> col f) rs).

Definition no_constraints {F} (rs : list (row F)) (f : F) : bool := true.
Definition no_pre_save {F} (add : bool) (f : F) : F := f.

Definition User_constraints := unique_on username.
Definition UserProfile_constraints := unique_on profile_user.
Definition Department_constraints (rs : list (row Department)) f :=
  unique_on dept_name rs f && unique_on dept_code rs f.
Definition Program_constraints (rs : list (row Program)) f :=
  unique_on program_number rs f && unique_on program_code rs f.
Definition Course_constraints := unique_on course_code.
Definition Student_constraints (rs : list (row Student)) f :=
  bool_decide (student_user f <> None)
  && unique_on student_user rs f
  && unique_on registration_no rs f
  && unique_on student_email rs f
  && unique_on student_phone rs f.
Definition Staff_constraints (rs : list (row Staff)) f :=
  unique_on staff_user rs f
  && unique_on staff_email rs f
  && unique_on staff_phone rs f.
Definition Admission_constraints := unique_on adm_student.

(** [unique_together = ("student", "course", "semester", "year")] *)
Definition Enrollment_key (f : Enrollment) : key * key * nat * nat :=
  (enr_student f, enr_course f, enr_semester f, enr_year f).
Definition Enrollment_constraints := unique_on Enrollment_key.

(** [unique_together = ("student", "course", "date")] *)
Definition Attendance_key (f : Attendance) : key * key * date :=
  (att_student f, att_course f, att_date f).
Definition Attendance_constraints := unique_on Attendance_key.

(** The [auto_now_add] columns. *)
Definition Staff_pre_save (now : datetime) (add : bool) (f : Staff) : Staff :=
  if add then
    mkStaff (staff_user f) (staff_full_name f) (staff_type f) (designation f)
            (staff_department f) (staff_email f) (staff_phone f)
            (dt_date now) (staff_is_active f)
  else f.
Definition Admission_pre_save (now : datetime) (add : bool) (f : Admission) :=
  if add then mkAdmission (adm_student f) (adm_program f) (dt_date now)
                          (adm_status f)
  else f.
Definition Enrollment_pre_save (now : datetime) (add : bool) (f : Enrollment) :=
  if add then mkEnrollment (enr_student f) (enr_course f) (enr_semester f)
                           (enr_year f) (dt_date now)
  else f.
Definition Notification_pre_save (now : datetime) (add : bool)
    (f : Notification) :=
  if add then
    mkNotification (recipient_student f) (recipient_staff f) (notif_type f)
                   (title f) (message f) now (read f) (auto_resolved f)
  else f.

(** [Notification.objects.create(...)]: no receiver listens to the saves of
    notifications.  [read] and [auto_resolved] default to [False]. *)
Definition Notification_create (now : datetime)
    (recipient_student recipient_staff : option key)
    (notif_type title : string) (message : fstring)
    (read auto_resolved : bool) : M (row Notification) :=
  r <- write Notification_objects no_constraints (Notification_pre_save now)
         None
         (mkNotification recipient_student recipient_staff notif_type title
            message now read auto_resolved) ;;
  ret (fst r).

(** [UserProfile.objects.create(user=..., role=...)] *)
Definition UserProfile_create (user : key) (role : string)
  : M (row UserProfile) :=
  r <- write UserProfile_objects UserProfile_constraints no_pre_save None
         (mkUserProfile user role) ;;
  ret (fst r).

(** ** models.py: the receiver on [User] *)

Definition create_user_profile (instance : row User) (created : bool)
  : M unit :=
  if created then
    let role :=
      if is_superuser (fields instance) then "Admin"
      else if is_staff (fields instance) then "Staff"
      else "Student" in
    _ <- UserProfile_create (pk instance) role ;;
    ret tt
  else ret tt.

(** ** signals.py: the receivers that create notifications *)

Definition create_admission_notification (now : datetime)
    (instance : row Admission) (created : bool) : M unit :=
  let notif_type := if created then "Admission" else "Admission Update" in
  student <- get Student_objects (adm_student (fields instance)) ;;
  program <- get Program_objects (adm_program (fields instance)) ;;
  _ <- Notification_create now (Some (pk student)) None notif_type
         ("Admission " +:+ (if created then "Created" else "Updated"))
         [Lit "Your admission for "; Lit (program_name (fields program));
          Lit " has been "; Lit (if created then "created" else "updated");
          Lit " with status "; Lit (adm_status (fields instance)); Lit "."]
         false false ;;
  ret tt.

Definition create_enrollment_notification (now : datetime)
    (instance : row Enrollment) (created : bool) : M unit :=
  if created then
    student <- get Student_objects (enr_student (fields instance)) ;;
    course <- get Course_objects (enr_course (fields instance)) ;;
    _ <- Notification_create now (Some (pk student)) None "Enrollment"
           "Course Enrollment Successful"
           [Lit "You have been enrolled in "; Lit (course_code (fields course));
            Lit " for Semester "; PNat (enr_semester (fields instance));
            Lit " ("; PNat (enr_year (fields instance)); Lit ")."]
           false false ;;
    ret tt
  else ret tt.

Definition create_fee_notification (now : datetime)
    (instance : row Fee) (created : bool) : M unit :=
  let fee := fields instance in
  if created && negb (is_paid fee) then
    student <- get Student_objects (fee_student fee) ;;
    _ <- Notification_create now (Some (pk student)) None "Fee"
           "New Fee Assigned"
           [Lit "A new fee of "; PDec (amount fee); Lit " is due on ";
            PDate (due_date fee); Lit "."]
           false false ;;
    ret tt
  else if negb created && negb (is_paid fee)
          && date_ltb (due_date fee) (dt_date now) then
    student <- get Student_objects (fee_student fee) ;;
    _ <- Notification_create now (Some (pk student)) None "Fee"
           "Fee Overdue"
           [Lit "Your fee of "; PDec (amount fee); Lit " is overdue!"]
           false false ;;
    ret tt
  else if negb created && is_paid fee then
    student <- get Student_objects (fee_student fee) ;;
    _ <- modify (over Notification_objects
           (tbl_update_where
              (fun n => bool_decide
                 (recipient_student (fields n) = Some (pk student)
                  /\ notif_type (fields n) = "Fee"
                  /\ read (fields n) = false))
              (fun n => mkNotification (recipient_student n)
                 (recipient_staff n) (notif_type n) (title n) (message n)
                 (created_at n) true true))) ;;
    student <- get Student_objects (fee_student fee) ;;
    _ <- Notification_create now (Some (pk student)) None "Fee"
           "Fee Paid"
           [Lit "Your fee of "; PDec (amount fee); Lit " has been paid."]
           true true ;;
    ret tt
  else ret tt.

Definition create_exam_notification (now : datetime)
    (instance : row Exam) (created : bool) : M unit :=
  if created then
    course <- get Course_objects (exam_course (fields instance)) ;;
    program <- get Program_objects (course_program (fields course)) ;;
    students <- gets (fun db =>
      filter (fun s => student_program (fields s) = pk program)
             (rows (students db))) ;;
    for_each students (fun student =>
      _ <- Notification_create now (Some (pk student)) None "Exam"
             "New Exam Scheduled"
             [Lit "The "; Lit (exam_type (fields instance));
              Lit " exam for "; Lit (course_title (fields course));
              Lit " is scheduled on "; PDate (exam_date (fields instance));
              Lit "."]
             false false ;;
      ret tt)
  else ret tt.

Definition create_attendance_notification (now : datetime)
    (instance : row Attendance) (created : bool) : M unit :=
  if created then
    student <- get Student_objects (att_student (fields instance)) ;;
    course <- get Course_objects (att_course (fields instance)) ;;
    _ <- Notification_create now (Some (pk student)) None "Attendance"
           "Attendance Recorded"
           [Lit "Your attendance for "; Lit (course_code (fields course));
            Lit " on "; PDate (att_date (fields instance));
            Lit " has been marked as "; Lit (att_status (fields instance));
            Lit "."]
           false false ;;
    ret tt
  else ret tt.

Definition create_grade_notification (now : datetime)
    (instance : row Grade) (created : bool) : M unit :=
  if created then
    student <- get Student_objects (grade_student (fields instance)) ;;
    exam <- get Exam_objects (grade_exam (fields instance)) ;;
    course <- get Course_objects (exam_course (fields exam)) ;;
    _ <- Notification_create now (Some (pk student)) None "Grade"
           (exam_type (fields exam) +:+ " Exam Results")
           [Lit "You scored "; PDec (obtained_marks (fields instance));
            Lit " in "; Lit (course_title (fields course)); Lit "."]
           false false ;;
    ret tt
  else ret tt.

Definition create_staff_notification (now : datetime)
    (instance : row Staff) (created : bool) : M unit :=
  if created then
    place <- match staff_department (fields instance) with
             | Some d =>
                 department <- get Department_objects d ;;
                 ret (dept_name (fields department))
             | None => ret "the institution"
             end ;;
    _ <- Notification_create now None (Some (pk instance)) "Staff"
           "Welcome to Staff"
           [Lit "Welcome "; Lit (staff_full_name (fields instance));
            Lit " to "; Lit place; Lit "."]
           false false ;;
    ret tt
  else
    _ <- Notification_create now None (Some (pk instance)) "Staff"
           "Staff Record Updated"
           [Lit "Your staff record has been updated."]
           false false ;;
    ret tt.

(** ** [Model.save()]: the write followed by the post-save receivers *)

Definition User_save (i : option key) (f : User) : M (row User) :=
  r <- write User_objects User_constraints no_pre_save i f ;;
  _ <- create_user_profile (fst r) (snd r) ;;
  ret (fst r).

Definition Department_save (i : option key) (f : Department)
  : M (row Department) :=
  r <- write Department_objects Department_constraints no_pre_save i f ;;
  ret (fst r).

Definition Program_save (i : option key) (f : Program) : M (row Program) :=
  r <- write Program_objects Program_constraints no_pre_save i f ;;
  ret (fst r).

Definition Course_save (i : option key) (f : Course) : M (row Course) :=
  r <- write Course_objects Course_constraints no_pre_save i f ;;
  ret (fst r).

Definition Student_save (i : option key) (f : Student) : M (row Student) :=
  r <- write Student_objects Student_constraints no_pre_save i f ;;
  ret (fst r).

Definition Staff_save (now : datetime) (i : option key) (f : Staff)
  : M (row Staff) :=
  r <- write Staff_objects Staff_constraints (Staff_pre_save now) i f ;;
  _ <- create_staff_notification now (fst r) (snd r) ;;
  ret (fst r).

Definition Admission_save (now : datetime) (i : option key) (f : Admission)
  : M (row Admission) :=
  r <- write Admission_objects Admission_constraints (Admission_pre_save now)
         i f ;;
  _ <- create_admission_notification now (fst r) (snd r) ;;
  ret (fst r).

Definition Enrollment_save (now : datetime) (i : option key) (f : Enrollment)
  : M (row Enrollment) :=
  r <- write Enrollment_objects Enrollment_constraints
         (Enrollment_pre_save now) i f ;;
  _ <- create_enrollment_notification now (fst r) (snd r) ;;
  ret (fst r).

Definition Attendance_save (now : datetime) (i : option key) (f : Attendance)
  : M (row Attendance) :=
  r <- write Attendance_objects Attendance_constraints no_pre_save i f ;;
  _ <- create_attendance_notification now (fst r) (snd r) ;;
  ret (fst r).

Definition Exam_save (now : datetime) (i : option key) (f : Exam)
  : M (row Exam) :=
  r <- write Exam_objects no_constraints no_pre_save i f ;;
  _ <- create_exam_notification now (fst r) (snd r) ;;
  ret (fst r).

Definition Grade_save (now : datetime) (i : option key) (f : Grade)
  : M (row Grade) :=
  r <- write Grade_objects no_constraints no_pre_save i f ;;
  _ <- create_grade_notification now (fst r) (snd r) ;;
  ret (fst r).

Definition Fee_save (now : datetime) (i : option key) (f : Fee)
  : M (row Fee) :=
  r <- write Fee_objects no_constraints no_pre_save i f ;;
  _ <- create_fee_notification now (fst r) (snd r) ;;
  ret (fst r).

Definition Notification_save (now : datetime) (i : option key)
    (f : Notification) : M (row Notification) :=
  r <- write Notification_objects no_constraints (Notification_pre_save now)
         i f ;;
  ret (fst r).

(** ** Deletion, with [on_delete=CASCADE] and [on_delete=SET_NULL] *)

Definition inb (k : key) (ks : list key) : bool := bool_decide (k ∈ ks).

Definition oinb (k : option key) (ks : list key) : bool :=
  match k with Some k => inb k ks | None => false end.

Definition del {F} (objects : manager F) (P : row F -> bool) : DB -> DB :=
  over objects (tbl_delete P).

(** The keys of the rows that refer to one of [ids] through [col]. *)
Definition referring {F} (objects : manager F) (P : F -> bool) (db : DB)
  : list key :=
  map pk (filter (fun r => P (fields r) = true) (rows (view objects db))).

Definition delete_exams (ids : list key) (db : DB) : DB :=
  let db := del Grade_objects (fun r => inb (grade_exam (fields r)) ids) db in
  del Exam_objects (fun r => inb (pk r) ids) db.

Definition delete_students (ids : list key) (db : DB) : DB :=
  let db := del Admission_objects
              (fun r => inb (adm_student (fields r)) ids) db in
  let db := del Enrollment_objects
              (fun r => inb (enr_student (fields r)) ids) db in
  let db := del Attendance_objects
              (fun r => inb (att_student (fields r)) ids) db in
  let db := del Grade_objects
              (fun r => inb (grade_student (fields r)) ids) db in
  let db := del Fee_objects (fun r => inb (fee_student (fields r)) ids) db in
  let db := del Notification_objects
              (fun r => oinb (recipient_student (fields r)) ids) db in
  del Student_objects (fun r => inb (pk r) ids) db.

Definition delete_staffs (ids : list key) (db : DB) : DB :=
  let db := del Notification_objects
              (fun r => oinb (recipient_staff (fields r)) ids) db in
  let db := over Department_objects
              (tbl_update_where (fun r => oinb (hod (fields r)) ids)
                 (fun d => mkDepartment (dept_name d) (dept_code d) None)) db in
  del Staff_objects (fun r => inb (pk r) ids) db.

Definition delete_courses (ids : list key) (db : DB) : DB :=
  let db := del Enrollment_objects
              (fun r => inb (enr_course (fields r)) ids) db in
  let db := del Attendance_objects
              (fun r => inb (att_course (fields r)) ids) db in
  let db := delete_exams
              (referring Exam_objects (fun e => inb (exam_course e) ids) db)
              db in
  del Course_objects (fun r => inb (pk r) ids) db.

Definition delete_programs (ids : list key) (db : DB) : DB :=
  let db := delete_courses
              (referring Course_objects (fun c => inb (course_program c) ids) db)
              db in
  let db := delete_students
              (referring Student_objects
                 (fun s => inb (student_program s) ids) db)
              db in
  let db := del Admission_objects
              (fun r => inb (adm_program (fields r)) ids) db in
  del Program_objects (fun r => inb (pk r) ids) db.

Definition delete_departments (ids : list key) (db : DB) : DB :=
  let db := delete_programs
              (referring Program_objects
                 (fun p => inb (program_department p) ids) db)
              db in
  let db := over Staff_objects
              (tbl_update_where
                 (fun r => oinb (staff_department (fields r)) ids)
                 (fun s => mkStaff (staff_user s) (staff_full_name s)
                    (staff_type s) (designation s) None (staff_email s)
                    (staff_phone s) (date_joined s) (staff_is_active s))) db in
  del Department_objects (fun r => inb (pk r) ids) db.

Definition delete_users (ids : list key) (db : DB) : DB :=
  let db := del UserProfile_objects
              (fun r => inb (profile_user (fields r)) ids) db in
  let db := delete_students
              (referring Student_objects
                 (fun s => oinb (student_user s) ids) db)
              db in
  let db := delete_staffs
              (referring Staff_objects (fun s => inb (staff_user s) ids) db)
              db in
  del User_objects (fun r => inb (pk r) ids) db.

(** ** models.py: role based permission *)

(** [request.user] is either Django's [AnonymousUser] or a stored user. *)
Inductive request_user :=
| AnonymousUser
| Authenticated (u : row User).

Definition is_authenticated (user : request_user) : bool :=
  match user with
  | AnonymousUser => false
  | Authenticated _ => true
  end.

(** [user.profile], the reverse side of the one-to-one column
    [UserProfile.user]. *)
Definition user_profile (user : request_user) : M (row UserProfile) :=
  match user with
  | AnonymousUser => raise AttributeError
  | Authenticated u =>
      ps <- all UserProfile_objects ;;
      match filter (fun p => profile_user (fields p) = pk u) ps with
      | p :: _ => ret p
      | [] => raise RelatedObjectDoesNotExist
      end
  end.

(** What the permission class reads of a view: its [allowed_roles]
    attribute, when the class defines one. *)
Record view_class := ViewClass { allowed_roles : option (list string) }.

Definition has_permission (user : request_user) (view : view_class) : M bool :=
  let allowed_roles := default [] (allowed_roles view) in
  if negb (is_authenticated user) then ret false
  else
    profile <- user_profile user ;;
    let role := role (fields profile) in
    ret (bool_decide (role ∈ allowed_roles)).

(** ** serializers.py

    The data of a request are taken as the field classes hand them on: an
    item is a record of values of the right type with every required key
    present.  Of the checks of the fields, the ones the models declare
    ([max_length], [choices], [unique], the queryset of a related field)
    and the hooks written in serializers.py are modelled. *)

(** A response: the status code. *)
Inductive response := Response (status : nat).

(** The framework answers a [ValidationError] with status 400. *)
Definition handle_exception (m : M response) : M response :=
  fun db =>
    match m db with
    | (Raise (ValidationError _), db') => (Ok (Response 400), db')
    | r => r
    end.

(** [queryset.exists()] *)
Definition exists_ {A} (l : list A) : bool :=
  match l with [] => false | _ :: _ => true end.

Definition UserCreateSerializer_create (validated_data : User)
  : M (row User) :=
  user <- User_save None validated_data ;;
  _ <- UserProfile_create (pk user)
         (if is_superuser (fields user) then "Admin"
          else if is_staff (fields user) then "Staff"
          else "Student") ;;
  ret user.

(** A [PrimaryKeyRelatedField(queryset=Model.objects.all())]. *)
Definition PrimaryKeyRelatedField {F} (objects : manager F) (i : key)
  : M key :=
  t <- gets (view objects) ;;
  match tbl_get t i with
  | Some r => ret (pk r)
  | None => raise (ValidationError "Invalid pk - object does not exist.")
  end.

Definition ChoiceField (choices : list string) (v : string) : M string :=
  if bool_decide (v ∈ choices) then ret v
  else raise (ValidationError "Not a valid choice.").

Definition CharField (max_length : nat) (v : string) : M string :=
  if bool_decide (String.length v <= max_length) then ret v
  else raise (ValidationError "Ensure this field has no more characters.").

(** The [UniqueValidator] of a unique column: it looks at the stored rows. *)
Definition UniqueValidator {F K} `{EqDecision K} (objects : manager F)
    (col : F -> K) (v : K) : M unit :=
  rs <- all objects ;;
  if exists_ (filter (fun r => col (fields r) = v) rs)
  then raise (ValidationError "This field must be unique.")
  else ret tt.

(** The writable fields of one item submitted to [EnrollmentSerializer]. *)
Record EnrollmentData := mkEnrollmentData {
  ed_student_id : key;
  ed_course_id : key;
  ed_semester : nat;
  ed_year : nat }.

Definition EnrollmentSerializer_validate (data : Enrollment)
  : M Enrollment :=
  rs <- all Enrollment_objects ;;
  if exists_ (filter (fun r =>
       enr_student (fields r) = enr_student data
       /\ enr_course (fields r) = enr_course data
       /\ enr_semester (fields r) = enr_semester data
       /\ enr_year (fields r) = enr_year data) rs)
  then raise (ValidationError
    "This student is already enrolled in this course for this semester/year.")
  else ret data.

(** [serializer.is_valid(raise_exception=True)]: the fields, then
    [validate].  [date_enrolled] is read-only and gets its value on
    INSERT. *)
Definition EnrollmentSerializer_run_validation (now : datetime)
    (data : EnrollmentData) : M Enrollment :=
  student <- PrimaryKeyRelatedField Student_objects (ed_student_id data) ;;
  course <- PrimaryKeyRelatedField Course_objects (ed_course_id data) ;;
  EnrollmentSerializer_validate
    (mkEnrollment student course (ed_semester data) (ed_year data)
                  (dt_date now)).

(** [EnrollmentViewSet.create]: validate, save, answer 201. *)
Definition EnrollmentSerializer_create (now : datetime)
    (data : EnrollmentData) : M (row Enrollment) :=
  validated_data <- EnrollmentSerializer_run_validation now data ;;
  Enrollment_save now None validated_data.

Definition EnrollmentViewSet_create (now : datetime) (data : EnrollmentData)
  : M response :=
  handle_exception
    (_ <- EnrollmentSerializer_create now data ;; ret (Response 201)).

Record AttendanceData := mkAttendanceData {
  ad_student_id : key;
  ad_course_id : key;
  ad_date : date;
  ad_status : string }.

Definition AttendanceSerializer_validate (data : Attendance)
  : M Attendance :=
  rs <- all Attendance_objects ;;
  if exists_ (filter (fun r =>
       att_student (fields r) = att_student data
       /\ att_course (fields r) = att_course data
       /\ att_date (fields r) = att_date data) rs)
  then raise (ValidationError
    "Attendance already exists for this student/course/date.")
  else ret data.

Definition AttendanceSerializer_run_validation (data : AttendanceData)
  : M Attendance :=
  student <- PrimaryKeyRelatedField Student_objects (ad_student_id data) ;;
  course <- PrimaryKeyRelatedField Course_objects (ad_course_id data) ;;
  status <- ChoiceField ["Present"; "Absent"; "Leave"] (ad_status data) ;;
  AttendanceSerializer_validate
    (mkAttendance student course (ad_date data) status).

Definition AttendanceSerializer_create (now : datetime)
    (data : AttendanceData) : M (row Attendance) :=
  validated_data <- AttendanceSerializer_run_validation data ;;
  Attendance_save now None validated_data.

Definition AttendanceViewSet_create (now : datetime) (data : AttendanceData)
  : M response :=
  handle_exception
    (_ <- AttendanceSerializer_create now data ;; ret (Response 201)).

(** [NotificationSerializer]: both recipients are writable and neither is
    required; [created_at] is read-only. *)
Record NotificationData := mkNotificationData {
  nd_recipient_student_id : option key;
  nd_recipient_staff_id : option key;
  nd_notif_type : string;
  nd_title : string;
  nd_message : string;
  nd_read : option bool;
  nd_auto_resolved : option bool }.

Definition optional_pk {F} (objects : manager F) (i : option key)
  : M (option key) :=
  match i with
  | Some i => k <- PrimaryKeyRelatedField objects i ;; ret (Some k)
  | None => ret None
  end.

Definition NotificationSerializer_run_validation (now : datetime)
    (data : NotificationData) : M Notification :=
  student <- optional_pk Student_objects (nd_recipient_student_id data) ;;
  staff <- optional_pk Staff_objects (nd_recipient_staff_id data) ;;
  notif_type <- CharField 50 (nd_notif_type data) ;;
  title <- CharField 150 (nd_title data) ;;
  ret (mkNotification student staff notif_type title [Lit (nd_message data)]
         now (default false (nd_read data))
         (default false (nd_auto_resolved data))).

Definition NotificationSerializer_create (now : datetime)
    (data : NotificationData) : M (row Notification) :=
  validated_data <- NotificationSerializer_run_validation now data ;;
  Notification_save now None validated_data.

Definition NotificationViewSet_create (now : datetime)
    (data : NotificationData) : M response :=
  handle_exception
    (_ <- NotificationSerializer_create now data ;; ret (Response 201)).

(** [StudentSerializer]: [user], [program] and [age] are read-only, so the
    validated data of an item never holds a user. *)
Record StudentData := mkStudentData {
  sd_registration_no : string;
  sd_full_name : string;
  sd_gender : string;
  sd_dob : date;
  sd_email : string;
  sd_phone : string;
  sd_address : string;
  sd_program_id : key;
  sd_enrollment_year : nat;
  sd_is_active : option bool }.

Definition validate_dob (now : datetime) (value : date) : M date :=
  if date_ltb (dt_date now) value
  then raise (ValidationError "Date of birth cannot be in the future.")
  else ret value.

Definition StudentSerializer_run_validation (now : datetime)
    (data : StudentData) : M Student :=
  reg_no <- CharField 30 (sd_registration_no data) ;;
  _ <- UniqueValidator Student_objects registration_no reg_no ;;
  full_name <- CharField 150 (sd_full_name data) ;;
  gender <- ChoiceField ["Male"; "Female"; "Other"] (sd_gender data) ;;
  dob <- validate_dob now (sd_dob data) ;;
  email <- CharField 254 (sd_email data) ;;
  _ <- UniqueValidator Student_objects student_email email ;;
  phone <- CharField 15 (sd_phone data) ;;
  _ <- UniqueValidator Student_objects student_phone phone ;;
  program <- PrimaryKeyRelatedField Program_objects (sd_program_id data) ;;
  ret (mkStudent reg_no None full_name gender dob email phone
         (sd_address data) program (sd_enrollment_year data)
         (default true (sd_is_active data))).

(** [CourseSerializer]: [program] is read-only, [program_id] writes it. *)
Record CourseData := mkCourseData {
  cd_code : string;
  cd_title : string;
  cd_credit_hours : Z;
  cd_semester : nat;
  cd_program_id : key }.

(** [DecimalField(max_digits=3, decimal_places=1)] on a value given in
    tenths. *)
Definition credit_hours_field (v : Z) : M Z :=
  if (Z.abs v <? 1000)%Z then ret v
  else raise (ValidationError "Ensure that there are no more than 3 digits.").

(** [choices=[(i, ...) for i in range(1, 9)]] *)
Definition semester_field (v : nat) : M nat :=
  if bool_decide (v ∈ seq 1 8) then ret v
  else raise (ValidationError "Not a valid choice.").

Definition CourseSerializer_run_validation (data : CourseData) : M Course :=
  code <- CharField 20 (cd_code data) ;;
  _ <- UniqueValidator Course_objects course_code code ;;
  title <- CharField 150 (cd_title data) ;;
  hours <- credit_hours_field (cd_credit_hours data) ;;
  semester <- semester_field (cd_semester data) ;;
  program <- PrimaryKeyRelatedField Program_objects (cd_program_id data) ;;
  ret (mkCourse code title hours semester program).

(** [Serializer(data=..., many=True).is_valid()]: every item is validated
    against the stored rows; the list is valid when every item is.  The
    answer is the validated data, or [None] when [serializer.errors] is not
    empty. *)
Definition is_valid_many {D F} (run_validation : D -> M F) (data : list D)
  : M (option (list F)) :=
  fun db =>
    match map_M run_validation data db with
    | (Ok validated_data, db') => (Ok (Some validated_data), db')
    | (Raise (ValidationError _), db') => (Ok None, db')
    | (Raise e, db') => (Raise e, db')
    end.

(** ** views.py *)

(** [serializer.data]: the framework renders the saved instances for the
    body of the response.  Rendering reads the database and can raise (a
    hyperlinked field, for one, asks for the request in the serializer
    context); how it goes is an input of the views that ask for it. *)
Definition renderer (F : Type) : Type := list (row F) -> DB -> result unit.

Definition render {F} (serializer_data : renderer F)
    (instances : list (row F)) : M unit :=
  fun db => (serializer_data instances db, db).

(** [StudentBulkAPIView.post] *)
Definition StudentBulkAPIView_post (serializer_data : renderer Student)
    (now : datetime) (data : list StudentData) : M response :=
  atomic (
    valid <- is_valid_many (StudentSerializer_run_validation now) data ;;
    match valid with
    | Some validated_data =>
        instances <- map_M (Student_save None) validated_data ;;
        _ <- render serializer_data instances ;;
        ret (Response 201)
    | None => ret (Response 400)
    end).

(** [CourseBulkAPIView.post] *)
Definition CourseBulkAPIView_post (serializer_data : renderer Course)
    (data : list CourseData) : M response :=
  atomic (
    valid <- is_valid_many CourseSerializer_run_validation data ;;
    match valid with
    | Some validated_data =>
        instances <- map_M (Course_save None) validated_data ;;
        _ <- render serializer_data instances ;;
        ret (Response 201)
    | None => ret (Response 400)
    end).

(** [StudentViewSet.get_queryset].  The class attribute [queryset] is
    [Student.objects.all().order_by("-id")]. *)
Definition id_desc {F} (a b : row F) : Prop := pk b <= pk a.

#[global] Instance id_desc_dec {F} (a b : row F) : Decision (id_desc a b).
Proof. unfold id_desc. apply _. Defined.

Definition order_by_minus_id {F} (rs : list (row F)) : list (row F) :=
  merge_sort id_desc rs.

Definition StudentViewSet_queryset : M (list (row Student)) :=
  rs <- all Student_objects ;; ret (order_by_minus_id rs).

Definition StudentViewSet_get_queryset (user : request_user)
  : M (list (row Student)) :=
  profile <- user_profile user ;;
  let role := role (fields profile) in
  if bool_decide (role = "Student") then
    match user with
    | Authenticated u =>
        rs <- all Student_objects ;;
        ret (filter (fun s => student_user (fields s) = Some (pk u)) rs)
    | AnonymousUser => raise AttributeError
    end
  else if bool_decide (role = "Staff") then all Student_objects
  else StudentViewSet_queryset.

(** [FeeViewSet.mark_paid] and [NotificationViewSet.mark_read] *)
Definition FeeViewSet_mark_paid (now : datetime) (i : key) : M response :=
  fee <- get Fee_objects i ;;
  let f := fields fee in
  _ <- Fee_save now (Some (pk fee))
         (mkFee (fee_student f) (amount f) (due_date f) true
                (Some (dt_date now))) ;;
  ret (Response 200).

Definition NotificationViewSet_mark_read (now : datetime) (i : key)
  : M response :=
  notification <- get Notification_objects i ;;
  let n := fields notification in
  _ <- Notification_save now (Some (pk notification))
         (mkNotification (recipient_student n) (recipient_staff n)
            (notif_type n) (title n) (message n) (created_at n) true
            (auto_resolved n)) ;;
  ret (Response 200).

(** *** The dashboard *)

(** A model class as [date_filter] sees it: its manager, and its
    [created_at] attribute when the model declares that column. *)
Record model_class (F : Type) := ModelClass {
  objects : manager F;
  created_at_attr : option (F -> datetime) }.
Arguments ModelClass {F} objects created_at_attr.
Arguments objects {F} m.
Arguments created_at_attr {F} m.

Definition Student_model := ModelClass Student_objects None.
Definition Staff_model := ModelClass Staff_objects None.
Definition Admission_model := ModelClass Admission_objects None.
Definition Enrollment_model := ModelClass Enrollment_objects None.
Definition Attendance_model := ModelClass Attendance_objects None.
Definition Exam_model := ModelClass Exam_objects None.
Definition Grade_model := ModelClass Grade_objects None.
Definition Fee_model := ModelClass Fee_objects None.
Definition Notification_model :=
  ModelClass Notification_objects (Some created_at).

(** [created_at__range=[start, end]]: BETWEEN, both bounds included. *)
Definition in_range (start end_ : date) (t : datetime) : bool :=
  datetime_leb (midnight start) t && datetime_leb t (midnight end_).

Definition date_filter {F} (start end_ : option date) (model : model_class F)
  : M (list (row F)) :=
  match created_at_attr model, start, end_ with
  | Some created_at, Some s, Some e =>
      rs <- all (objects model) ;;
      ret (filter (fun r => in_range s e (created_at (fields r)) = true) rs)
  | _, _, _ => all (objects model)
  end.

Definition count {F} (q : M (list (row F))) : M nat :=
  rs <- q ;; ret (length rs).

Record query_params := QueryParams {
  qp_filter : option string;
  qp_start : option string;
  qp_end : option string }.

Record dashboard_data := DashboardData {
  total_students : nat;
  total_staff : nat;
  total_admissions : nat;
  total_enrollments : nat;
  total_attendance : nat;
  total_exams : nat;
  total_grades : nat;
  total_fees : nat;
  total_notifications : nat;
  filter_type : string;
  start_date : option date;
  end_date : option date }.

Inductive dashboard_response :=
| DashboardOk (status : nat) (data : dashboard_data)
| DashboardError (status : nat) (error : string).

Definition truthy (s : option string) : bool :=
  match s with
  | Some s => negb (bool_decide (s = EmptyString))
  | None => false
  end.

Section Dashboard.
(** [datetime.strptime(s, "%Y-%m-%d").date()]; [None] is [ValueError]. *)
Variable strptime : string -> option date.

(** The date range of the request: [Ok (start, end)], or the error
    response of the view. *)
Definition date_range (now : datetime) (q : query_params)
  : option date * option date + dashboard_response :=
  if bool_decide (qp_filter q = Some "today") then
    inl (Some (dt_date now), Some (add_days (dt_date now) 1))
  else if bool_decide (qp_filter q = Some "week") then
    inl (Some (sub_days (dt_date now) 7), Some (add_days (dt_date now) 1))
  else if bool_decide (qp_filter q = Some "month") then
    inl (Some (replace_day1 now), Some (add_days (dt_date now) 1))
  else if bool_decide (qp_filter q = Some "custom")
          && truthy (qp_start q) && truthy (qp_end q) then
    match strptime (default EmptyString (qp_start q)) with
    | Some s =>
        match strptime (default EmptyString (qp_end q)) with
        | Some e => inl (Some s, Some (add_days e 1))
        | None =>
            inr (DashboardError 400 "Invalid date format. Use YYYY-MM-DD.")
        end
    | None => inr (DashboardError 400 "Invalid date format. Use YYYY-MM-DD.")
    end
  else inl (None, None).

Definition DashboardAPIView_get (now : datetime) (q : query_params)
  : M dashboard_response :=
  match date_range now q with
  | inr error => ret error
  | inl (start, end_) =>
      n_students <- count (date_filter start end_ Student_model) ;;
      n_staff <- count (date_filter start end_ Staff_model) ;;
      n_admissions <- count (date_filter start end_ Admission_model) ;;
      n_enrollments <- count (date_filter start end_ Enrollment_model) ;;
      n_attendance <- count (date_filter start end_ Attendance_model) ;;
      n_exams <- count (date_filter start end_ Exam_model) ;;
      n_grades <- count (date_filter start end_ Grade_model) ;;
      n_fees <- count (date_filter start end_ Fee_model) ;;
      n_notifications <- count (date_filter start end_ Notification_model) ;;
      ret (DashboardOk 200
             (DashboardData n_students n_staff n_admissions n_enrollments
                n_attendance n_exams n_grades n_fees n_notifications
                (match qp_filter q with
                 | Some f => if bool_decide (f = EmptyString) then "all" else f
                 | None => "all"
                 end)
                start end_))
  end.
End Dashboard.

(** ** The state machine of the application

    One step is one call into the application: a save or a deletion of any
    model (through the API, the admin site or a shell), or one of the
    endpoints that have a body of their own.  The bulk update endpoints are
    a sequence of such saves inside one transaction: they leave the state
    the saves leave, or the state they found. *)

Inductive operation :=
| save_user (i : option key) (f : User)
| save_department (i : option key) (f : Department)
| save_program (i : option key) (f : Program)
| save_course (i : option key) (f : Course)
| save_student (i : option key) (f : Student)
| save_staff (i : option key) (f : Staff)
| save_admission (i : option key) (f : Admission)
| save_enrollment (i : option key) (f : Enrollment)
| save_attendance (i : option key) (f : Attendance)
| save_exam (i : option key) (f : Exam)
| save_grade (i : option key) (f : Grade)
| save_fee (i : option key) (f : Fee)
| save_notification (i : option key) (f : Notification)
| remove_users (ids : list key)
| remove_departments (ids : list key)
| remove_programs (ids : list key)
| remove_courses (ids : list key)
| remove_students (ids : list key)
| remove_staffs (ids : list key)
| remove_admissions (ids : list key)
| remove_enrollments (ids : list key)
| remove_attendances (ids : list key)
| remove_exams (ids : list key)
| remove_grades (ids : list key)
| remove_fees (ids : list key)
| remove_notifications (ids : list key)
| serializer_create_user (f : User)
| post_enrollment (data : EnrollmentData)
| post_attendance (data : AttendanceData)
| post_notification (data : NotificationData)
| post_student_bulk (serializer_data : renderer Student)
    (data : list StudentData)
| post_course_bulk (serializer_data : renderer Course)
    (data : list CourseData)
| post_mark_paid (i : key)
| post_mark_read (i : key).

Definition by_pk {F} (ids : list key) (r : row F) : bool := inb (pk r) ids.

(** The state in which a call leaves the database, whether it returns or
    raises. *)
Definition run (now : datetime) (o : operation) (db : DB) : DB :=
  match o with
  | save_user i f => state_after (User_save i f) db
  | save_department i f => state_after (Department_save i f) db
  | save_program i f => state_after (Program_save i f) db
  | save_course i f => state_after (Course_save i f) db
  | save_student i f => state_after (Student_save i f) db
  | save_staff i f => state_after (Staff_save now i f) db
  | save_admission i f => state_after (Admission_save now i f) db
  | save_enrollment i f => state_after (Enrollment_save now i f) db
  | save_attendance i f => state_after (Attendance_save now i f) db
  | save_exam i f => state_after (Exam_save now i f) db
  | save_grade i f => state_after (Grade_save now i f) db
  | save_fee i f => state_after (Fee_save now i f) db
  | save_notification i f => state_after (Notification_save now i f) db
  | remove_users ids => delete_users ids db
  | remove_departments ids => delete_departments ids db
  | remove_programs ids => delete_programs ids db
  | remove_courses ids => delete_courses ids db
  | remove_students ids => delete_students ids db
  | remove_staffs ids => delete_staffs ids db
  | remove_admissions ids => del Admission_objects (by_pk ids) db
  | remove_enrollments ids => del Enrollment_objects (by_pk ids) db
  | remove_attendances ids => del Attendance_objects (by_pk ids) db
  | remove_exams ids => delete_exams ids db
  | remove_grades ids => del Grade_objects (by_pk ids) db
  | remove_fees ids => del Fee_objects (by_pk ids) db
  | remove_notifications ids => del Notification_objects (by_pk ids) db
  | serializer_create_user f => state_after (UserCreateSerializer_create f) db
  | post_enrollment data => state_after (EnrollmentViewSet_create now data) db
  | post_attendance data => state_after (AttendanceViewSet_create now data) db
  | post_notification data =>
      state_after (NotificationViewSet_create now data) db
  | post_student_bulk serializer_data data =>
      state_after (StudentBulkAPIView_post serializer_data now data) db
  | post_course_bulk serializer_data data =>
      state_after (CourseBulkAPIView_post serializer_data data) db
  | post_mark_paid i => state_after (FeeViewSet_mark_paid now i) db
  | post_mark_read i => state_after (NotificationViewSet_mark_read now i) db
  end.

(** The states the application reaches from the empty database by calls
    that satisfy [allowed]. *)
Inductive reachable_by (allowed : operation -> Prop) : DB -> Prop :=
| reach_empty : reachable_by allowed empty_db
| reach_step db now o :
    reachable_by allowed db -> allowed o ->
    reachable_by allowed (run now o db).

Definition reachable : DB -> Prop := reachable_by (fun _ => True).


(** ** Specifications *)

(** A Hoare triple for ORM code: from a state in [P] the call either
    returns [a] in a state in [Q a], or raises [e] in a state in [E e]. *)
Definition hoare {A} (P : DB -> Prop) (m : M A) (Q : A -> DB -> Prop)
    (E : exn -> DB -> Prop) : Prop :=
  forall db, P db ->
    match m db with
    | (Ok a, db') => Q a db'
    | (Raise e, db') => E e db'
    end.

(** [m] keeps the invariant [I], however it ends. *)
Definition preserves {A} (I : DB -> Prop) (m : M A) : Prop :=
  hoare I m (fun _ => I) (fun _ => I).

(** [m] is a validation: it reads the database, and the only exception it
    raises is [ValidationError]. *)
Definition validation {A} (m : M A) : Prop :=
  forall db0,
    hoare (fun db => db = db0) m (fun _ db => db = db0)
      (fun e db => db = db0 /\ exists msg, e = ValidationError msg).

(** The laws of an accessor pair. *)
Record lawful {F} (objects : manager F) : Prop := Lawful {
  view_over : forall g db, view objects (over objects g db) = g (view objects db);
  over_over : forall g1 g2 db,
    over objects g2 (over objects g1 db) = over objects (fun t => g2 (g1 t)) db;
  over_ext : forall g g' db,
    g (view objects db) = g' (view objects db) ->
    over objects g db = over objects g' db;
  over_id : forall db, over objects (fun t => t) db = db }.

(** The database with the rows [news] appended to one table. *)
Definition with_rows {F} (objects : manager F) (news : list (row F))
    (db : DB) : DB :=
  over objects (fun t => Table (rows t ++ news) (last_id t + length news)) db.

(** [I] does not depend on the table behind [objects]. *)
Definition ignores {F} (I : DB -> Prop) (objects : manager F) : Prop :=
  forall g db, I db -> I (over objects g db).

(** An invariant that speaks about one table. *)
Definition on_table {F} (objects : manager F) (U : table F -> Prop)
  : DB -> Prop :=
  fun db => U (view objects db).

(** No two rows of the table agree on [col]. *)
Definition no_two_agree {F K} (col : F -> K) (t : table F) : Prop :=
  forall i j r1 r2,
    rows t !! i = Some r1 -> rows t !! j = Some r2 -> i <> j ->
    col (fields r1) <> col (fields r2).

Definition unique_rows {F K} (col : F -> K) (t : table F) : Prop :=
  tbl_wf t /\ NoDup (map (fun r => col (fields r)) (rows t)).



(** Users and profiles are in one-to-one correspondence. *)
Definition profiles_match_users (db : DB) : Prop :=
  tbl_wf (users db)
  /\ map (fun p => profile_user (fields p)) (rows (profiles db))
       ≡ₚ pks (users db).

(** The profiles of the user with key [u]. *)
Definition profiles_of (db : DB) (u : key) : list (row UserProfile) :=
  filter (fun p => profile_user (fields p) = u) (rows (profiles db)).

(** The role the receiver and the serializer give to a new user. *)
Definition role_of (u : User) : string :=
  if is_superuser u then "Admin" else if is_staff u then "Staff"
  else "Student".

(** ** Vocabulary of the notification receivers *)

Definition notification_count (db : DB) : nat :=
  length (rows (notifications db)).

(** The database with the rows [news] appended to the notifications. *)
Definition with_notifications (news : list (row Notification)) (db : DB)
  : DB :=
  with_rows Notification_objects news db.

(** [post_save.send(sender, instance, created)]: the receivers of
    signals.py, by sender. *)
Inductive saved :=
| SavedAdmission (instance : row Admission)
| SavedEnrollment (instance : row Enrollment)
| SavedFee (instance : row Fee)
| SavedExam (instance : row Exam)
| SavedAttendance (instance : row Attendance)
| SavedGrade (instance : row Grade)
| SavedStaff (instance : row Staff).

Definition post_save (now : datetime) (s : saved) (created : bool) : M unit :=
  match s with
  | SavedAdmission i => create_admission_notification now i created
  | SavedEnrollment i => create_enrollment_notification now i created
  | SavedFee i => create_fee_notification now i created
  | SavedExam i => create_exam_notification now i created
  | SavedAttendance i => create_attendance_notification now i created
  | SavedGrade i => create_grade_notification now i created
  | SavedStaff i => create_staff_notification now i created
  end.

Definition stored {F} (objects : manager F) (i : key) (db : DB) : Prop :=
  is_Some (tbl_get (view objects db) i).

(** The students of the program of the course of an exam. *)
Definition exam_students (db : DB) (instance : row Exam)
  : list (row Student) :=
  match tbl_get (courses db) (exam_course (fields instance)) with
  | Some course =>
      filter (fun s => student_program (fields s)
                       = course_program (fields course))
             (rows (students db))
  | None => []
  end.

(** Referential integrity of a saved instance: the rows its ForeignKey
    columns name are stored. *)
Definition refers_to_stored_rows (db : DB) (s : saved) : Prop :=
  match s with
  | SavedAdmission i =>
      stored Student_objects (adm_student (fields i)) db
      /\ stored Program_objects (adm_program (fields i)) db
  | SavedEnrollment i =>
      stored Student_objects (enr_student (fields i)) db
      /\ stored Course_objects (enr_course (fields i)) db
  | SavedFee i => stored Student_objects (fee_student (fields i)) db
  | SavedExam i =>
      exists course,
        tbl_get (courses db) (exam_course (fields i)) = Some course
        /\ stored Program_objects (course_program (fields course)) db
  | SavedAttendance i =>
      stored Student_objects (att_student (fields i)) db
      /\ stored Course_objects (att_course (fields i)) db
  | SavedGrade i =>
      stored Student_objects (grade_student (fields i)) db
      /\ exists exam,
           tbl_get (exams db) (grade_exam (fields i)) = Some exam
           /\ stored Course_objects (exam_course (fields exam)) db
  | SavedStaff i =>
      match staff_department (fields i) with
      | Some d => stored Department_objects d db
      | None => True
      end
  end.

(** How many notifications the receivers write for a save. *)
Definition notifications_due (now : datetime) (db : DB) (s : saved)
    (created : bool) : nat :=
  match s with
  | SavedAdmission _ | SavedStaff _ => 1
  | SavedEnrollment _ | SavedAttendance _ | SavedGrade _ =>
      if created then 1 else 0
  | SavedExam i => if created then length (exam_students db i) else 0
  | SavedFee i =>
      if created then (if is_paid (fields i) then 0 else 1)
      else if is_paid (fields i) then 1
      else if date_ltb (due_date (fields i)) (dt_date now) then 1 else 0
  end.

(** The notification of a scheduled exam, for one student. *)
Definition is_exam_notification (s : row Student) (n : row Notification)
  : Prop :=
  recipient_student (fields n) = Some (pk s)
  /\ recipient_staff (fields n) = None
  /\ notif_type (fields n) = "Exam".

(** What paying a fee does to a stored notification of the student [s]. *)
Definition resolve_fee_notification (s : key) (n : row Notification)
  : row Notification :=
  if bool_decide (recipient_student (fields n) = Some s
                  /\ notif_type (fields n) = "Fee"
                  /\ read (fields n) = false)
  then Row (pk n)
         (mkNotification (recipient_student (fields n))
            (recipient_staff (fields n)) (notif_type (fields n))
            (title (fields n)) (message (fields n)) (created_at (fields n))
            true true)
  else n.


(** ** A small college, for the examples

    One student (Alice), one teacher (Bob), one department, program and
    course, and one record of every kind for Alice. *)

Definition day0 : date := Date 2024 6 15.
Definition now0 : datetime := DateTime day0 36000.

Definition alice : User := mkUser "alice" false false.
Definition bob : User := mkUser "bob" true false.

Definition alice_student : Student :=
  mkStudent "REG-001" (Some 1) "Alice" "Female" (Date 2004 2 29)
            "alice@example.org" "0300-1" "1 Canal Road" 1 2023 true.

Definition bob_staff : Staff :=
  mkStaff 2 "Bob" "Teaching" None (Some 1) "bob@example.org" "0300-2" day0
          true.

Definition cs101 : Course := mkCourse "CS101" "Programming" 30 1 1.

Definition alice_enrollment : Enrollment := mkEnrollment 1 1 1 2024 day0.
Definition alice_fee : Fee := mkFee 1 150000 (Date 2024 7 1) false None.
Definition midterm : Exam := mkExam 1 "Midterm" (Date 2024 7 10) 100.

Definition college_history : list operation :=
  [ save_user None alice;
    save_user None bob;
    save_department None (mkDepartment "Computer Science" "CS" None);
    save_program None (mkProgram 1 "BS Computer Science" "BSCS" "BS" 1 4);
    save_course None cs101;
    save_student None alice_student;
    save_staff None bob_staff;
    save_admission None (mkAdmission 1 1 day0 "Pending");
    save_enrollment None alice_enrollment;
    save_attendance None (mkAttendance 1 1 day0 "Present");
    save_exam None midterm;
    save_grade None (mkGrade 1 1 8550);
    save_fee None alice_fee ].

Definition replay (now : datetime) (history : list operation) (db : DB)
  : DB :=
  foldl (fun db o => run now o db) db history.

Definition college : DB := replay now0 college_history empty_db.




Definition today_query : query_params :=
  QueryParams (Some "today") None None.

Definition no_strptime (s : string) : option date := None.


Definition alice_row : row User := Row 1 alice.
Definition alice_profile : row UserProfile :=
  Row 1 (mkUserProfile 1 "Student").

Definition paid_fee : row Fee :=
  Row 1 (mkFee 1 150000 (Date 2024 7 1) true (Some day0)).

Definition student_view : view_class :=
  ViewClass (Some ["Admin"; "Staff"; "Student"]).

Definition midterm_row : row Exam := Row 1 midterm.


(** * The rest of the application *)

(** ** models.py: the permission classes of a fixed role *)

(** [AnonymousUser] has [is_superuser] and [is_staff] set to [False]. *)
Definition user_is_superuser (user : request_user) : bool :=
  match user with
  | AnonymousUser => false
  | Authenticated u => is_superuser (fields u)
  end.

Definition user_is_staff (user : request_user) : bool :=
  match user with
  | AnonymousUser => false
  | Authenticated u => is_staff (fields u)
  end.

(** [IsAdmin.has_permission]: [a and b and (c or d)] evaluates [d], the
    access to the profile, only when the three before it do not decide. *)
Definition IsAdmin_has_permission (user : request_user) : M bool :=
  if negb (is_authenticated user) then ret false
  else if user_is_superuser user then ret true
  else
    profile <- user_profile user ;;
    ret (bool_decide (role (fields profile) = "Admin")).

(** [IsStaff.has_permission] *)
Definition IsStaff_has_permission (user : request_user) : M bool :=
  if negb (is_authenticated user) then ret false
  else if user_is_staff user then ret true
  else
    profile <- user_profile user ;;
    ret (bool_decide (role (fields profile) = "Staff")).

(** [IsStudent.has_permission] *)
Definition IsStudent_has_permission (user : request_user) : M bool :=
  if negb (is_authenticated user) then ret false
  else
    profile <- user_profile user ;;
    ret (bool_decide (role (fields profile) = "Student")).

(** [ROLE_CHOICES] *)
Definition ROLE_CHOICES : list string := ["Admin"; "Staff"; "Student"].

(** Every stored profile has one of the three roles. *)
Definition known_roles (t : table UserProfile) : Prop :=
  Forall (fun p => role (fields p) ∈ ROLE_CHOICES) (rows t).

(** ** models.py: [Student.age] *)

(** [(a, b) < (c, d)] on tuples of integers. *)
Definition tuple_ltb (a b : Z * Z) : bool :=
  (fst a <? fst b)%Z || ((fst a =? fst b)%Z && (snd a <? snd b)%Z).

(** [Student.age], with [date.today()] as [today]; the comparison counts as
    the integer 1 when it holds. *)
Definition age (today dob : date) : Z :=
  (d_year today - d_year dob
   - (if tuple_ltb (d_month today, d_day today) (d_month dob, d_day dob)
      then 1 else 0))%Z.

(** The date [d] moved by [k] years, kept as a (year, month, day) tuple. *)
Definition years_later (d : date) (k : Z) : date :=
  Date (d_year d + k) (d_month d) (d_day d).

(** [a <= b] on dates. *)
Definition date_le (a b : date) : Prop := date_ltb b a = false.

(** ** admin.py: [NotificationAdmin.title_display] *)



(** ** More of the small college *)

(** Alice is made a superuser after her account was created. *)
Definition promoted_alice : row User := Row 1 (mkUser "alice" true true).

Definition college_promoted : DB :=
  run now0 (save_user (Some 1) (fields promoted_alice)) college.

Definition week_query : query_params := QueryParams (Some "week") None None.
Definition month_query : query_params := QueryParams (Some "month") None None.

(** ** Vocabulary of the detail actions *)



(** The database as a receiver may leave it: only the notifications
    differ. *)
Definition only_notifications_differ (db0 db : DB) : Prop :=
  exists t, db = over Notification_objects (fun _ => t) db0
            /\ pks (notifications db0) `prefix_of` pks t.

Definition carol : User := mkUser "carol" false false.

(** ** views.py: the [deactivate] actions *)

(** [self.get_object()]: the record with key [i] among those that
    [filter_queryset(get_queryset())] gives.  [None] stands for the Http404
    that the framework answers with status 404.  What the filter backends
    keep depends on the query string; it is an input of the view. *)
Definition get_object {F} (queryset : list (row F)) (i : key)
  : option (row F) :=
  head (filter (fun r => pk r = i) queryset).

(** [student.is_active = False] *)
Definition deactivated_student (s : Student) : Student :=
  mkStudent (registration_no s) (student_user s) (full_name s) (gender s)
            (dob s) (student_email s) (student_phone s) (address s)
            (student_program s) (enrollment_year s) false.

(** [staff.is_active = False] *)
Definition deactivated_staff (s : Staff) : Staff :=
  mkStaff (staff_user s) (staff_full_name s) (staff_type s) (designation s)
          (staff_department s) (staff_email s) (staff_phone s)
          (date_joined s) false.

(** [StudentViewSet.deactivate] *)
Definition StudentViewSet_deactivate
    (filter_queryset : list (row Student) -> list (row Student))
    (user : request_user) (i : key) : M response :=
  queryset <- StudentViewSet_get_queryset user ;;
  match get_object (filter_queryset queryset) i with
  | Some student =>
      _ <- Student_save (Some (pk student))
             (deactivated_student (fields student)) ;;
      ret (Response 200)
  | None => ret (Response 404)
  end.

(** [StaffViewSet.deactivate]; the class attribute [queryset] is
    [Staff.objects.all()]. *)
Definition StaffViewSet_deactivate
    (filter_queryset : list (row Staff) -> list (row Staff))
    (now : datetime) (i : key) : M response :=
  queryset <- all Staff_objects ;;
  match get_object (filter_queryset queryset) i with
  | Some staff =>
      _ <- Staff_save now (Some (pk staff))
             (deactivated_staff (fields staff)) ;;
      ret (Response 200)
  | None => ret (Response 404)
  end.

(** A filter backend keeps or drops rows of the queryset; it adds none. *)
Definition narrows {F} (filter_queryset : list (row F) -> list (row F))
  : Prop :=
  forall l r, r ∈ filter_queryset l -> r ∈ l.

(** The unique columns of the students and of the staff. *)
Definition students_unique (t : table Student) : Prop :=
  unique_rows registration_no t
  /\ unique_rows student_user t
  /\ unique_rows student_email t
  /\ unique_rows student_phone t
  /\ Forall (fun r => student_user (fields r) <> None) (rows t).

Definition staffs_unique (t : table Staff) : Prop :=
  unique_rows staff_user t
  /\ unique_rows staff_email t
  /\ unique_rows staff_phone t.

(** ** models.py: the foreign keys *)

(** Every row of [child] whose column [col] is set names a stored row of
    [parent]. *)
Definition refers {F G} (col : F -> option key) (child : table F)
    (parent : table G) : Prop :=
  forall r k, r ∈ rows child -> col (fields r) = Some k -> k ∈ pks parent.

(** The ForeignKey and OneToOneField columns of models.py, in the order of
    the file.  [Staff.designation] is left out with its table. *)
Definition foreign_keys_valid (db : DB) : Prop :=
  refers (fun f => Some (profile_user f)) (profiles db) (users db)
  /\ refers hod (departments db) (staffs db)
  /\ refers (fun f => Some (program_department f)) (programs db)
       (departments db)
  /\ refers (fun f => Some (course_program f)) (courses db) (programs db)
  /\ refers student_user (students db) (users db)
  /\ refers (fun f => Some (student_program f)) (students db) (programs db)
  /\ refers (fun f => Some (staff_user f)) (staffs db) (users db)
  /\ refers staff_department (staffs db) (departments db)
  /\ refers (fun f => Some (adm_student f)) (admissions db) (students db)
  /\ refers (fun f => Some (adm_program f)) (admissions db) (programs db)
  /\ refers (fun f => Some (enr_student f)) (enrollments db) (students db)
  /\ refers (fun f => Some (enr_course f)) (enrollments db) (courses db)
  /\ refers (fun f => Some (att_student f)) (attendances db) (students db)
  /\ refers (fun f => Some (att_course f)) (attendances db) (courses db)
  /\ refers (fun f => Some (exam_course f)) (exams db) (courses db)
  /\ refers (fun f => Some (grade_student f)) (grades db) (students db)
  /\ refers (fun f => Some (grade_exam f)) (grades db) (exams db)
  /\ refers (fun f => Some (fee_student f)) (fees db) (students db)
  /\ refers recipient_student (notifications db) (students db)
  /\ refers recipient_staff (notifications db) (staffs db).

(** The calls that delete records. *)
Definition removes (o : operation) : Prop :=
  match o with
  | remove_users _ | remove_departments _ | remove_programs _
  | remove_courses _ | remove_students _ | remove_staffs _
  | remove_admissions _ | remove_enrollments _ | remove_attendances _
  | remove_exams _ | remove_grades _ | remove_fees _
  | remove_notifications _ => True
  | _ => False
  end.
(** * Proofs *)

(** ** The program logic *)

Section Logic.
Context {A B : Type}.
Implicit Types (P I : DB -> Prop) (E : exn -> DB -> Prop).

Lemma hoare_ret P (a : A) (Q : A -> DB -> Prop) E :
  (forall db, P db -> Q a db) -> hoare P (ret a) Q E.
Proof. intros H db HP. simpl. auto. Qed.

Lemma hoare_raise P e (Q : A -> DB -> Prop) E :
  (forall db, P db -> E e db) -> hoare P (raise e) Q E.
Proof. intros H db HP. simpl. auto. Qed.

Lemma hoare_gets P (f : DB -> A) (Q : A -> DB -> Prop) E :
  (forall db, P db -> Q (f db) db) -> hoare P (gets f) Q E.
Proof. intros H db HP. simpl. auto. Qed.

Lemma hoare_bind P (m : M A) (k : A -> M B) Q R E :
  hoare P m Q E -> (forall a, hoare (Q a) (k a) R E) ->
  hoare P (bind m k) R E.
Proof.
  intros Hm Hk db HP. unfold bind. specialize (Hm db HP).
  destruct (m db) as [[a|e] db']; [|done].
  apply (Hk a db' Hm).
Qed.

Lemma hoare_conseq (P P' : DB -> Prop) (m : M A) (Q Q' : A -> DB -> Prop)
    (E E' : exn -> DB -> Prop) :
  hoare P' m Q' E' -> (forall db, P db -> P' db) ->
  (forall a db, Q' a db -> Q a db) -> (forall e db, E' e db -> E e db) ->
  hoare P m Q E.
Proof.
  intros H HP HQ HE db Hdb. specialize (H db (HP db Hdb)).
  destruct (m db) as [[a|e] db']; auto.
Qed.

Lemma preserves_ret I (a : A) : preserves I (ret a).
Proof. by apply hoare_ret. Qed.

Lemma preserves_raise I e : preserves I (@raise A e).
Proof. by apply hoare_raise. Qed.

Lemma preserves_gets I (f : DB -> A) : preserves I (gets f).
Proof. by apply hoare_gets. Qed.

Lemma preserves_bind I (m : M A) (k : A -> M B) :
  preserves I m -> (forall a, preserves I (k a)) -> preserves I (bind m k).
Proof. intros Hm Hk. by eapply hoare_bind. Qed.

Lemma preserves_atomic I (m : M A) : preserves I m -> preserves I (atomic m).
Proof.
  intros H db HI. unfold atomic. specialize (H db HI).
  by destruct (m db) as [[a|e] db'].
Qed.

Lemma preserves_state_after I (m : M A) db :
  preserves I m -> I db -> I (state_after m db).
Proof.
  intros H HI. unfold state_after. specialize (H db HI).
  by destruct (m db) as [[a|e] db'].
Qed.

End Logic.

Lemma preserves_map_M {A B} I (f : A -> M B) xs :
  (forall x, preserves I (f x)) -> preserves I (map_M f xs).
Proof.
  intros H. induction xs as [|x xs IH]; simpl.
  - apply preserves_ret.
  - apply preserves_bind; [apply H|]. intros y.
    apply preserves_bind; [apply IH|]. intros ys. apply preserves_ret.
Qed.

Lemma preserves_is_valid_many {A B} I (f : A -> M B) xs :
  (forall x, preserves I (f x)) -> preserves I (is_valid_many f xs).
Proof.
  intros H db HI. unfold is_valid_many.
  pose proof (preserves_map_M I f xs H db HI) as Hm.
  destruct (map_M f xs db) as [[a|e] db']; [done|]. by destruct e.
Qed.

Lemma preserves_modify I (f : DB -> DB) :
  (forall db, I db -> I (f db)) -> preserves I (modify f).
Proof. intros H db HI. simpl. auto. Qed.

Lemma preserves_for_each {A} I (xs : list A) (body : A -> M unit) :
  (forall x, preserves I (body x)) -> preserves I (for_each xs body).
Proof.
  intros H. induction xs as [|x xs IH]; simpl.
  - apply preserves_ret.
  - apply preserves_bind; auto.
Qed.

Lemma preserves_render {F} I (serializer_data : renderer F) instances :
  preserves I (render serializer_data instances).
Proof.
  intros db HI. unfold render. by destruct (serializer_data instances db).
Qed.

Lemma preserves_handle_exception I (m : M response) :
  preserves I m -> preserves I (handle_exception m).
Proof.
  intros H db HI. unfold handle_exception. specialize (H db HI).
  destruct (m db) as [[a|e] db']; [done|]. by destruct e.
Qed.

Section LogicORM.
Context {F : Type} (objects : manager F).

Lemma preserves_all I : preserves I (all objects).
Proof. apply preserves_gets. Qed.

Lemma preserves_get I i : preserves I (get objects i).
Proof.
  unfold get. apply preserves_bind; [apply preserves_gets|].
  intros t. destruct (tbl_get t i);
    [apply preserves_ret | apply preserves_raise].
Qed.

Lemma preserves_write_frame I constraints pre_save i f :
  ignores I objects ->
  preserves I (write objects constraints pre_save i f).
Proof.
  intros Hig. unfold write.
  apply preserves_bind; [apply preserves_gets|]. intros t.
  destruct i as [k|]; [destruct (tbl_get t k)|];
    (destruct (constraints _ _); [|apply preserves_raise]);
    (apply preserves_bind; [apply preserves_modify; intros; by apply Hig
                           |intros; apply preserves_ret]).
Qed.

Lemma preserves_PrimaryKeyRelatedField I i :
  preserves I (PrimaryKeyRelatedField objects i).
Proof.
  unfold PrimaryKeyRelatedField.
  apply preserves_bind; [apply preserves_gets|].
  intros t. destruct (tbl_get t i);
    [apply preserves_ret | apply preserves_raise].
Qed.

Lemma preserves_UniqueValidator {K} `{EqDecision K} I (col : F -> K) v :
  preserves I (UniqueValidator objects col v).
Proof.
  unfold UniqueValidator. apply preserves_bind; [apply preserves_all|].
  intros rs. destruct (exists_ _);
    [apply preserves_raise | apply preserves_ret].
Qed.
End LogicORM.

(** ** Tables *)

Section TableFacts.
Context {F : Type}.
Implicit Types (t : table F) (r : row F).

Lemma tbl_get_Some t i r : tbl_get t i = Some r -> r ∈ rows t /\ pk r = i.
Proof.
  unfold tbl_get. intros H.
  assert (r ∈ filter (fun r => pk r = i) (rows t)) as Hin.
  { destruct (filter _ (rows t)) as [|x l]; simplify_eq/=. left. }
  by apply list_elem_of_filter in Hin as [? ?].
Qed.

Lemma tbl_get_None t i : tbl_get t i = None -> i ∉ pks t.
Proof.
  unfold tbl_get, pks. intros H Hin.
  apply list_elem_of_fmap in Hin as (r & -> & Hr).
  assert (r ∈ filter (fun r' => pk r' = pk r) (rows t)) as Hf
    by (by apply list_elem_of_filter).
  destruct (filter _ (rows t)); [by apply elem_of_nil in Hf | done].
Qed.

Lemma pks_update t i f : pks (tbl_update i f t) = pks t.
Proof.
  unfold pks, tbl_update. simpl. rewrite <- list_fmap_compose.
  apply list_fmap_ext. intros ? r ?. simpl. by case_decide.
Qed.

Lemma tbl_wf_empty : tbl_wf (@tbl_empty F).
Proof. split; [apply NoDup_nil_2 | apply Forall_nil_2]. Qed.

Lemma tbl_wf_insert t f : tbl_wf t -> tbl_wf (snd (tbl_insert f t)).
Proof.
  intros [Hnd Hle]. unfold tbl_wf, pks. simpl. rewrite fmap_app. simpl.
  split.
  - apply NoDup_app. split_and!; [done| |apply NoDup_singleton].
    intros i Hi Hi'. apply list_elem_of_singleton in Hi'. subst i.
    rewrite Forall_forall in Hle. specialize (Hle _ Hi). lia.
  - apply Forall_app. split.
    + eapply Forall_impl; [exact Hle|]. simpl. lia.
    + apply Forall_singleton. lia.
Qed.

Lemma tbl_wf_insert_at t i f :
  tbl_wf t -> i ∉ pks t -> tbl_wf (snd (tbl_insert_at i f t)).
Proof.
  intros [Hnd Hle] Hi. unfold tbl_wf, pks. simpl. rewrite fmap_app. simpl.
  split.
  - apply NoDup_app. split_and!; [done| |apply NoDup_singleton].
    intros j Hj Hj'. apply list_elem_of_singleton in Hj'. by subst j.
  - apply Forall_app. split.
    + eapply Forall_impl; [exact Hle|]. simpl. lia.
    + apply Forall_singleton. lia.
Qed.

Lemma tbl_wf_update t i f : tbl_wf t -> tbl_wf (tbl_update i f t).
Proof. unfold tbl_wf. by rewrite pks_update. Qed.

Lemma tbl_wf_delete t P : tbl_wf t -> tbl_wf (tbl_delete P t).
Proof.
  intros [Hnd Hle]. unfold tbl_wf, pks, tbl_delete. simpl. split.
  - eapply sublist_NoDup; [exact Hnd|].
    apply fmap_sublist, sublist_filter.
  - rewrite Forall_forall in Hle. apply Forall_forall. intros i Hi.
    apply Hle. eapply elem_of_sublist; [exact Hi|].
    apply fmap_sublist, sublist_filter.
Qed.
End TableFacts.

(** ** Automation for invariants *)

Ltac head_of t :=
  lazymatch t with
  | ?f _ => head_of f
  | _ => t
  end.

(** A frame condition between two concrete tables holds by computation. *)
Ltac frame := intros ? ? ?; assumption.

(** One structural step on a [preserves] goal; [leaf] gets the first try,
    so that a table the invariant speaks about is met with its own lemma. *)
Ltac pres_step leaf :=
  first
    [ leaf
    | lazymatch goal with
      | |- preserves _ (bind _ _) => apply preserves_bind; [|intros ?]
      | |- preserves _ (ret _) => apply preserves_ret
      | |- preserves _ (raise _) => apply preserves_raise
      | |- preserves _ (gets _) => apply preserves_gets
      | |- preserves _ (all _) => apply preserves_all
      | |- preserves _ (get _ _) => apply preserves_get
      | |- preserves _ (atomic _) => apply preserves_atomic
      | |- preserves _ (handle_exception _) =>
          apply preserves_handle_exception
      | |- preserves _ (is_valid_many _ _) =>
          apply preserves_is_valid_many; intros ?
      | |- preserves _ (map_M _ _) => apply preserves_map_M; intros ?
      | |- preserves _ (for_each _ _) => apply preserves_for_each; intros ?
| |- preserves _ (render _ _) => apply preserves_render
      | |- preserves _ (PrimaryKeyRelatedField _ _) =>
          apply preserves_PrimaryKeyRelatedField
      | |- preserves _ (UniqueValidator _ _ _) =>
          apply preserves_UniqueValidator
      | |- preserves _ (write _ _ _ _ _) =>
          apply preserves_write_frame; frame
      | |- preserves _ (modify (over _ _)) =>
          apply preserves_modify; intros ? ?; assumption
      | |- preserves _ (if ?b then _ else _) => destruct b
      | |- preserves _ (match ?x with _ => _ end) => destruct x
      | |- preserves _ (let _ := _ in _) => cbv zeta
      | |- preserves _ ?m => let h := head_of m in unfold h
      end ].

Ltac pres leaf := repeat pres_step leaf.

(** The deletions are plain functions on the database. *)
Ltac unfold_deletes :=
  unfold delete_users, delete_departments, delete_programs, delete_courses,
    delete_students, delete_staffs, delete_exams, del.

(** ** Notifications written by the receivers have one recipient *)









(** ** A unique column stays unique *)

Section UniqueColumn.
Context {F K : Type} `{EqDecision K} (col : F -> K).
Implicit Types (t : table F) (l : list (row F)).

Let colr (r : row F) : K := col (fields r).
Let upd (k : key) (f : F) (r : row F) : row F :=
  if decide (pk r = k) then Row k f else r.

Lemma unique_on_spec l f :
  unique_on col l f = true <-> Forall (fun r => colr r <> col f) l.
Proof. unfold unique_on. by rewrite bool_decide_eq_true. Qed.

Lemma upd_absent k f l : k ∉ map pk l -> map (upd k f) l = l.
Proof.
  induction l as [|r l IH]; [done|]. simpl. intros Hk.
  apply not_elem_of_cons in Hk as [Hr Hl]. unfold upd at 1.
  rewrite decide_False by done. by rewrite IH.
Qed.

Lemma upd_cols k f l c :
  c ∈ map colr (map (upd k f) l) -> c ∈ map colr l \/ c = col f.
Proof.
  intros Hc. apply list_elem_of_fmap in Hc as (r' & -> & Hr').
  apply list_elem_of_fmap in Hr' as (r & -> & Hr). unfold upd.
  case_decide; [by right|]. left. apply list_elem_of_fmap. by exists r.
Qed.

Lemma update_NoDup k f l :
  NoDup (map pk l) -> NoDup (map colr l) ->
  Forall (fun r => colr r <> col f)
         (filter (fun r => Some (pk r) <> Some k) l) ->
  NoDup (map colr (map (upd k f) l)).
Proof.
  induction l as [|r l IH]; [done|]. simpl.
  intros [Hpk Hpks]%NoDup_cons [Hc Hcs]%NoDup_cons Hall.
  rewrite filter_cons in Hall. unfold upd at 1.
  destruct (decide (pk r = k)) as [Hk|Hk].
  - subst k. rewrite decide_False in Hall by (intros ?; congruence).
    rewrite upd_absent by done. apply NoDup_cons. split; [|done].
    intros Hin. apply list_elem_of_fmap in Hin as (r' & Heq & Hr').
    rewrite Forall_forall in Hall. apply (Hall r'); [|done].
    apply list_elem_of_filter. split; [|done]. intros [= Hpk'].
    apply Hpk. rewrite <- Hpk'. apply list_elem_of_fmap. by exists r'.
  - rewrite decide_True in Hall by congruence.
    apply Forall_cons in Hall as [Hr Hall].
    apply NoDup_cons. split; [|by apply IH].
    intros [Hin|Heq]%upd_cols; done.
Qed.

Lemma unique_rows_empty : unique_rows col tbl_empty.
Proof. split; [apply tbl_wf_empty | apply NoDup_nil_2]. Qed.

Lemma unique_rows_insert t f :
  unique_rows col t -> unique_on col (rows t) f = true ->
  unique_rows col (snd (tbl_insert f t)).
Proof.
  intros [Hwf Hnd] Hf%unique_on_spec. split; [by apply tbl_wf_insert|].
  simpl. rewrite fmap_app. apply NoDup_app.
  split_and!; [done| |apply NoDup_singleton].
  intros c Hc ->%list_elem_of_singleton.
  apply list_elem_of_fmap in Hc as (r & Heq & Hr).
  rewrite Forall_forall in Hf. by apply (Hf r).
Qed.

Lemma unique_rows_insert_at t i f :
  unique_rows col t -> i ∉ pks t -> unique_on col (rows t) f = true ->
  unique_rows col (snd (tbl_insert_at i f t)).
Proof.
  intros [Hwf Hnd] Hi Hf%unique_on_spec.
  split; [by apply tbl_wf_insert_at|].
  simpl. rewrite fmap_app. apply NoDup_app.
  split_and!; [done| |apply NoDup_singleton].
  intros c Hc ->%list_elem_of_singleton.
  apply list_elem_of_fmap in Hc as (r & Heq & Hr).
  rewrite Forall_forall in Hf. by apply (Hf r).
Qed.

Lemma unique_rows_update t k f :
  unique_rows col t -> unique_on col (others (Some k) t) f = true ->
  unique_rows col (tbl_update k f t).
Proof.
  intros [Hwf Hnd] Hf%unique_on_spec. split; [by apply tbl_wf_update|].
  simpl. apply update_NoDup; [apply Hwf|done|done].
Qed.

Lemma unique_rows_delete t P :
  unique_rows col t -> unique_rows col (tbl_delete P t).
Proof.
  intros [Hwf Hnd]. split; [by apply tbl_wf_delete|]. simpl.
  eapply sublist_NoDup; [exact Hnd|]. apply fmap_sublist, sublist_filter.
Qed.

Lemma unique_rows_no_two_agree t : unique_rows col t -> no_two_agree col t.
Proof.
  intros [_ Hnd] i j r1 r2 Hi Hj Hij Heq. apply Hij.
  rewrite NoDup_alt in Hnd. apply (Hnd i j (col (fields r1))).
  - by rewrite list_lookup_fmap, Hi.
  - by rewrite list_lookup_fmap, Hj, Heq.
Qed.

(** [Model.save()] on a table whose constraint is the unique column. *)
Section Write.
Variable objects : manager F.
Hypothesis view_over :
  forall g db, view objects (over objects g db) = g (view objects db).

Lemma preserves_write_unique pre_save i f :
  preserves (on_table objects (unique_rows col))
    (write objects (unique_on col) pre_save i f).
Proof.
  intros db HI. unfold write, bind, gets, on_table in *. simpl.
  destruct i as [k|].
  - destruct (tbl_get (view objects db) k) eqn:Hget.
    + destruct (unique_on col _ _) eqn:Hf; simpl; [|done].
      rewrite view_over. by apply unique_rows_update.
    + destruct (unique_on col _ _) eqn:Hf; simpl; [|done].
      rewrite view_over. apply unique_rows_insert_at; [done| |done].
      by apply tbl_get_None.
  - destruct (unique_on col _ _) eqn:Hf; simpl; [|done].
    rewrite view_over. by apply unique_rows_insert.
Qed.
End Write.
End UniqueColumn.

(** ** Enrollments and attendances keep their [unique_together] *)

Ltac enrollment_leaf :=
  idtac;
  lazymatch goal with
  | |- preserves _ (write Enrollment_objects _ _ _ _) =>
      apply (preserves_write_unique Enrollment_key Enrollment_objects);
      reflexivity
  end.

Ltac attendance_leaf :=
  idtac;
  lazymatch goal with
  | |- preserves _ (write Attendance_objects _ _ _ _) =>
      apply (preserves_write_unique Attendance_key Attendance_objects);
      reflexivity
  end.

Lemma run_unique_enrollments now o db :
  on_table Enrollment_objects (unique_rows Enrollment_key) db ->
  on_table Enrollment_objects (unique_rows Enrollment_key) (run now o db).
Proof.
  intros HI.
  destruct o; simpl run;
    try (apply preserves_state_after; [|exact HI]; pres enrollment_leaf).
  all: unfold_deletes; unfold on_table in *; simpl;
    repeat apply unique_rows_delete; exact HI.
Qed.

Lemma run_unique_attendances now o db :
  on_table Attendance_objects (unique_rows Attendance_key) db ->
  on_table Attendance_objects (unique_rows Attendance_key) (run now o db).
Proof.
  intros HI.
  destruct o; simpl run;
    try (apply preserves_state_after; [|exact HI]; pres attendance_leaf).
  all: unfold_deletes; unfold on_table in *; simpl;
    repeat apply unique_rows_delete; exact HI.
Qed.

Lemma reachable_unique_enrollments db :
  reachable db -> unique_rows Enrollment_key (enrollments db).
Proof.
  induction 1 as [|db now o _ IH _].
  - apply unique_rows_empty.
  - by apply (run_unique_enrollments now o db).
Qed.

Lemma reachable_unique_attendances db :
  reachable db -> unique_rows Attendance_key (attendances db).
Proof.
  induction 1 as [|db now o _ IH _].
  - apply unique_rows_empty.
  - by apply (run_unique_attendances now o db).
Qed.

(** ** The validation hooks of the two serializers *)

Lemma exists_filter_true {A} (P : A -> Prop) `{forall x, Decision (P x)}
    (l : list A) x :
  x ∈ l -> P x -> exists_ (filter P l) = true.
Proof.
  intros Hx HP.
  assert (x ∈ filter P l) as Hin by (by apply list_elem_of_filter).
  destruct (filter P l); [by apply elem_of_nil in Hin | done].
Qed.

Lemma exists_filter_false {A} (P : A -> Prop) `{forall x, Decision (P x)}
    (l : list A) :
  exists_ (filter P l) = false -> Forall (fun x => ~ P x) l.
Proof.
  intros He. apply Forall_forall. intros x Hx HP.
  by rewrite (exists_filter_true P l x) in He.
Qed.

Lemma PrimaryKeyRelatedField_cases {F} (objects : manager F) i db :
  PrimaryKeyRelatedField objects i db = (Ok i, db)
  \/ exists msg,
       PrimaryKeyRelatedField objects i db = (Raise (ValidationError msg), db).
Proof.
  unfold PrimaryKeyRelatedField, bind, gets. simpl.
  destruct (tbl_get (view objects db) i) as [r|] eqn:Hget; simpl.
  - apply tbl_get_Some in Hget as [_ ->]. by left.
  - right. by eexists.
Qed.

Lemma EnrollmentSerializer_validate_duplicate data db r :
  r ∈ rows (enrollments db) ->
  Enrollment_key (fields r) = Enrollment_key data ->
  exists msg,
    EnrollmentSerializer_validate data db = (Raise (ValidationError msg), db).
Proof.
  intros Hr [= H1 H2 H3 H4].
  unfold EnrollmentSerializer_validate, bind, all, gets. simpl.
  erewrite exists_filter_true; [by eexists|exact Hr|done].
Qed.

Lemma EnrollmentSerializer_create_duplicate now data db r :
  r ∈ rows (enrollments db) ->
  Enrollment_key (fields r)
    = (ed_student_id data, ed_course_id data, ed_semester data, ed_year data) ->
  exists msg,
    EnrollmentSerializer_create now data db = (Raise (ValidationError msg), db).
Proof.
  intros Hr Hkey.
  unfold EnrollmentSerializer_create, EnrollmentSerializer_run_validation.
  unfold bind at 1 2.
  destruct (PrimaryKeyRelatedField_cases Student_objects (ed_student_id data) db)
    as [-> | [msg ->]]; [|by eexists].
  unfold bind at 1.
  destruct (PrimaryKeyRelatedField_cases Course_objects (ed_course_id data) db)
    as [-> | [msg ->]]; [|by eexists].
  destruct (EnrollmentSerializer_validate_duplicate
    (mkEnrollment (ed_student_id data) (ed_course_id data) (ed_semester data)
       (ed_year data) (dt_date now)) db r Hr Hkey) as [msg ->].
  by eexists.
Qed.

Lemma AttendanceSerializer_validate_duplicate data db r :
  r ∈ rows (attendances db) ->
  Attendance_key (fields r) = Attendance_key data ->
  exists msg,
    AttendanceSerializer_validate data db = (Raise (ValidationError msg), db).
Proof.
  intros Hr [= H1 H2 H3].
  unfold AttendanceSerializer_validate, bind, all, gets. simpl.
  erewrite exists_filter_true; [by eexists|exact Hr|done].
Qed.

Lemma AttendanceSerializer_create_duplicate now data db r :
  r ∈ rows (attendances db) ->
  Attendance_key (fields r)
    = (ad_student_id data, ad_course_id data, ad_date data) ->
  exists msg,
    AttendanceSerializer_create now data db = (Raise (ValidationError msg), db).
Proof.
  intros Hr Hkey.
  unfold AttendanceSerializer_create, AttendanceSerializer_run_validation.
  unfold bind at 1 2.
  destruct (PrimaryKeyRelatedField_cases Student_objects (ad_student_id data) db)
    as [-> | [msg ->]]; [|by eexists].
  unfold bind at 1.
  destruct (PrimaryKeyRelatedField_cases Course_objects (ad_course_id data) db)
    as [-> | [msg ->]]; [|by eexists].
  unfold bind at 1. unfold ChoiceField.
  case_bool_decide; simpl; [|by eexists].
  destruct (AttendanceSerializer_validate_duplicate
    (mkAttendance (ad_student_id data) (ad_course_id data) (ad_date data)
       (ad_status data)) db r Hr Hkey) as [msg ->].
  by eexists.
Qed.

(** C4. In every reachable state no two enrollments agree on (student,
    course, semester, year) and no two attendance rows agree on (student,
    course, date); creating a duplicate of a stored row through the
    serializer raises a validation error, the view answers 400, and the
    database is left as it was. *)
Theorem C4_unique_together db :
  reachable db ->
  no_two_agree Enrollment_key (enrollments db)
  /\ no_two_agree Attendance_key (attendances db)
  /\ (forall now data r,
        r ∈ rows (enrollments db) ->
        Enrollment_key (fields r)
          = (ed_student_id data, ed_course_id data, ed_semester data,
             ed_year data) ->
        (exists msg, EnrollmentSerializer_create now data db
                     = (Raise (ValidationError msg), db))
        /\ EnrollmentViewSet_create now data db = (Ok (Response 400), db))
  /\ (forall now data r,
        r ∈ rows (attendances db) ->
        Attendance_key (fields r)
          = (ad_student_id data, ad_course_id data, ad_date data) ->
        (exists msg, AttendanceSerializer_create now data db
                     = (Raise (ValidationError msg), db))
        /\ AttendanceViewSet_create now data db = (Ok (Response 400), db)).
Proof.
  intros Hreach. split_and!.
  - by apply unique_rows_no_two_agree, reachable_unique_enrollments.
  - by apply unique_rows_no_two_agree, reachable_unique_attendances.
  - intros now data r Hr Hkey.
    destruct (EnrollmentSerializer_create_duplicate now data db r Hr Hkey)
      as [msg Hmsg].
    split; [by exists msg|].
    unfold EnrollmentViewSet_create, handle_exception, bind.
    by rewrite Hmsg.
  - intros now data r Hr Hkey.
    destruct (AttendanceSerializer_create_duplicate now data db r Hr Hkey)
      as [msg Hmsg].
    split; [by exists msg|].
    unfold AttendanceViewSet_create, handle_exception, bind.
    by rewrite Hmsg.
Qed.

(** ** Role based permission *)

Lemma user_profile_run u db :
  user_profile (Authenticated u) db
  = (match head (profiles_of db (pk u)) with
     | Some p => Ok p
     | None => Raise RelatedObjectDoesNotExist
     end, db).
Proof.
  unfold user_profile, bind, all, gets, profiles_of. simpl.
  by destruct (filter _ (rows (profiles db))).
Qed.

(** C1. [RoleBasedPermission.has_permission] grants access exactly when
    the user is authenticated and the role of the user's profile is in the
    [allowed_roles] of the view, the empty list when the view defines none:
    then access is never granted.  The check does not write. *)
Theorem C1_has_permission db user view :
  (outcome (has_permission user view) db = Ok true
   <-> is_authenticated user = true
       /\ exists u p, user = Authenticated u
            /\ head (profiles_of db (pk u)) = Some p
            /\ role (fields p) ∈ default [] (allowed_roles view))
  /\ (allowed_roles view = None ->
      outcome (has_permission user view) db <> Ok true)
  /\ state_after (has_permission user view) db = db.
Proof.
  unfold outcome, state_after, has_permission.
  destruct user as [|u]; cbn [is_authenticated negb].
  - simpl. split_and!; [|done|done]. split; [done|]. by intros [? _].
  - unfold bind. rewrite user_profile_run.
    destruct (head (profiles_of db (pk u))) as [p|] eqn:Hp; simpl.
    + split_and!; [|intros ->; simpl|done].
      * split.
        -- intros [= Hin%bool_decide_eq_true]. split; [done|].
           by exists u, p.
        -- intros [_ (u' & p' & [= <-] & Hp' & Hin)]. simplify_eq.
           f_equal. by apply bool_decide_eq_true.
      * intros [= Hin%bool_decide_eq_true]; by apply elem_of_nil in Hin.
    + split_and!; [|done|done]. split; [done|].
      intros [_ (u' & p' & [= <-] & Hp' & _)]. congruence.
Qed.

(** ** Role scoped student queries *)

Lemma get_queryset_run u db :
  StudentViewSet_get_queryset (Authenticated u) db
  = (match head (profiles_of db (pk u)) with
     | Some p =>
         if bool_decide (role (fields p) = "Student") then
           Ok (filter (fun s => student_user (fields s) = Some (pk u))
                      (rows (students db)))
         else if bool_decide (role (fields p) = "Staff") then
           Ok (rows (students db))
         else Ok (order_by_minus_id (rows (students db)))
     | None => Raise RelatedObjectDoesNotExist
     end, db).
Proof.
  unfold StudentViewSet_get_queryset, bind. rewrite user_profile_run.
  destruct (head (profiles_of db (pk u))) as [p|]; [|done].
  by repeat case_bool_decide.
Qed.

(** C2. For a user whose profile role is 'Student' the queryset is the
    list of the student rows whose user is that user, so two databases that
    agree on these rows give the same answer; for the role 'Staff' it is
    the whole table, and for any other role it is the whole table sorted by
    descending id. *)
Theorem C2_get_queryset u p db :
  head (profiles_of db (pk u)) = Some p ->
  (role (fields p) = "Student" ->
     exists q,
       StudentViewSet_get_queryset (Authenticated u) db = (Ok q, db)
       /\ (forall s, s ∈ q <->
             s ∈ rows (students db) /\ student_user (fields s) = Some (pk u))
       /\ forall db' p',
            head (profiles_of db' (pk u)) = Some p' ->
            role (fields p') = "Student" ->
            filter (fun s => student_user (fields s) = Some (pk u))
                   (rows (students db'))
            = filter (fun s => student_user (fields s) = Some (pk u))
                     (rows (students db)) ->
            outcome (StudentViewSet_get_queryset (Authenticated u)) db'
            = Ok q)
  /\ (role (fields p) = "Staff" ->
        StudentViewSet_get_queryset (Authenticated u) db
        = (Ok (rows (students db)), db))
  /\ (role (fields p) <> "Student" -> role (fields p) <> "Staff" ->
        exists q,
          StudentViewSet_get_queryset (Authenticated u) db = (Ok q, db)
          /\ q ≡ₚ rows (students db)).
Proof.
  intros Hp. rewrite get_queryset_run, Hp. split_and!.
  - intros Hrole. rewrite bool_decide_eq_true_2 by done.
    eexists. split_and!; [done| |].
    + intros s. rewrite list_elem_of_filter. tauto.
    + intros db' p' Hp' Hrole' Heq. unfold outcome.
      rewrite get_queryset_run, Hp'. simpl.
      rewrite bool_decide_eq_true_2 by done. by rewrite Heq.
  - intros Hrole. rewrite bool_decide_eq_false_2 by (by rewrite Hrole).
    by rewrite bool_decide_eq_true_2.
  - intros H1 H2. rewrite !bool_decide_eq_false_2 by done.
    eexists. split; [done|]. apply merge_sort_Permutation.
Qed.

(** ** The receivers of signals.py *)

Lemma bind_get {F B} (objects : manager F) i r (k : row F -> M B) db :
  tbl_get (view objects db) i = Some r ->
  bind (get objects i) k db = k r db.
Proof. intros H. unfold get, bind, gets. simpl. by rewrite H. Qed.

Lemma bind_ret {A B} (a : A) (k : A -> M B) db : bind (ret a) k db = k a db.
Proof. done. Qed.

Lemma bind_assoc {A B C} (m : M A) (f : A -> M B) (g : B -> M C) db :
  bind (bind m f) g db = bind m (fun x => bind (f x) g) db.
Proof. unfold bind. by destruct (m db) as [[a|e] db']. Qed.

Lemma bind_Ok {A B} (m : M A) (k : A -> M B) db a db' :
  m db = (Ok a, db') -> bind m k db = k a db'.
Proof. intros H. unfold bind. by rewrite H. Qed.

Lemma bind_Raise {A B} (m : M A) (k : A -> M B) db e db' :
  m db = (Raise e, db') -> bind m k db = (Raise e, db').
Proof. intros H. unfold bind. by rewrite H. Qed.

Lemma bind_modify {B} (f : DB -> DB) (k : unit -> M B) db :
  bind (modify f) k db = k tt (f db).
Proof. done. Qed.

Lemma bind_Notification_create {B} now rs rf ty ti msg rd ar
    (k : row Notification -> M B) db :
  bind (Notification_create now rs rf ty ti msg rd ar) k db
  = k (Row (S (last_id (notifications db)))
           (mkNotification rs rf ty ti msg now rd ar))
      (with_notifications
         [Row (S (last_id (notifications db)))
              (mkNotification rs rf ty ti msg now rd ar)] db).
Proof.
  unfold Notification_create, write, bind, gets, with_notifications, with_rows. simpl.
  by rewrite Nat.add_1_r.
Qed.

Lemma with_notifications_nil db : with_notifications [] db = db.
Proof.
  unfold with_notifications, with_rows. destruct db as [? ? ? ? ? ? ? ? ? ? ? ? ? [ns l]].
  simpl. by rewrite app_nil_r, Nat.add_0_r.
Qed.

Lemma with_notifications_app news news' db :
  with_notifications news' (with_notifications news db)
  = with_notifications (news ++ news') db.
Proof.
  unfold with_notifications, with_rows. simpl.
  by rewrite <- app_assoc, length_app, Nat.add_assoc.
Qed.

Lemma notification_count_with news db :
  notification_count (with_notifications news db)
  = notification_count db + length news.
Proof. unfold notification_count. simpl. by rewrite length_app. Qed.

Lemma stored_get {F} (objects : manager F) i db :
  stored objects i db ->
  exists r, tbl_get (view objects db) i = Some r /\ pk r = i.
Proof.
  intros [r Hr]. exists r. split; [done|]. by apply tbl_get_Some in Hr as [_ ?].
Qed.

(** The loop of [create_exam_notification]. *)
Lemma exam_loop now (instance : row Exam) (course : row Course) studs db :
  exists news,
    for_each studs (fun student =>
      _ <- Notification_create now (Some (pk student)) None "Exam"
             "New Exam Scheduled"
             [Lit "The "; Lit (exam_type (fields instance));
              Lit " exam for "; Lit (course_title (fields course));
              Lit " is scheduled on "; PDate (exam_date (fields instance));
              Lit "."]
             false false ;;
      ret tt) db
    = (Ok tt, with_notifications news db)
    /\ Forall2 is_exam_notification studs news.
Proof.
  revert db. induction studs as [|s studs IH]; intros db.
  - exists []. simpl. by rewrite with_notifications_nil.
  - simpl. unfold bind at 1. rewrite bind_Notification_create.
    unfold ret at 1.
    edestruct IH as (news & -> & Hall).
    eexists (_ :: news). rewrite with_notifications_app. simpl.
    split; [done|]. by constructor.
Qed.

Lemma exam_notification_count studs news k :
  Forall2 is_exam_notification studs news ->
  length (filter (fun n => recipient_student (fields n) = Some k) news)
  = length (filter (fun s => pk s = k) studs).
Proof.
  induction 1 as [|s n studs news (Hr & _ & _) _ IH]; [done|].
  rewrite !filter_cons, Hr.
  destruct (decide (pk s = k)) as [->|Hne].
  - rewrite decide_True by done. simpl. by rewrite IH.
  - rewrite decide_False by congruence. done.
Qed.

Lemma filter_none {A} (P : A -> Prop) `{forall x, Decision (P x)}
    (l : list A) :
  (forall y, y ∈ l -> ~ P y) -> filter P l = [].
Proof.
  intros Hno. destruct (filter P l) as [|y k] eqn:Hf; [done|].
  assert (y ∈ filter P l) as [HP Hy]%list_elem_of_filter
    by (rewrite Hf; left).
  by destruct (Hno y Hy).
Qed.

Lemma count_pk_one {F} (l : list (row F)) r :
  NoDup (map pk l) -> r ∈ l -> length (filter (fun s => pk s = pk r) l) = 1.
Proof.
  induction l as [|x l IH]; intros Hnd Hin; [by apply elem_of_nil in Hin|].
  simpl in Hnd. apply NoDup_cons in Hnd as [Hx Hnd].
  rewrite filter_cons. apply elem_of_cons in Hin as [->|Hin].
  - rewrite decide_True by done. simpl. f_equal.
    rewrite filter_none; [done|].
    intros y Hyl Hy. apply Hx. rewrite <- Hy.
    apply list_elem_of_fmap. by exists y.
  - rewrite decide_False; [by apply IH|].
    intros Heq. apply Hx. rewrite Heq. apply list_elem_of_fmap. by exists r.
Qed.

Lemma exam_receiver_run now instance db :
  refers_to_stored_rows db (SavedExam instance) ->
  exists news,
    create_exam_notification now instance true db
    = (Ok tt, with_notifications news db)
    /\ Forall2 is_exam_notification (exam_students db instance) news.
Proof.
  intros (course & Hc & (program & Hp & Hpk)%stored_get).
  unfold create_exam_notification, exam_students.
  rewrite (bind_get Course_objects _ _ _ _ Hc), (bind_get _ _ _ _ _ Hp).
  rewrite Hc, Hpk. unfold bind at 1, gets at 1.
  apply exam_loop.
Qed.

(** C6. When an exam is created the receiver writes one notification per
    student of the program of the exam's course, in order, each addressed
    to that student with type 'Exam'; no other table changes.  When an
    existing exam is saved it writes nothing. *)
Theorem C6_exam_notifications now instance db :
  refers_to_stored_rows db (SavedExam instance) ->
  (exists news,
     create_exam_notification now instance true db
     = (Ok tt, with_notifications news db)
     /\ Forall2 is_exam_notification (exam_students db instance) news
     /\ (NoDup (pks (students db)) ->
         forall s, s ∈ exam_students db instance ->
           length (filter (fun n => recipient_student (fields n)
                                    = Some (pk s)) news) = 1))
  /\ create_exam_notification now instance false db = (Ok tt, db).
Proof.
  intros Hrefs. split; [|done].
  destruct (exam_receiver_run now instance db Hrefs) as (news & Hrun & Hall).
  exists news. split_and!; [done|done|].
  intros Hnd s Hs. rewrite (exam_notification_count _ _ _ Hall).
  apply count_pk_one; [|done].
  eapply sublist_NoDup; [exact Hnd|].
  unfold exam_students.
  destruct (tbl_get (courses db) (exam_course (fields instance)));
    [apply fmap_sublist, sublist_filter | apply sublist_nil_l].
Qed.

(** What each receiver does once the rows it looks up are stored. *)
Ltac lookup H :=
  let r := fresh "r" in
  let Hr := fresh "Hr" in
  let Hpk := fresh "Hpk" in
  destruct (stored_get _ _ _ H) as (r & Hr & Hpk);
  erewrite (bind_get _ _ r); [|exact Hr].

Ltac created_one :=
  rewrite bind_Notification_create; unfold ret, outcome, state_after; simpl;
  split; [done|]; unfold notification_count; simpl;
  rewrite length_app; simpl; lia.

(** C7 (amended). Every save of an Admission or of a Staff record makes
    the receiver write one notification.  For an Enrollment, an Attendance
    and a Grade it writes one when the record is created and none when it is
    updated; for an Exam, one per student of the program when created and
    none when updated; for a Fee, one when an unpaid fee is created, when an
    existing unpaid fee is overdue, and when an existing fee is paid. *)
Theorem C7_notifications_due now db s created :
  refers_to_stored_rows db s ->
  outcome (post_save now s created) db = Ok tt
  /\ notification_count (state_after (post_save now s created) db)
     = notification_count db + notifications_due now db s created.
Proof.
  intros Hrefs. unfold outcome, state_after.
  destruct s as [i|i|i|i|i|i|i]; simpl in Hrefs; simpl post_save;
    simpl notifications_due.
  - destruct Hrefs as [Hs Hp].
    unfold create_admission_notification. cbv zeta. lookup Hs. lookup Hp.
    created_one.
  - destruct Hrefs as [Hs Hc].
    unfold create_enrollment_notification. destruct created.
    + lookup Hs. lookup Hc. created_one.
    + simpl. split; [done|lia].
  - unfold create_fee_notification. cbv zeta.
    destruct created, (is_paid (fields i)) eqn:Hpaid; cbn [andb negb].
    + simpl. split; [done|lia].
    + lookup Hrefs. created_one.
    + lookup Hrefs. rewrite bind_modify. lookup Hrefs.
      rewrite bind_Notification_create. unfold ret. simpl.
      split; [done|]. unfold notification_count. simpl.
      rewrite length_app, length_fmap. simpl. lia.
    + destruct (date_ltb _ _).
      * lookup Hrefs. created_one.
      * simpl. split; [done|lia].
  - destruct created.
    + destruct (exam_receiver_run now i db Hrefs) as (news & Hrun & Hall).
      rewrite Hrun. simpl. split; [done|].
      rewrite notification_count_with. f_equal. symmetry.
      by apply Forall2_length in Hall.
    + simpl. split; [done|lia].
  - destruct Hrefs as [Hs Hc].
    unfold create_attendance_notification. destruct created.
    + lookup Hs. lookup Hc. created_one.
    + simpl. split; [done|lia].
  - destruct Hrefs as (Hs & exam & He & Hc).
    unfold create_grade_notification. destruct created.
    + lookup Hs. rewrite (bind_get Exam_objects _ _ _ _ He). lookup Hc.
      created_one.
    + simpl. split; [done|lia].
  - unfold create_staff_notification. destruct created.
    + destruct (staff_department (fields i)) as [d|].
      * rewrite bind_assoc. lookup Hrefs. rewrite bind_ret. created_one.
      * rewrite bind_ret. created_one.
    + created_one.
Qed.

(** C9. When an existing fee is saved as paid, the receiver marks every
    unread 'Fee' notification of the fee's student as read and
    auto-resolved, appends one 'Fee Paid' notification for that student that
    is read and auto-resolved from the start, and leaves the notifications
    of other students and of other types, and every other table, as they
    were. *)
Theorem C9_fee_paid now instance db :
  stored Student_objects (fee_student (fields instance)) db ->
  is_paid (fields instance) = true ->
  exists new,
    create_fee_notification now instance false db
    = (Ok tt,
       with_notifications [new]
         (over Notification_objects
            (fun t =>
               Table (map (resolve_fee_notification
                             (fee_student (fields instance))) (rows t))
                     (last_id t))
            db))
    /\ recipient_student (fields new) = Some (fee_student (fields instance))
    /\ notif_type (fields new) = "Fee"
    /\ title (fields new) = "Fee Paid"
    /\ read (fields new) = true
    /\ auto_resolved (fields new) = true
    /\ (forall n,
          recipient_student (fields n) <> Some (fee_student (fields instance))
          \/ notif_type (fields n) <> "Fee" ->
          resolve_fee_notification (fee_student (fields instance)) n = n)
    /\ (forall n,
          recipient_student (fields n) = Some (fee_student (fields instance)) ->
          notif_type (fields n) = "Fee" ->
          read (fields n) = false ->
          let n' := resolve_fee_notification
                      (fee_student (fields instance)) n in
          read (fields n') = true /\ auto_resolved (fields n') = true
          /\ pk n' = pk n
          /\ recipient_student (fields n') = recipient_student (fields n)
          /\ recipient_staff (fields n') = recipient_staff (fields n)
          /\ notif_type (fields n') = "Fee"
          /\ title (fields n') = title (fields n)
          /\ message (fields n') = message (fields n)
          /\ created_at (fields n') = created_at (fields n)).
Proof.
  intros Hs Hpaid. unfold create_fee_notification. cbv zeta.
  rewrite Hpaid. cbn [andb negb].
  lookup Hs. rewrite bind_modify. lookup Hs.
  rewrite bind_Notification_create. unfold ret.
  repeat match goal with H : pk _ = _ |- _ => rewrite H; clear H end.
  eexists. split_and!; [reflexivity|done..| |].
  - intros n Hn. unfold resolve_fee_notification.
    rewrite bool_decide_eq_false_2; [done|]. intros (? & ? & ?).
    by destruct Hn.
  - intros n H1 H2 H3. unfold resolve_fee_notification.
    rewrite bool_decide_eq_true_2 by done. by simpl.
Qed.

(** ** One profile per user *)

Lemma length_filter_fmap {A B} `{EqDecision B} (f : A -> B) k (l : list A) :
  length (filter (fun x => f x = k) l)
  = length (filter (fun y => y = k) (map f l)).
Proof.
  induction l as [|x l IH]; [done|]. simpl. rewrite !filter_cons.
  destruct (decide (f x = k)); simpl; by rewrite IH.
Qed.

Lemma filter_fmap_pred {A B} (f : A -> B) (P : B -> Prop)
    `{forall y, Decision (P y)} `{forall x, Decision (P (f x))}
    (l : list A) :
  map f (filter (fun x => P (f x)) l) = filter P (map f l).
Proof.
  induction l as [|x l IH]; [done|]. simpl. rewrite !filter_cons.
  destruct (decide (P (f x))), (decide (P (f x))); simpl; try done.
  by rewrite IH.
Qed.

Lemma count_in_NoDup (l : list key) k :
  NoDup l -> k ∈ l -> length (filter (fun y => y = k) l) = 1.
Proof.
  induction l as [|x l IH]; intros Hnd Hin; [by apply elem_of_nil in Hin|].
  apply NoDup_cons in Hnd as [Hx Hnd]. rewrite filter_cons.
  apply elem_of_cons in Hin as [->|Hin].
  - rewrite decide_True by done. simpl. f_equal.
    rewrite filter_none; [done|]. by intros y Hy ->.
  - rewrite decide_False; [by apply IH|]. by intros ->.
Qed.

Lemma profiles_match_one db u :
  profiles_match_users db -> u ∈ rows (users db) ->
  length (profiles_of db (pk u)) = 1.
Proof.
  intros [[Hnd _] Hperm] Hu. unfold profiles_of.
  rewrite (length_filter_fmap (fun p => profile_user (fields p))).
  rewrite Hperm. apply count_in_NoDup; [done|].
  apply list_elem_of_fmap. by exists u.
Qed.

Lemma profiles_match_empty : profiles_match_users empty_db.
Proof. split; [apply tbl_wf_empty | done]. Qed.

Lemma profile_constraint_fresh db k rl :
  profiles_match_users db -> k ∉ pks (users db) ->
  unique_on profile_user (rows (profiles db)) (mkUserProfile k rl) = true.
Proof.
  intros [_ Hperm] Hk. apply unique_on_spec, Forall_forall.
  intros p Hp Heq. simpl in Heq. apply Hk. rewrite <- Hperm, <- Heq.
  apply list_elem_of_fmap. by exists p.
Qed.

Lemma profile_constraint_taken db k rl :
  profiles_match_users db -> k ∈ pks (users db) ->
  unique_on profile_user (rows (profiles db)) (mkUserProfile k rl) = false.
Proof.
  intros [_ Hperm] Hk. apply not_true_is_false.
  intros Hall%unique_on_spec. rewrite <- Hperm in Hk.
  apply list_elem_of_fmap in Hk as (p & Hk & Hp).
  rewrite Forall_forall in Hall. by apply (Hall p Hp).
Qed.

Lemma last_id_fresh {F} (t : table F) : tbl_wf t -> S (last_id t) ∉ pks t.
Proof.
  intros [_ Hle] Hin. rewrite Forall_forall in Hle.
  specialize (Hle _ Hin). lia.
Qed.

(** Creating a user: the row and its profile are appended. *)
Lemma User_create_run db f :
  profiles_match_users db ->
  User_constraints (rows (users db)) f = true ->
  User_save None f db
  = (Ok (Row (S (last_id (users db))) f),
     over UserProfile_objects
       (fun t => snd (tbl_insert
          (mkUserProfile (S (last_id (users db))) (role_of f)) t))
       (over User_objects (fun t => snd (tbl_insert f t)) db)).
Proof.
  intros HI Hc. unfold User_save, write, bind, gets. simpl.
  unfold no_pre_save. rewrite Hc. simpl.
  unfold UserProfile_create, write, bind, gets, UserProfile_constraints.
  simpl. unfold no_pre_save.
  rewrite (profile_constraint_fresh db); [|done|apply last_id_fresh, HI].
  simpl. unfold role_of. by destruct (is_superuser f), (is_staff f).
Qed.

Lemma profiles_match_insert db k f rl :
  profiles_match_users db -> k ∉ pks (users db) ->
  profiles_match_users
    (over UserProfile_objects
       (fun t => snd (tbl_insert (mkUserProfile k rl) t))
       (over User_objects (fun t => snd (tbl_insert_at k f t)) db)).
Proof.
  intros [Hwf Hperm] Hk. split; simpl.
  - by apply (tbl_wf_insert_at (users db) k f).
  - unfold pks. simpl. rewrite !fmap_app. simpl.
    by apply Permutation_app.
Qed.

Lemma profiles_match_append db f rl :
  profiles_match_users db ->
  profiles_match_users
    (over UserProfile_objects
       (fun t => snd (tbl_insert
                        (mkUserProfile (S (last_id (users db))) rl) t))
       (over User_objects (fun t => snd (tbl_insert f t)) db)).
Proof.
  intros [Hwf Hperm]. split; simpl.
  - by apply (tbl_wf_insert (users db) f).
  - unfold pks. simpl. rewrite !fmap_app. simpl.
    by apply Permutation_app.
Qed.

Lemma User_save_spec i f :
  hoare profiles_match_users (User_save i f)
    (fun u db' => profiles_match_users db' /\ pk u ∈ pks (users db'))
    (fun _ => profiles_match_users).
Proof.
  intros db HI. destruct i as [k|].
  - unfold User_save, write, bind, gets. simpl. unfold no_pre_save.
    destruct (tbl_get (users db) k) as [u|] eqn:Hget.
    + destruct (User_constraints _ f); simpl; [|done].
      destruct HI as [Hwf Hperm]. split; [split|].
      * by apply (tbl_wf_update (users db)).
      * simpl. by rewrite (pks_update (users db)).
      * simpl. rewrite (pks_update (users db)).
        apply tbl_get_Some in Hget as [Hu <-].
        apply list_elem_of_fmap. by exists u.
    + apply tbl_get_None in Hget.
      destruct (User_constraints _ f); simpl; [|done].
      unfold UserProfile_create, write, bind, gets, UserProfile_constraints.
      simpl. unfold no_pre_save.
      rewrite (profile_constraint_fresh db) by done. simpl.
      split; [by apply profiles_match_insert|].
      unfold pks. simpl. rewrite fmap_app. simpl.
      apply elem_of_app. right. left.
  - destruct (User_constraints (rows (users db)) f) eqn:Hc.
    + rewrite User_create_run by done.
      split; [by apply profiles_match_append|].
      unfold pks. simpl. rewrite fmap_app. simpl.
      apply elem_of_app. right. left.
    + unfold User_save, write, bind, gets. simpl. unfold no_pre_save.
      by rewrite Hc.
Qed.

Lemma preserves_User_save i f :
  preserves profiles_match_users (User_save i f).
Proof.
  eapply hoare_conseq; [apply User_save_spec|done| |done].
  by intros ? ? [? _].
Qed.

(** The serializer saves the user, which makes the receiver create the
    profile, and then asks for a second profile of the same user. *)
Lemma UserCreateSerializer_create_run f db :
  profiles_match_users db ->
  UserCreateSerializer_create f db
  = (match outcome (User_save None f) db with
     | Ok _ => Raise IntegrityError
     | Raise e => Raise e
     end, state_after (User_save None f) db).
Proof.
  intros HI. unfold UserCreateSerializer_create, bind, outcome, state_after.
  pose proof (User_save_spec None f db HI) as Hs.
  destruct (User_save None f db) as [[u|e] db']; [|done].
  destruct Hs as [HI' Hu].
  unfold UserProfile_create, write, bind, gets, UserProfile_constraints.
  simpl. unfold no_pre_save.
  by rewrite (profile_constraint_taken db').
Qed.

Lemma preserves_UserCreateSerializer_create f :
  preserves profiles_match_users (UserCreateSerializer_create f).
Proof.
  intros db HI. rewrite UserCreateSerializer_create_run by done.
  pose proof (preserves_User_save None f db HI) as Hs.
  unfold outcome, state_after.
  by destruct (User_save None f db) as [[u|e] db'].
Qed.

Lemma profiles_match_delete db ids :
  profiles_match_users db ->
  tbl_wf (tbl_delete (fun r => inb (pk r) ids) (users db))
  /\ map (fun p => profile_user (fields p))
         (rows (tbl_delete (fun r => inb (profile_user (fields r)) ids)
                  (profiles db)))
       ≡ₚ pks (tbl_delete (fun r => inb (pk r) ids) (users db)).
Proof.
  intros [Hwf Hperm]. split; [by apply tbl_wf_delete|].
  unfold pks, tbl_delete. simpl.
  rewrite (filter_fmap_pred (fun p => profile_user (fields p))
             (fun k => inb k ids = false)).
  rewrite (filter_fmap_pred pk (fun k => inb k ids = false)).
  by rewrite Hperm.
Qed.

Ltac user_leaf :=
  idtac;
  lazymatch goal with
  | |- preserves _ (User_save _ _) => apply preserves_User_save
  | |- preserves _ (UserCreateSerializer_create _) =>
      apply preserves_UserCreateSerializer_create
  end.

Lemma run_profiles_match now o db :
  profiles_match_users db -> profiles_match_users (run now o db).
Proof.
  intros HI.
  destruct o; simpl run;
    try (apply preserves_state_after; [|exact HI]; pres user_leaf).
  all: try (unfold_deletes; exact HI).
  unfold_deletes. exact (profiles_match_delete db ids HI).
Qed.

Lemma reachable_profiles_match db :
  reachable db -> profiles_match_users db.
Proof.
  induction 1 as [|db now o _ IH _].
  - apply profiles_match_empty.
  - by apply run_profiles_match.
Qed.

(** C10. Creating a user appends exactly one profile of that user, with
    role 'Admin' for a superuser, else 'Staff' for a staff user, else
    'Student'; saving an existing user leaves the profiles alone; the
    explicit second creation in [UserCreateSerializer.create] adds nothing;
    and in every reachable state every user has exactly one profile. *)
Theorem C10_one_profile_per_user db :
  reachable db ->
  (forall u, u ∈ rows (users db) -> length (profiles_of db (pk u)) = 1)
  /\ (forall f,
        User_constraints (rows (users db)) f = true ->
        exists u p,
          outcome (User_save None f) db = Ok u
          /\ fields u = f
          /\ rows (users (state_after (User_save None f) db))
             = (rows (users db) ++ [u])%list
          /\ rows (profiles (state_after (User_save None f) db))
             = (rows (profiles db) ++ [p])%list
          /\ fields p = mkUserProfile (pk u) (role_of f)
          /\ profiles_of (state_after (User_save None f) db) (pk u) = [p])
  /\ (forall k f,
        is_Some (tbl_get (users db) k) ->
        profiles (state_after (User_save (Some k) f) db) = profiles db)
  /\ (forall f,
        state_after (UserCreateSerializer_create f) db
        = state_after (User_save None f) db).
Proof.
  intros HI%reachable_profiles_match. split_and!.
  - intros u Hu. by apply profiles_match_one.
  - intros f Hc. unfold outcome, state_after.
    rewrite User_create_run by done. simpl.
    eexists _, _. split_and!; [done..|].
    unfold profiles_of. simpl. rewrite filter_app, filter_cons, filter_nil.
    simpl. rewrite decide_True by done.
    rewrite filter_none; [done|].
    intros p Hp Heq.
    apply (last_id_fresh (users db)); [apply HI|].
    destruct HI as [_ Hperm]. rewrite <- Hperm, <- Heq.
    apply list_elem_of_fmap. by exists p.
  - intros k f [u Hu]. unfold state_after, User_save, write, bind, gets.
    simpl. rewrite Hu. unfold no_pre_save.
    by destruct (User_constraints _ f).
  - intros f. unfold state_after at 1.
    by rewrite UserCreateSerializer_create_run.
Qed.

(** ** Validation reads, it does not write *)

Section Validation.
Context {A B : Type}.

Lemma validation_ret (a : A) : validation (ret a).
Proof. by intros db0 db ->. Qed.

Lemma validation_raise msg : validation (@raise A (ValidationError msg)).
Proof. intros db0 db ->. simpl. split; [done|by eexists]. Qed.

Lemma validation_gets (f : DB -> A) : validation (gets f).
Proof. by intros db0 db ->. Qed.

Lemma validation_bind (m : M A) (k : A -> M B) :
  validation m -> (forall a, validation (k a)) -> validation (bind m k).
Proof. intros Hm Hk db0. eapply hoare_bind; [apply Hm|]. intros a. apply Hk. Qed.

Lemma validation_run (m : M A) db :
  validation m ->
  (exists a, m db = (Ok a, db))
  \/ (exists msg, m db = (Raise (ValidationError msg), db)).
Proof.
  intros Hm. specialize (Hm db db eq_refl).
  destruct (m db) as [[a|e] db'].
  - left. exists a. by subst.
  - right. destruct Hm as [-> [msg ->]]. by exists msg.
Qed.
End Validation.

Lemma validation_map_M {A B} (f : A -> M B) xs :
  (forall x, validation (f x)) -> validation (map_M f xs).
Proof.
  intros Hf. induction xs as [|x xs IH]; simpl.
  - apply validation_ret.
  - apply validation_bind; [apply Hf|]. intros y.
    apply validation_bind; [apply IH|]. intros ys. apply validation_ret.
Qed.

Lemma validation_PrimaryKeyRelatedField {F} (objects : manager F) i :
  validation (PrimaryKeyRelatedField objects i).
Proof.
  unfold PrimaryKeyRelatedField. apply validation_bind; [apply validation_gets|].
  intros t. destruct (tbl_get t i);
    [apply validation_ret | apply validation_raise].
Qed.

Lemma validation_CharField n v : validation (CharField n v).
Proof.
  unfold CharField. case_bool_decide;
    [apply validation_ret | apply validation_raise].
Qed.

Lemma validation_ChoiceField cs v : validation (ChoiceField cs v).
Proof.
  unfold ChoiceField. case_bool_decide;
    [apply validation_ret | apply validation_raise].
Qed.

Lemma validation_UniqueValidator {F K} `{EqDecision K} (objects : manager F)
    (col : F -> K) v :
  validation (UniqueValidator objects col v).
Proof.
  unfold UniqueValidator, all. apply validation_bind; [apply validation_gets|].
  intros rs. destruct (exists_ _);
    [apply validation_raise | apply validation_ret].
Qed.

Lemma validation_credit_hours_field v : validation (credit_hours_field v).
Proof.
  unfold credit_hours_field. destruct (_ <? _)%Z;
    [apply validation_ret | apply validation_raise].
Qed.

Lemma validation_semester_field v : validation (semester_field v).
Proof.
  unfold semester_field. case_bool_decide;
    [apply validation_ret | apply validation_raise].
Qed.

Lemma validation_validate_dob now v : validation (validate_dob now v).
Proof.
  unfold validate_dob. destruct (date_ltb _ _);
    [apply validation_raise | apply validation_ret].
Qed.

Ltac validation_step :=
  first
    [ apply validation_ret
    | apply validation_PrimaryKeyRelatedField
    | apply validation_CharField
    | apply validation_ChoiceField
    | apply validation_UniqueValidator
    | apply validation_credit_hours_field
    | apply validation_semester_field
    | apply validation_validate_dob
    | apply validation_bind; [|intros ?] ].


Lemma validation_StudentSerializer now data :
  validation (StudentSerializer_run_validation now data).
Proof. unfold StudentSerializer_run_validation. repeat validation_step. Qed.

Lemma is_valid_many_run {D F} (f : D -> M F) data db :
  (forall d, validation (f d)) ->
  (exists vs, map_M f data db = (Ok vs, db)
              /\ is_valid_many f data db = (Ok (Some vs), db))
  \/ is_valid_many f data db = (Ok None, db).
Proof.
  intros Hf. unfold is_valid_many.
  destruct (validation_run (map_M f data) db (validation_map_M f data Hf))
    as [[vs ->]|[msg ->]]; [left; by exists vs | by right].
Qed.

Lemma map_M_cons {A B} (f : A -> M B) x xs db :
  map_M f (x :: xs) db
  = match f x db with
    | (Ok y, db1) =>
        match map_M f xs db1 with
        | (Ok ys, db2) => (Ok (y :: ys), db2)
        | (Raise e, db2) => (Raise e, db2)
        end
    | (Raise e, db1) => (Raise e, db1)
    end.
Proof.
  simpl. unfold bind. destruct (f x db) as [[y|e] db1]; [|done].
  by destruct (map_M f xs db1) as [[ys|e] db2].
Qed.

Lemma map_M_length {A B} (f : A -> M B) xs db ys db' :
  map_M f xs db = (Ok ys, db') -> length ys = length xs.
Proof.
  revert db ys db'. induction xs as [|x xs IH]; intros db ys db'; simpl.
  - by intros [= <- _].
  - unfold bind at 1. destruct (f x db) as [[y|e] db1]; [|done].
    unfold bind at 1. destruct (map_M f xs db1) as [[ys'|e] db2] eqn:Hm; [|done].
    intros [= <- _]. simpl. f_equal. by apply (IH db1 ys' db2).
Qed.

(** ** Bulk creation *)

Ltac lawful_manager :=
  split; [ done | done
         | intros g g' [] Heq; simpl in *; by rewrite Heq
         | by intros [] ].


Lemma Student_objects_lawful : lawful Student_objects.
Proof. lawful_manager. Qed.

Section BulkCreate.
Context {F : Type} (objects : manager F).
Variable constraints : list (row F) -> F -> bool.
Hypothesis laws : lawful objects.

Let save (f : F) : M (row F) :=
  r <- write objects constraints no_pre_save None f ;; ret (fst r).

Lemma save_run f db :
  save f db
  = if constraints (rows (view objects db)) f
    then (Ok (Row (S (last_id (view objects db))) f),
          with_rows objects [Row (S (last_id (view objects db))) f] db)
    else (Raise IntegrityError, db).
Proof.
  unfold save, write, bind, gets, with_rows, no_pre_save. simpl.
  destruct (constraints _ f); simpl; [|done].
  f_equal. apply (over_ext _ laws). simpl. by rewrite Nat.add_1_r.
Qed.

Lemma with_rows_nil db : with_rows objects [] db = db.
Proof.
  unfold with_rows. rewrite <- (over_id _ laws db) at 2.
  apply (over_ext _ laws). destruct (view objects db). simpl.
  by rewrite app_nil_r, Nat.add_0_r.
Qed.

Lemma with_rows_app news news' db :
  with_rows objects news' (with_rows objects news db)
  = with_rows objects (news ++ news') db.
Proof.
  unfold with_rows. rewrite (over_over _ laws).
  apply (over_ext _ laws). simpl.
  by rewrite <- app_assoc, length_app, Nat.add_assoc.
Qed.

(** A loop of creations: either every row is appended, or one INSERT is
    rejected. *)
Lemma map_M_save_cases vs db :
  (exists created,
     map_M save vs db = (Ok created, with_rows objects created db)
     /\ map fields created = vs)
  \/ (exists db', map_M save vs db = (Raise IntegrityError, db')).
Proof.
  revert db. induction vs as [|v vs IH]; intros db.
  - left. exists []. simpl. by rewrite with_rows_nil.
  - rewrite map_M_cons, save_run.
    destruct (constraints _ v); [|right; eexists; reflexivity].
    destruct (IH (with_rows objects
      [Row (S (last_id (view objects db))) v] db))
      as [(created & Hrun & Hf)|(db' & Hrun)]; rewrite Hrun.
    + left. eexists (_ :: created).
      rewrite with_rows_app. simpl. by rewrite Hf.
    + right. by exists db'.
Qed.
End BulkCreate.

Section BulkView.
Context {D F : Type} (objects : manager F).
Variable constraints : list (row F) -> F -> bool.
Variable run_validation : D -> M F.
Variable serializer_data : renderer F.
Hypothesis laws : lawful objects.
Hypothesis validates : forall d, validation (run_validation d).

Let post (data : list D) : M response :=
  atomic (
    valid <- is_valid_many run_validation data ;;
    match valid with
    | Some validated_data =>
        instances <- map_M (fun f =>
               r <- write objects constraints no_pre_save None f ;;
               ret (fst r)) validated_data ;;
        _ <- render serializer_data instances ;;
        ret (Response 201)
    | None => ret (Response 400)
    end).

Lemma bulk_post_cases data db :
  match outcome (is_valid_many run_validation data) db with
  | Ok None => post data db = (Ok (Response 400), db)
  | Ok (Some vs) =>
      length vs = length data
      /\ ((exists created,
             post data db
             = (Ok (Response 201), with_rows objects created db)
             /\ map fields created = vs)
          \/ exists e, post data db = (Raise e, db))
  | Raise _ => False
  end.
Proof.
  unfold outcome, post, atomic.
  destruct (is_valid_many_run run_validation data db validates)
    as [(vs & Hmap & Hv)| Hv]; rewrite Hv, (bind_Ok _ _ _ _ _ Hv); simpl;
    [|done].
  split; [by apply map_M_length in Hmap|].
  destruct (map_M_save_cases objects constraints laws vs db)
    as [(created & Hrun & Hf)|(db' & Hrun)].
  - rewrite (bind_Ok _ _ _ _ _ Hrun). unfold bind, render.
    destruct (serializer_data created _) as [[]|e].
    + left. by exists created.
    + right. by exists e.
  - right. exists IntegrityError. by rewrite (bind_Raise _ _ _ _ _ Hrun).
Qed.
End BulkView.





Lemma StudentSerializer_validated now d db s db' :
  StudentSerializer_run_validation now d db = (Ok s, db') ->
  student_user s = None.
Proof.
  unfold StudentSerializer_run_validation, CharField, UniqueValidator,
    all, ChoiceField, validate_dob, PrimaryKeyRelatedField.
  intros H.
  repeat (unfold bind, gets, ret, raise in *; simpl in *;
          repeat case_match; simplify_eq/=).
  done.
Qed.

(** The validated data of [StudentSerializer] never holds a user, and the
    column is NOT NULL: a valid list that is not empty is rejected by the
    first INSERT. *)
Lemma StudentBulk_valid_nonempty_raises serializer_data now d data db vs :
  outcome (is_valid_many (StudentSerializer_run_validation now) (d :: data)) db
  = Ok (Some vs) ->
  StudentBulkAPIView_post serializer_data now (d :: data) db
  = (Raise IntegrityError, db).
Proof.
  unfold outcome. intros Hvalid.
  destruct (is_valid_many_run (StudentSerializer_run_validation now)
    (d :: data) db (validation_StudentSerializer now))
    as [(vs' & Hmap & Hv)|Hv]; rewrite Hv in Hvalid; [|done].
  clear Hvalid.
  unfold StudentBulkAPIView_post, atomic. rewrite (bind_Ok _ _ _ _ _ Hv).
  rewrite map_M_cons in Hmap.
  destruct (StudentSerializer_run_validation now d db) as [[s|e] db1] eqn:Hs;
    [|done].
  apply StudentSerializer_validated in Hs.
  destruct (map_M _ data db1) as [[ys|e] db2]; [|done].
  injection Hmap as <- _.
  unfold bind at 1. rewrite map_M_cons.
  unfold Student_save at 1, write, bind at 1, gets, Student_constraints.
  simpl. unfold no_pre_save. rewrite Hs. by simpl.
Qed.


(** ** The dashboard *)


(** ** Notifications and their recipients *)

Lemma reachable_replay allowed now history db :
  reachable_by allowed db -> Forall allowed history ->
  reachable_by allowed (replay now history db).
Proof.
  intros Hdb Hall. revert db Hdb.
  induction Hall as [|o history Ho _ IH]; intros db Hdb; [done|].
  simpl. apply IH. by constructor.
Qed.


Lemma college_reachable : reachable college.
Proof.
  apply reachable_replay; [constructor|].
  unfold college_history. repeat constructor.
Qed.



(** * Counterexamples *)



(** C7 as stated fails: saving the stored enrollment of Alice again is an
    update, and the receiver writes nothing. *)
Lemma C7_counterexample :
  ~ (forall now i f db r db',
       Enrollment_save now i f db = (Ok r, db') ->
       notification_count db < notification_count db').
Proof.
  intros H.
  specialize (H now0 (Some 1) alice_enrollment college (Row 1 alice_enrollment)
                (state_after (Enrollment_save now0 (Some 1) alice_enrollment)
                   college)).
  vm_compute in H. specialize (H eq_refl). lia.
Qed.


(** * Witnesses *)

Lemma C1_witness :
  outcome (has_permission (Authenticated alice_row) student_view) college
  = Ok true.
Proof.
  apply (proj1 (C1_has_permission college (Authenticated alice_row)
                  student_view)).
  split; [reflexivity|].
  exists alice_row, alice_profile. split_and!; [reflexivity|..].
  - vm_compute. reflexivity.
  - vm_compute. do 2 right. left.
Defined.

Lemma C2_witness :
  head (profiles_of college (pk alice_row)) = Some alice_profile
  /\ role (fields alice_profile) = "Student"
  /\ exists q,
       StudentViewSet_get_queryset (Authenticated alice_row) college
       = (Ok q, college)
       /\ forall s, s ∈ q -> student_user (fields s) = Some (pk alice_row).
Proof.
  assert (head (profiles_of college (pk alice_row)) = Some alice_profile)
    as Hp by (vm_compute; reflexivity).
  split_and!; [exact Hp|reflexivity|].
  destruct (C2_get_queryset alice_row alice_profile college Hp) as [H _].
  destruct (H eq_refl) as (q & Hq & Hs & _).
  exists q. split; [exact Hq|]. intros s Hin. by apply Hs.
Defined.


Lemma C4_witness :
  reachable college
  /\ no_two_agree Enrollment_key (enrollments college)
  /\ no_two_agree Attendance_key (attendances college).
Proof.
  split; [exact college_reachable|].
  destruct (C4_unique_together college college_reachable) as (H1 & H2 & _).
  by split.
Defined.


Lemma C6_witness :
  refers_to_stored_rows college (SavedExam midterm_row)
  /\ exists news,
       create_exam_notification now0 midterm_row true college
       = (Ok tt, with_notifications news college)
       /\ length news = 1.
Proof.
  assert (refers_to_stored_rows college (SavedExam midterm_row)) as Hrefs.
  { exists (Row 1 cs101). split; [vm_compute; reflexivity|].
    eexists. vm_compute. reflexivity. }
  split; [exact Hrefs|].
  destruct (C6_exam_notifications now0 midterm_row college Hrefs)
    as [(news & Hrun & Hall & _) _].
  exists news. split; [exact Hrun|].
  apply Forall2_length in Hall. rewrite <- Hall. vm_compute. reflexivity.
Defined.

Lemma C7_witness :
  refers_to_stored_rows college (SavedFee paid_fee)
  /\ notification_count
       (state_after (post_save now0 (SavedFee paid_fee) false) college)
     = notification_count college + 1.
Proof.
  assert (refers_to_stored_rows college (SavedFee paid_fee)) as Hrefs.
  { eexists. vm_compute. reflexivity. }
  split; [exact Hrefs|].
  exact (proj2 (C7_notifications_due now0 college (SavedFee paid_fee) false
                  Hrefs)).
Defined.


Lemma C9_witness :
  stored Student_objects (fee_student (fields paid_fee)) college
  /\ is_paid (fields paid_fee) = true
  /\ exists new,
       outcome (create_fee_notification now0 paid_fee false) college = Ok tt
       /\ title (fields new) = "Fee Paid"
       /\ read (fields new) = true.
Proof.
  assert (stored Student_objects (fee_student (fields paid_fee)) college)
    as Hs by (eexists; vm_compute; reflexivity).
  split_and!; [exact Hs|reflexivity|].
  destruct (C9_fee_paid now0 paid_fee college Hs eq_refl)
    as (new & Hrun & _ & _ & Ht & Hr & _).
  exists new. unfold outcome. rewrite Hrun. by split_and!.
Defined.

Lemma C10_witness :
  reachable college
  /\ forall u, u ∈ rows (users college) ->
       length (profiles_of college (pk u)) = 1.
Proof.
  split; [exact college_reachable|].
  exact (proj1 (C10_one_profile_per_user college college_reachable)).
Defined.


(** * The rest of the application *)

(** ** The permission classes of a fixed role *)

Lemma has_permission_run u view db :
  has_permission (Authenticated u) view db
  = (match head (profiles_of db (pk u)) with
     | Some p =>
         Ok (bool_decide (role (fields p) ∈ default [] (allowed_roles view)))
     | None => Raise RelatedObjectDoesNotExist
     end, db).
Proof.
  unfold has_permission. cbn [is_authenticated negb]. unfold bind.
  rewrite user_profile_run. by destruct (head (profiles_of db (pk u))).
Qed.

Lemma IsAdmin_run u db :
  IsAdmin_has_permission (Authenticated u) db
  = (if is_superuser (fields u) then Ok true
     else match head (profiles_of db (pk u)) with
          | Some p => Ok (bool_decide (role (fields p) = "Admin"))
          | None => Raise RelatedObjectDoesNotExist
          end, db).
Proof.
  unfold IsAdmin_has_permission.
  cbn [is_authenticated negb user_is_superuser].
  destruct (is_superuser (fields u)); [done|]. unfold bind.
  rewrite user_profile_run. by destruct (head (profiles_of db (pk u))).
Qed.

Lemma IsStaff_run u db :
  IsStaff_has_permission (Authenticated u) db
  = (if is_staff (fields u) then Ok true
     else match head (profiles_of db (pk u)) with
          | Some p => Ok (bool_decide (role (fields p) = "Staff"))
          | None => Raise RelatedObjectDoesNotExist
          end, db).
Proof.
  unfold IsStaff_has_permission.
  cbn [is_authenticated negb user_is_staff].
  destruct (is_staff (fields u)); [done|]. unfold bind.
  rewrite user_profile_run. by destruct (head (profiles_of db (pk u))).
Qed.

Lemma IsStudent_run u db :
  IsStudent_has_permission (Authenticated u) db
  = (match head (profiles_of db (pk u)) with
     | Some p => Ok (bool_decide (role (fields p) = "Student"))
     | None => Raise RelatedObjectDoesNotExist
     end, db).
Proof.
  unfold IsStudent_has_permission. cbn [is_authenticated negb]. unfold bind.
  rewrite user_profile_run. by destruct (head (profiles_of db (pk u))).
Qed.

(** X1. [IsStudent] and [RoleBasedPermission] with [allowed_roles =
    ['Student']] are the same check: same answer, same exception for a user
    without profile, for every user and database. *)
Theorem IsStudent_is_role_based user db :
  IsStudent_has_permission user db
  = has_permission user (ViewClass (Some ["Student"])) db.
Proof.
  destruct user as [|u]; [done|].
  rewrite IsStudent_run, has_permission_run.
  destruct (head (profiles_of db (pk u))) as [p|]; [|done].
  do 2 f_equal. apply bool_decide_ext. simpl.
  by rewrite list_elem_of_singleton.
Qed.

(** X2. [IsAdmin] grants exactly the authenticated users that are
    superusers or whose profile role is 'Admin', and [IsStaff] exactly those
    with [is_staff] set or whose profile role is 'Staff'; for a superuser
    (a staff user) the profile is not read, so the check returns even when
    there is none.  Neither writes. *)
Theorem IsAdmin_IsStaff_grant user db :
  (outcome (IsAdmin_has_permission user) db = Ok true
   <-> exists u, user = Authenticated u
         /\ (is_superuser (fields u) = true
             \/ exists p, head (profiles_of db (pk u)) = Some p
                          /\ role (fields p) = "Admin"))
  /\ (outcome (IsStaff_has_permission user) db = Ok true
      <-> exists u, user = Authenticated u
            /\ (is_staff (fields u) = true
                \/ exists p, head (profiles_of db (pk u)) = Some p
                             /\ role (fields p) = "Staff"))
  /\ (user_is_superuser user = true ->
      IsAdmin_has_permission user db = (Ok true, db))
  /\ (user_is_staff user = true ->
      IsStaff_has_permission user db = (Ok true, db))
  /\ state_after (IsAdmin_has_permission user) db = db
  /\ state_after (IsStaff_has_permission user) db = db.
Proof.
  unfold outcome, state_after.
  destruct user as [|u].
  - simpl. split_and!; try done; split; try done; by intros (? & ? & _).
  - rewrite IsAdmin_run, IsStaff_run. simpl. split_and!.
    + destruct (is_superuser (fields u)) eqn:Hsu.
      { split; [|done]. intros _. exists u. split; [done|by left]. }
      destruct (head (profiles_of db (pk u))) as [p|] eqn:Hp; simpl.
      * split.
        -- intros [= Hr%bool_decide_eq_true]. exists u. split; [done|].
           right. by exists p.
        -- intros (u' & [= <-] & [Hs|(p' & Hp' & Hr)]); [congruence|].
           simplify_eq. f_equal. by apply bool_decide_eq_true.
      * split; [done|].
        intros (u' & [= <-] & [Hs|(p' & Hp' & Hr)]); congruence.
    + destruct (is_staff (fields u)) eqn:Hst.
      { split; [|done]. intros _. exists u. split; [done|by left]. }
      destruct (head (profiles_of db (pk u))) as [p|] eqn:Hp; simpl.
      * split.
        -- intros [= Hr%bool_decide_eq_true]. exists u. split; [done|].
           right. by exists p.
        -- intros (u' & [= <-] & [Hs|(p' & Hp' & Hr)]); [congruence|].
           simplify_eq. f_equal. by apply bool_decide_eq_true.
      * split; [done|].
        intros (u' & [= <-] & [Hs|(p' & Hp' & Hr)]); congruence.
    + by intros ->.
    + by intros ->.
    + done.
    + done.
Qed.

(** X3. A superuser whose profile role is not 'Admin' passes [IsAdmin] but
    is denied by [RoleBasedPermission] on a view that allows 'Admin' only;
    a superuser without profile passes [IsAdmin] and makes
    [RoleBasedPermission] raise. *)
Theorem superuser_IsAdmin_not_role_based u db :
  is_superuser (fields u) = true ->
  IsAdmin_has_permission (Authenticated u) db = (Ok true, db)
  /\ (forall p, head (profiles_of db (pk u)) = Some p ->
        role (fields p) <> "Admin" ->
        has_permission (Authenticated u) (ViewClass (Some ["Admin"])) db
        = (Ok false, db))
  /\ (head (profiles_of db (pk u)) = None ->
        has_permission (Authenticated u) (ViewClass (Some ["Admin"])) db
        = (Raise RelatedObjectDoesNotExist, db)).
Proof.
  intros Hsu. split_and!.
  - by rewrite IsAdmin_run, Hsu.
  - intros p Hp Hr. rewrite has_permission_run, Hp. simpl.
    rewrite bool_decide_eq_false_2; [done|].
    by intros H%list_elem_of_singleton.
  - intros Hp. by rewrite has_permission_run, Hp.
Qed.

Lemma superuser_IsAdmin_witness :
  is_superuser (fields promoted_alice) = true
  /\ IsAdmin_has_permission (Authenticated promoted_alice) college_promoted
     = (Ok true, college_promoted)
  /\ has_permission (Authenticated promoted_alice)
       (ViewClass (Some ["Admin"])) college_promoted
     = (Ok false, college_promoted).
Proof.
  split; [reflexivity|].
  destruct (superuser_IsAdmin_not_role_based promoted_alice college_promoted
              eq_refl) as (H1 & H2 & _).
  split; [exact H1|].
  apply (H2 alice_profile); [vm_compute; reflexivity|discriminate].
Defined.

(** X4. In every reachable state the four permission classes return for
    every stored user: the profile they read is there. *)
Theorem permissions_return_for_stored_users db u view :
  reachable db -> u ∈ rows (users db) ->
  (exists b, has_permission (Authenticated u) view db = (Ok b, db))
  /\ (exists b, IsAdmin_has_permission (Authenticated u) db = (Ok b, db))
  /\ (exists b, IsStaff_has_permission (Authenticated u) db = (Ok b, db))
  /\ (exists b, IsStudent_has_permission (Authenticated u) db = (Ok b, db)).
Proof.
  intros Hreach%reachable_profiles_match Hu.
  pose proof (profiles_match_one db u Hreach Hu) as Hone.
  destruct (head (profiles_of db (pk u))) as [p|] eqn:Hp;
    [|by destruct (profiles_of db (pk u))].
  rewrite has_permission_run, IsAdmin_run, IsStaff_run, IsStudent_run, Hp.
  split_and!; [by eexists| | |by eexists].
  - destruct (is_superuser (fields u)); by eexists.
  - destruct (is_staff (fields u)); by eexists.
Qed.

Lemma permissions_return_witness :
  reachable college /\ alice_row ∈ rows (users college)
  /\ exists b,
       has_permission (Authenticated alice_row) student_view college
       = (Ok b, college).
Proof.
  assert (alice_row ∈ rows (users college)) as Hin.
  { apply (list_elem_of_lookup_2 _ 0). vm_compute. reflexivity. }
  split_and!; [exact college_reachable|exact Hin|].
  exact (proj1 (permissions_return_for_stored_users college alice_row
                  student_view college_reachable Hin)).
Defined.

(** ** The roles of the profiles *)

Lemma known_roles_create k rl :
  rl ∈ ROLE_CHOICES ->
  preserves (on_table UserProfile_objects known_roles)
    (UserProfile_create k rl).
Proof.
  intros Hrl db HI. unfold UserProfile_create, write, bind, gets. simpl.
  unfold no_pre_save. destruct (UserProfile_constraints _ _); simpl; [|done].
  unfold on_table, known_roles in *. simpl.
  apply Forall_app. split; [done|]. by apply Forall_singleton.
Qed.

Lemma known_roles_delete t P : known_roles t -> known_roles (tbl_delete P t).
Proof.
  unfold known_roles. rewrite !Forall_forall. intros Ht p Hp. apply Ht.
  simpl in Hp. by apply list_elem_of_filter in Hp as [_ ?].
Qed.

Ltac profile_leaf :=
  idtac;
  lazymatch goal with
  | |- preserves _ (UserProfile_create _ _) =>
      apply known_roles_create; unfold ROLE_CHOICES;
      repeat case_match;
      first [left | right; left | right; right; left]
  end.

Lemma run_known_roles now o db :
  on_table UserProfile_objects known_roles db ->
  on_table UserProfile_objects known_roles (run now o db).
Proof.
  intros HI.
  destruct o; simpl run;
    try (apply preserves_state_after; [|exact HI]; pres profile_leaf).
  all: unfold_deletes; unfold on_table in *; simpl;
    repeat apply known_roles_delete; exact HI.
Qed.

(** X5. In every reachable state the role of every profile is one of
    'Admin', 'Staff' and 'Student': no code path stores another role. *)
Theorem profile_roles_are_choices db :
  reachable db ->
  forall p, p ∈ rows (profiles db) -> role (fields p) ∈ ROLE_CHOICES.
Proof.
  intros Hreach.
  assert (known_roles (profiles db)) as Hall.
  { induction Hreach as [|db now o _ IH _]; [apply Forall_nil_2|].
    by apply (run_known_roles now o db). }
  intros p Hp. unfold known_roles in Hall. rewrite Forall_forall in Hall.
  by apply Hall.
Qed.

Lemma profile_roles_witness :
  reachable college_promoted
  /\ forall p, p ∈ rows (profiles college_promoted) ->
       role (fields p) ∈ ROLE_CHOICES.
Proof.
  assert (reachable college_promoted) as Hreach.
  { unfold college_promoted. constructor; [exact college_reachable|exact I]. }
  split; [exact Hreach|].
  exact (profile_roles_are_choices college_promoted Hreach).
Defined.

(** ** [Student.age] and [validate_dob] *)

Lemma date_ltb_true a b :
  date_ltb a b = true
  <-> (d_year a < d_year b
       \/ d_year a = d_year b
          /\ (d_month a < d_month b
              \/ d_month a = d_month b /\ d_day a < d_day b))%Z.
Proof.
  unfold date_ltb.
  destruct (Z.ltb_spec (d_year a) (d_year b)),
    (Z.eqb_spec (d_year a) (d_year b)),
    (Z.ltb_spec (d_month a) (d_month b)),
    (Z.eqb_spec (d_month a) (d_month b)),
    (Z.ltb_spec (d_day a) (d_day b)); simpl; split; try done; lia.
Qed.

Lemma date_ltb_false a b :
  date_ltb a b = false
  <-> ~ (d_year a < d_year b
         \/ d_year a = d_year b
            /\ (d_month a < d_month b
                \/ d_month a = d_month b /\ d_day a < d_day b))%Z.
Proof. rewrite <- date_ltb_true. by destruct (date_ltb a b). Qed.

Lemma tuple_ltb_true a b :
  tuple_ltb a b = true
  <-> (fst a < fst b \/ fst a = fst b /\ snd a < snd b)%Z.
Proof.
  unfold tuple_ltb.
  destruct (Z.ltb_spec (fst a) (fst b)), (Z.eqb_spec (fst a) (fst b)),
    (Z.ltb_spec (snd a) (snd b)); simpl; split; try done; lia.
Qed.

(** X6. [Student.age] is the number of birthdays passed: the date of birth
    moved by [age] years is not after today, and moved by one year more it
    is after today.  Hence the age is not negative when the date of birth is
    not after today. *)
Theorem age_counts_birthdays today dob :
  date_le (years_later dob (age today dob)) today
  /\ date_ltb today (years_later dob (age today dob + 1)) = true
  /\ (date_le dob today -> (0 <= age today dob)%Z).
Proof.
  unfold date_le. rewrite !date_ltb_false, date_ltb_true. unfold age.
  destruct (tuple_ltb _ _) eqn:Ht.
  - apply tuple_ltb_true in Ht. simpl in *. lia.
  - assert (~ (d_month today < d_month dob
               \/ d_month today = d_month dob /\ d_day today < d_day dob)%Z)
      as Hn.
    { intros H. apply (tuple_ltb_true (_, _) (_, _)) in H. congruence. }
    simpl in *. lia.
Qed.

Lemma age_witness :
  date_le (Date 2004 2 29) day0 /\ (0 <= age day0 (Date 2004 2 29))%Z.
Proof.
  split; [reflexivity|].
  apply (age_counts_birthdays day0 (Date 2004 2 29)). reflexivity.
Defined.

(** X7. [validate_dob] returns the value when it is not after today and
    raises a validation error when it is; a date of birth it accepts gives a
    non-negative age on that day.  It does not write. *)
Theorem validate_dob_accepts_past now value db :
  (date_le value (dt_date now) ->
     validate_dob now value db = (Ok value, db)
     /\ (0 <= age (dt_date now) value)%Z)
  /\ (date_ltb (dt_date now) value = true ->
        exists msg,
          validate_dob now value db = (Raise (ValidationError msg), db)).
Proof.
  unfold validate_dob. split.
  - intros Hle. split; [|by apply age_counts_birthdays].
    unfold date_le in Hle. by rewrite Hle.
  - intros ->. by eexists.
Qed.

Lemma validate_dob_witness :
  date_le (Date 2004 2 29) (dt_date now0)
  /\ validate_dob now0 (Date 2004 2 29) college = (Ok (Date 2004 2 29), college).
Proof.
  split; [reflexivity|].
  apply (validate_dob_accepts_past now0 (Date 2004 2 29) college).
  reflexivity.
Defined.

(** ** The dashboard *)



Lemma date_le_refl d : date_le d d.
Proof. unfold date_le. apply date_ltb_false. lia. Qed.

Lemma date_le_trans a b c : date_le a b -> date_le b c -> date_le a c.
Proof. unfold date_le. rewrite !date_ltb_false. lia. Qed.

Lemma date_lt_le a b : date_ltb a b = true -> date_le a b.
Proof. unfold date_le. rewrite date_ltb_true, date_ltb_false. lia. Qed.

Lemma prev_day_before d : date_ltb (prev_day d) d = true.
Proof.
  unfold prev_day.
  destruct (Z.ltb_spec 1 (d_day d)); [apply date_ltb_true; simpl; lia|].
  destruct (Z.ltb_spec 1 (d_month d)); apply date_ltb_true; simpl; lia.
Qed.

Lemma sub_days_before d k : date_le (sub_days d k) d.
Proof.
  unfold sub_days. induction k as [|k IH]; simpl; [apply date_le_refl|].
  eapply date_le_trans; [|exact IH]. apply date_lt_le, prev_day_before.
Qed.

Lemma replace_day1_before now :
  (1 <= d_day (dt_date now))%Z -> date_le (replace_day1 now) (dt_date now).
Proof.
  intros H. unfold date_le, replace_day1. apply date_ltb_false. simpl. lia.
Qed.

Lemma date_le_eq_or_lt a b :
  date_le a b -> a = b \/ date_ltb a b = true.
Proof.
  unfold date_le. rewrite date_ltb_false, date_ltb_true.
  destruct a as [y m d], b as [y' m' d']. simpl. intros H.
  destruct (decide (y = y' /\ m = m' /\ d = d')) as [(-> & -> & ->)|Hne];
    [by left|right; lia].
Qed.

Lemma in_range_widen s s' e t :
  date_le s' s -> in_range s e t = true -> in_range s' e t = true.
Proof.
  unfold in_range. intros Hle [Hs He]%andb_true_iff.
  apply andb_true_iff. split; [|done].
  unfold datetime_leb, midnight in *. simpl in *.
  apply orb_true_iff in Hs. apply orb_true_iff.
  destruct Hs as [Hs|[Hs Hsec]%andb_true_iff].
  - left. apply date_ltb_true. apply date_ltb_true in Hs.
    unfold date_le in Hle. rewrite date_ltb_false in Hle. lia.
  - apply bool_decide_eq_true in Hs. subst s.
    destruct (date_le_eq_or_lt _ _ Hle) as [->|Hlt]; [|by left].
    right. apply andb_true_iff. split; [by apply bool_decide_eq_true|done].
Qed.

Lemma length_filter_mono {A} (P Q : A -> Prop) `{forall x, Decision (P x)}
    `{forall x, Decision (Q x)} (l : list A) :
  (forall x, P x -> Q x) -> length (filter P l) <= length (filter Q l).
Proof.
  intros HPQ. induction l as [|x l IH]; [done|]. rewrite !filter_cons.
  destruct (decide (P x)) as [HP|HP].
  - rewrite decide_True by auto. simpl. lia.
  - destruct (decide (Q x)); simpl; lia.
Qed.

Lemma dashboard_notifications (strptime : string -> option date) now q db
    s e data :
  date_range strptime now q = inl (Some s, Some e) ->
  outcome (DashboardAPIView_get strptime now q) db
  = Ok (DashboardOk 200 data) ->
  total_notifications data
  = length (filter (fun n => in_range s e (created_at (fields n)) = true)
                   (rows (notifications db))).
Proof.
  unfold outcome, DashboardAPIView_get. intros ->. simpl.
  by intros [= <-].
Qed.

(** X9. A wider filter never shows fewer notifications: the count for
    today is at most the count for the week, and at most the count for the
    month. *)
Theorem dashboard_wider_filter (strptime : string -> option date) now db
    q_today q_week q_month today week month :
  qp_filter q_today = Some "today" ->
  qp_filter q_week = Some "week" ->
  qp_filter q_month = Some "month" ->
  (1 <= d_day (dt_date now))%Z ->
  outcome (DashboardAPIView_get strptime now q_today) db
  = Ok (DashboardOk 200 today) ->
  outcome (DashboardAPIView_get strptime now q_week) db
  = Ok (DashboardOk 200 week) ->
  outcome (DashboardAPIView_get strptime now q_month) db
  = Ok (DashboardOk 200 month) ->
  total_notifications today <= total_notifications week
  /\ total_notifications today <= total_notifications month.
Proof.
  intros Ht Hw Hm Hday Hrt Hrw Hrm.
  rewrite (dashboard_notifications strptime now q_today db
             (dt_date now) (add_days (dt_date now) 1) today); [|
    unfold date_range; by rewrite Ht|done].
  rewrite (dashboard_notifications strptime now q_week db
             (sub_days (dt_date now) 7) (add_days (dt_date now) 1) week); [|
    unfold date_range; by rewrite Hw|done].
  rewrite (dashboard_notifications strptime now q_month db
             (replace_day1 now) (add_days (dt_date now) 1) month); [|
    unfold date_range; by rewrite Hm|done].
  split; apply length_filter_mono; intros n; apply in_range_widen.
  - apply sub_days_before.
  - by apply replace_day1_before.
Qed.

Lemma dashboard_wider_witness :
  exists today week month,
    outcome (DashboardAPIView_get no_strptime now0 today_query) college
    = Ok (DashboardOk 200 today)
    /\ outcome (DashboardAPIView_get no_strptime now0 week_query) college
       = Ok (DashboardOk 200 week)
    /\ outcome (DashboardAPIView_get no_strptime now0 month_query) college
       = Ok (DashboardOk 200 month)
    /\ total_notifications today <= total_notifications week
    /\ total_notifications today <= total_notifications month.
Proof.
  eexists _, _, _.
  split; [vm_compute; reflexivity|].
  split; [vm_compute; reflexivity|].
  split; [vm_compute; reflexivity|].
  apply (dashboard_wider_filter no_strptime now0 college today_query
           week_query month_query);
    first [vm_compute; reflexivity | vm_compute; discriminate].
Defined.

(** ** The detail actions of the notifications and of the fees *)

Section TableUpdates.
Context {F : Type}.
Implicit Types (t : table F).



End TableUpdates.










(** ** What the receivers leave alone *)

Lemma pks_update_where {F} (P : row F -> bool) g (t : table F) :
  pks (tbl_update_where P g t) = pks t.
Proof.
  unfold pks, tbl_update_where. cbn [rows]. rewrite <- list_fmap_compose.
  apply list_fmap_ext. intros ? r _. cbv beta delta [compose].
  by destruct (P r).
Qed.

Lemma only_notifications_differ_refl db : only_notifications_differ db db.
Proof. exists (notifications db). split; [by destruct db | done]. Qed.

Lemma preserves_differ_create db0 now rs rf ty ti msg rd ar :
  preserves (only_notifications_differ db0)
    (Notification_create now rs rf ty ti msg rd ar).
Proof.
  intros db (t & -> & Hp). unfold Notification_create, write, bind, gets.
  simpl. eexists. split; [reflexivity|].
  unfold pks. cbn [rows]. rewrite fmap_app. by apply prefix_app_r.
Qed.

Lemma preserves_differ_update_where db0 P g :
  preserves (only_notifications_differ db0)
    (modify (over Notification_objects (tbl_update_where P g))).
Proof.
  intros db (t & -> & Hp). simpl. eexists. split; [reflexivity|].
  by rewrite pks_update_where.
Qed.

Ltac differ_leaf :=
  idtac;
  first [ apply preserves_differ_create
        | apply preserves_differ_update_where ].

(** X12. Whatever record is saved, and whether they return or raise, the
    receivers of signals.py change no table but the notifications, and
    there they neither delete a notification nor change its key. *)
Theorem receivers_write_notifications_only now s created db :
  only_notifications_differ db (state_after (post_save now s created) db).
Proof.
  assert (preserves (only_notifications_differ db)
            (post_save now s created)) as Hpres.
  { destruct s; pres differ_leaf. }
  specialize (Hpres db (only_notifications_differ_refl db)).
  unfold state_after. by destruct (post_save now s created db) as [[[]|e] db'].
Qed.

(** ** Registering a user *)

(** X13. In every reachable state [UserCreateSerializer.create] ends in an
    IntegrityError: with a taken username nothing is stored, with a free one
    the second creation of the profile is refused, after the user and the
    profile made by the receiver were stored. *)
Theorem UserCreateSerializer_create_raises db f :
  reachable db ->
  outcome (UserCreateSerializer_create f) db = Raise IntegrityError
  /\ (User_constraints (rows (users db)) f = false ->
      state_after (UserCreateSerializer_create f) db = db)
  /\ (User_constraints (rows (users db)) f = true ->
      let db' := state_after (UserCreateSerializer_create f) db in
      let k := S (last_id (users db)) in
      rows (users db') = (rows (users db) ++ [Row k f])%list
      /\ rows (profiles db')
         = (rows (profiles db)
              ++ [Row (S (last_id (profiles db)))
                      (mkUserProfile k (role_of f))])%list).
Proof.
  intros HI%reachable_profiles_match.
  cbv zeta. unfold outcome, state_after.
  rewrite UserCreateSerializer_create_run by done.
  unfold outcome, state_after. cbn [fst snd].
  destruct (User_constraints (rows (users db)) f) eqn:Hc.
  - rewrite (User_create_run db f HI Hc). cbn [fst snd].
    split_and!; [done|done|]. intros _. by simpl.
  - assert (User_save None f db = (Raise IntegrityError, db)) as ->.
    { unfold User_save, write, bind, gets. simpl. unfold no_pre_save.
      by rewrite Hc. }
    cbn [fst snd]. split_and!; done.
Qed.

Lemma UserCreateSerializer_create_witness :
  outcome (UserCreateSerializer_create carol) college = Raise IntegrityError.
Proof.
  exact (proj1 (UserCreateSerializer_create_raises college carol
                  college_reachable)).
Defined.

(** ** The bulk creation of students *)

(** X14. [StudentBulkAPIView.post] never stores a student: whatever list is
    posted, the database is left as it was, and the answer is 201 for the
    empty list only. *)
Theorem StudentBulk_post_stores_nothing serializer_data now data db :
  state_after (StudentBulkAPIView_post serializer_data now data) db = db
  /\ (outcome (StudentBulkAPIView_post serializer_data now data) db
      = Ok (Response 201) -> data = []).
Proof.
  unfold state_after, outcome.
  destruct data as [|d data].
  - split; [|done].
    unfold StudentBulkAPIView_post, atomic, is_valid_many, bind, render.
    simpl. by destruct (serializer_data [] db) as [[]|e].
  - pose proof (bulk_post_cases Student_objects Student_constraints
                  (StudentSerializer_run_validation now) serializer_data
                  Student_objects_lawful (validation_StudentSerializer now)
                  (d :: data) db) as Hcases.
    destruct (outcome (is_valid_many (StudentSerializer_run_validation now)
                         (d :: data)) db) as [[vs|]|e] eqn:Hvalid.
    + rewrite (StudentBulk_valid_nonempty_raises serializer_data now d data
                 db vs Hvalid).
      by split.
    + replace (StudentBulkAPIView_post serializer_data now (d :: data) db)
        with (Ok (Response 400), db) by (symmetry; exact Hcases).
      by split.
    + done.
Qed.

(** ** The create endpoints of the enrollments and of the attendance *)

Lemma EnrollmentSerializer_run_validation_cases now data db :
  (exists msg,
     EnrollmentSerializer_run_validation now data db
     = (Raise (ValidationError msg), db))
  \/ (EnrollmentSerializer_run_validation now data db
      = (Ok (mkEnrollment (ed_student_id data) (ed_course_id data)
               (ed_semester data) (ed_year data) (dt_date now)), db)
      /\ stored Student_objects (ed_student_id data) db
      /\ stored Course_objects (ed_course_id data) db
      /\ Forall (fun r => Enrollment_key (fields r)
                          <> (ed_student_id data, ed_course_id data,
                              ed_semester data, ed_year data))
                (rows (enrollments db))).
Proof.
  unfold EnrollmentSerializer_run_validation, PrimaryKeyRelatedField,
    EnrollmentSerializer_validate, all, bind, gets, raise, ret, stored.
  simpl.
  destruct (tbl_get (students db) (ed_student_id data)) as [s|] eqn:Hs;
    simpl; [|left; by eexists].
  destruct (tbl_get (courses db) (ed_course_id data)) as [c|] eqn:Hc;
    simpl; [|left; by eexists].
  apply tbl_get_Some in Hs as [_ ->]. apply tbl_get_Some in Hc as [_ ->].
  destruct (exists_ _) eqn:He; [left; by eexists|].
  right. split_and!; [done|by eexists|by eexists|].
  apply exists_filter_false in He. eapply Forall_impl; [exact He|].
  intros r Hr [= H1 H2 H3 H4]. by apply Hr.
Qed.

Lemma Enrollment_create_run now f db :
  stored Student_objects (enr_student f) db ->
  stored Course_objects (enr_course f) db ->
  Forall (fun r => Enrollment_key (fields r) <> Enrollment_key f)
         (rows (enrollments db)) ->
  exists new notif,
    Enrollment_save now None f db
    = (Ok new,
       with_notifications [notif]
         (with_rows Enrollment_objects [new] db))
    /\ new = Row (S (last_id (enrollments db)))
                (mkEnrollment (enr_student f) (enr_course f)
                   (enr_semester f) (enr_year f) (dt_date now))
    /\ pk notif = S (last_id (notifications db))
    /\ recipient_student (fields notif) = Some (enr_student f)
    /\ recipient_staff (fields notif) = None
    /\ notif_type (fields notif) = "Enrollment"
    /\ read (fields notif) = false.
Proof.
  intros Hs Hc Hfresh.
  set (new := Row (S (last_id (enrollments db)))
                (mkEnrollment (enr_student f) (enr_course f)
                   (enr_semester f) (enr_year f) (dt_date now))).
  assert (write Enrollment_objects Enrollment_constraints
            (Enrollment_pre_save now) None f db
          = (Ok (new, true), with_rows Enrollment_objects [new] db)) as Hw.
  { unfold write, bind, gets, Enrollment_constraints. simpl.
    rewrite (proj2 (unique_on_spec Enrollment_key _ _)) by exact Hfresh.
    unfold with_rows. simpl. by rewrite Nat.add_1_r. }
  unfold Enrollment_save. rewrite (bind_Ok _ _ _ _ _ Hw). cbn [fst snd].
  unfold create_enrollment_notification.
  assert (stored Student_objects (enr_student (fields new))
            (with_rows Enrollment_objects [new] db)) as Hs' by exact Hs.
  assert (stored Course_objects (enr_course (fields new))
            (with_rows Enrollment_objects [new] db)) as Hc' by exact Hc.
  rewrite !bind_assoc. lookup Hs'. rewrite bind_assoc. lookup Hc'.
  rewrite bind_assoc, bind_Notification_create.
  rewrite !bind_ret. unfold ret.
  repeat match goal with H : pk _ = _ |- _ => rewrite H; clear H end.
  eexists _, _. split; [reflexivity|]. by split_and!.
Qed.

(** X15. [EnrollmentViewSet.create] answers 400 and leaves the database as
    it was, or answers 201; with 201 the student and the course of the item
    are stored, no stored enrollment has its student, course, semester and
    year, and what is added is one enrollment dated today and one unread
    'Enrollment' notification for that student. *)
Theorem EnrollmentViewSet_create_outcomes now data db :
  EnrollmentViewSet_create now data db = (Ok (Response 400), db)
  \/ exists new notif,
       EnrollmentViewSet_create now data db
       = (Ok (Response 201),
          with_notifications [notif]
            (with_rows Enrollment_objects [new] db))
       /\ new = Row (S (last_id (enrollments db)))
                   (mkEnrollment (ed_student_id data) (ed_course_id data)
                      (ed_semester data) (ed_year data) (dt_date now))
       /\ stored Student_objects (ed_student_id data) db
       /\ stored Course_objects (ed_course_id data) db
       /\ Forall (fun r => Enrollment_key (fields r)
                           <> Enrollment_key (fields new))
                 (rows (enrollments db))
       /\ recipient_student (fields notif) = Some (ed_student_id data)
       /\ recipient_staff (fields notif) = None
       /\ notif_type (fields notif) = "Enrollment"
       /\ read (fields notif) = false.
Proof.
  unfold EnrollmentViewSet_create, handle_exception,
    EnrollmentSerializer_create.
  destruct (EnrollmentSerializer_run_validation_cases now data db)
    as [[msg Hv]|(Hv & Hs & Hc & Hfresh)].
  - left. rewrite bind_assoc, (bind_Raise _ _ _ _ _ Hv). done.
  - right. rewrite bind_assoc, (bind_Ok _ _ _ _ _ Hv).
    destruct (Enrollment_create_run now
                (mkEnrollment (ed_student_id data) (ed_course_id data)
                   (ed_semester data) (ed_year data) (dt_date now))
                db Hs Hc Hfresh)
      as (new & notif & Hrun & -> & _ & H1 & H2 & H3 & H4).
    rewrite (bind_Ok _ _ _ _ _ Hrun). unfold ret.
    eexists _, notif. split; [reflexivity|]. by split_and!.
Qed.

Lemma AttendanceSerializer_run_validation_cases data db :
  (exists msg,
     AttendanceSerializer_run_validation data db
     = (Raise (ValidationError msg), db))
  \/ (AttendanceSerializer_run_validation data db
      = (Ok (mkAttendance (ad_student_id data) (ad_course_id data)
               (ad_date data) (ad_status data)), db)
      /\ stored Student_objects (ad_student_id data) db
      /\ stored Course_objects (ad_course_id data) db
      /\ ad_status data ∈ ["Present"; "Absent"; "Leave"]
      /\ Forall (fun r => Attendance_key (fields r)
                          <> (ad_student_id data, ad_course_id data,
                              ad_date data))
                (rows (attendances db))).
Proof.
  unfold AttendanceSerializer_run_validation, PrimaryKeyRelatedField,
    ChoiceField, AttendanceSerializer_validate, all, bind, gets, raise, ret,
    stored.
  simpl.
  destruct (tbl_get (students db) (ad_student_id data)) as [s|] eqn:Hs;
    simpl; [|left; by eexists].
  destruct (tbl_get (courses db) (ad_course_id data)) as [c|] eqn:Hc;
    simpl; [|left; by eexists].
  apply tbl_get_Some in Hs as [_ ->]. apply tbl_get_Some in Hc as [_ ->].
  case_bool_decide as Hst; simpl; [|left; by eexists].
  destruct (exists_ _) eqn:He; [left; by eexists|].
  right. split_and!; [done|by eexists|by eexists|done|].
  apply exists_filter_false in He. eapply Forall_impl; [exact He|].
  intros r Hr [= H1 H2 H3]. by apply Hr.
Qed.

Lemma Attendance_create_run now f db :
  stored Student_objects (att_student f) db ->
  stored Course_objects (att_course f) db ->
  Forall (fun r => Attendance_key (fields r) <> Attendance_key f)
         (rows (attendances db)) ->
  exists notif,
    Attendance_save now None f db
    = (Ok (Row (S (last_id (attendances db))) f),
       with_notifications [notif]
         (with_rows Attendance_objects
            [Row (S (last_id (attendances db))) f] db))
    /\ pk notif = S (last_id (notifications db))
    /\ recipient_student (fields notif) = Some (att_student f)
    /\ recipient_staff (fields notif) = None
    /\ notif_type (fields notif) = "Attendance"
    /\ read (fields notif) = false.
Proof.
  intros Hs Hc Hfresh.
  set (new := Row (S (last_id (attendances db))) f).
  assert (write Attendance_objects Attendance_constraints no_pre_save None
            f db
          = (Ok (new, true), with_rows Attendance_objects [new] db)) as Hw.
  { unfold write, bind, gets, Attendance_constraints, no_pre_save. simpl.
    rewrite (proj2 (unique_on_spec Attendance_key _ _)) by exact Hfresh.
    unfold with_rows. simpl. by rewrite Nat.add_1_r. }
  unfold Attendance_save. rewrite (bind_Ok _ _ _ _ _ Hw). cbn [fst snd].
  unfold create_attendance_notification.
  assert (stored Student_objects (att_student (fields new))
            (with_rows Attendance_objects [new] db)) as Hs' by exact Hs.
  assert (stored Course_objects (att_course (fields new))
            (with_rows Attendance_objects [new] db)) as Hc' by exact Hc.
  rewrite !bind_assoc. lookup Hs'. rewrite bind_assoc. lookup Hc'.
  rewrite bind_assoc, bind_Notification_create.
  rewrite !bind_ret. unfold ret.
  repeat match goal with H : pk _ = _ |- _ => rewrite H; clear H end.
  eexists. split; [reflexivity|]. by split_and!.
Qed.

(** X16. [AttendanceViewSet.create] answers 400 and leaves the database as
    it was, or answers 201; with 201 the student and the course of the item
    are stored, the status is one of Present, Absent and Leave, no stored
    row has its student, course and date, and what is added is that one row
    and one unread 'Attendance' notification for the student. *)
Theorem AttendanceViewSet_create_outcomes now data db :
  AttendanceViewSet_create now data db = (Ok (Response 400), db)
  \/ exists new notif,
       AttendanceViewSet_create now data db
       = (Ok (Response 201),
          with_notifications [notif]
            (with_rows Attendance_objects [new] db))
       /\ new = Row (S (last_id (attendances db)))
                   (mkAttendance (ad_student_id data) (ad_course_id data)
                      (ad_date data) (ad_status data))
       /\ stored Student_objects (ad_student_id data) db
       /\ stored Course_objects (ad_course_id data) db
       /\ ad_status data ∈ ["Present"; "Absent"; "Leave"]
       /\ Forall (fun r => Attendance_key (fields r)
                           <> Attendance_key (fields new))
                 (rows (attendances db))
       /\ recipient_student (fields notif) = Some (ad_student_id data)
       /\ recipient_staff (fields notif) = None
       /\ notif_type (fields notif) = "Attendance"
       /\ read (fields notif) = false.
Proof.
  unfold AttendanceViewSet_create, handle_exception,
    AttendanceSerializer_create.
  destruct (AttendanceSerializer_run_validation_cases data db)
    as [[msg Hv]|(Hv & Hs & Hc & Hst & Hfresh)].
  - left. rewrite bind_assoc, (bind_Raise _ _ _ _ _ Hv). done.
  - right. rewrite bind_assoc, (bind_Ok _ _ _ _ _ Hv).
    destruct (Attendance_create_run now
                (mkAttendance (ad_student_id data) (ad_course_id data)
                   (ad_date data) (ad_status data))
                db Hs Hc Hfresh)
      as (notif & Hrun & _ & H1 & H2 & H3 & H4).
    rewrite (bind_Ok _ _ _ _ _ Hrun). unfold ret.
    eexists _, notif. split; [reflexivity|]. by split_and!.
Qed.

(** ** The unique columns of the students and of the staff *)

Section UniqueColumns.
Context {F K : Type} `{EqDecision K} (col : F -> K).
Variable objects : manager F.
Hypothesis view_over :
  forall g db, view objects (over objects g db) = g (view objects db).

(** [Model.save()] on a table whose constraints include the unique
    column. *)
Lemma preserves_write_unique_of constraints pre_save i f :
  (forall rs f', constraints rs f' = true -> unique_on col rs f' = true) ->
  preserves (on_table objects (unique_rows col))
    (write objects constraints pre_save i f).
Proof.
  intros Himp db HI. unfold write, bind, gets, on_table in *. simpl.
  destruct i as [k|].
  - destruct (tbl_get (view objects db) k) eqn:Hget.
    + destruct (constraints _ _) eqn:Hf; simpl; [|done]. apply Himp in Hf.
      rewrite view_over. by apply unique_rows_update.
    + destruct (constraints _ _) eqn:Hf; simpl; [|done]. apply Himp in Hf.
      rewrite view_over. apply unique_rows_insert_at; [done| |done].
      by apply tbl_get_None.
  - destruct (constraints _ _) eqn:Hf; simpl; [|done]. apply Himp in Hf.
    rewrite view_over. by apply unique_rows_insert.
Qed.

Lemma unique_rows_update_where (t : table F) P g :
  (forall f, col (g f) = col f) ->
  unique_rows col t -> unique_rows col (tbl_update_where P g t).
Proof.
  intros Hg [[Hnd Hle] Hcol]. split; [split|].
  - by rewrite pks_update_where.
  - by rewrite pks_update_where.
  - replace (map (fun r => col (fields r)) (rows (tbl_update_where P g t)))
      with (map (fun r => col (fields r)) (rows t)); [done|].
    unfold tbl_update_where. cbn [rows]. rewrite <- list_fmap_compose.
    apply list_fmap_ext. intros j x _. cbv beta delta [compose].
    destruct (P x); [|done]. cbn [fields]. by rewrite Hg.
Qed.

(** Saving a stored row again with its unique column unchanged passes the
    uniqueness check. *)
Lemma unique_on_others_same (t : table F) s f :
  unique_rows col t -> s ∈ rows t -> col f = col (fields s) ->
  unique_on col (others (Some (pk s)) t) f = true.
Proof.
  intros [_ Hnd] Hs Hf. apply unique_on_spec, Forall_forall.
  intros r Hr Heq. unfold others in Hr.
  apply list_elem_of_filter in Hr as [Hpk Hr]. apply Hpk. f_equal.
  apply list_elem_of_lookup in Hr as [i Hi].
  apply list_elem_of_lookup in Hs as [j Hj].
  rewrite NoDup_alt in Hnd.
  assert (i = j) as ->.
  { apply (Hnd i j (col (fields r))).
    - by rewrite list_lookup_fmap, Hi.
    - by rewrite list_lookup_fmap, Hj, Heq, Hf. }
  congruence.
Qed.
End UniqueColumns.

Lemma tbl_get_stored {F} (t : table F) s :
  s ∈ rows t -> is_Some (tbl_get t (pk s)).
Proof.
  intros Hs. destruct (tbl_get t (pk s)) eqn:Hget; [done|].
  apply tbl_get_None in Hget. destruct Hget.
  apply list_elem_of_fmap. by exists s.
Qed.

Lemma get_object_Some {F} (queryset : list (row F)) i r :
  get_object queryset i = Some r -> r ∈ queryset /\ pk r = i.
Proof.
  unfold get_object. intros H.
  assert (r ∈ filter (fun r => pk r = i) queryset) as Hin.
  { destruct (filter _ queryset) as [|x l]; simplify_eq/=. left. }
  by apply list_elem_of_filter in Hin as [? ?].
Qed.

Lemma preserves_and {A} (I J : DB -> Prop) (m : M A) :
  preserves I m -> preserves J m -> preserves (fun db => I db /\ J db) m.
Proof.
  intros HI HJ db [Hi Hj]. specialize (HI db Hi). specialize (HJ db Hj).
  by destruct (m db) as [[a|e] db'].
Qed.

Lemma Student_constraints_true rs f :
  Student_constraints rs f = true ->
  student_user f <> None
  /\ unique_on student_user rs f = true
  /\ unique_on registration_no rs f = true
  /\ unique_on student_email rs f = true
  /\ unique_on student_phone rs f = true.
Proof.
  unfold Student_constraints. rewrite !andb_true_iff, bool_decide_eq_true.
  tauto.
Qed.

Lemma Staff_constraints_true rs f :
  Staff_constraints rs f = true ->
  unique_on staff_user rs f = true
  /\ unique_on staff_email rs f = true
  /\ unique_on staff_phone rs f = true.
Proof. unfold Staff_constraints. rewrite !andb_true_iff. tauto. Qed.

Lemma preserves_student_users_set i f :
  preserves
    (on_table Student_objects
       (fun t => Forall (fun r => student_user (fields r) <> None) (rows t)))
    (write Student_objects Student_constraints no_pre_save i f).
Proof.
  intros db HI. unfold write, bind, gets, on_table, no_pre_save in *. simpl.
  destruct i as [k|].
  - destruct (tbl_get (students db) k) eqn:Hget.
    + destruct (Student_constraints _ _) eqn:Hf; simpl; [|done].
      apply Student_constraints_true in Hf as [Hu _].
      apply Forall_fmap. eapply Forall_impl; [exact HI|].
      intros x Hx. simpl. by destruct (decide (pk x = k)).
    + destruct (Student_constraints _ _) eqn:Hf; simpl; [|done].
      apply Student_constraints_true in Hf as [Hu _].
      apply Forall_app. split; [done|]. by apply Forall_singleton.
  - destruct (Student_constraints _ _) eqn:Hf; simpl; [|done].
    apply Student_constraints_true in Hf as [Hu _].
    apply Forall_app. split; [done|]. by apply Forall_singleton.
Qed.

Lemma preserves_students_unique i f :
  preserves (on_table Student_objects students_unique)
    (write Student_objects Student_constraints no_pre_save i f).
Proof.
  unfold on_table, students_unique.
  apply preserves_and;
    [|apply preserves_and; [|apply preserves_and; [|apply preserves_and]]].
  - apply (preserves_write_unique_of registration_no Student_objects);
      [done|]. by intros rs f' (_ & _ & ? & _)%Student_constraints_true.
  - apply (preserves_write_unique_of student_user Student_objects);
      [done|]. by intros rs f' (_ & ? & _)%Student_constraints_true.
  - apply (preserves_write_unique_of student_email Student_objects);
      [done|]. by intros rs f' (_ & _ & _ & ? & _)%Student_constraints_true.
  - apply (preserves_write_unique_of student_phone Student_objects);
      [done|]. by intros rs f' (_ & _ & _ & _ & ?)%Student_constraints_true.
  - apply preserves_student_users_set.
Qed.

Lemma students_unique_delete t P :
  students_unique t -> students_unique (tbl_delete P t).
Proof.
  intros (H1 & H2 & H3 & H4 & H5).
  split_and!; try by apply unique_rows_delete.
  rewrite Forall_forall in *. intros r Hr. apply H5. simpl in Hr.
  by apply list_elem_of_filter in Hr as [_ ?].
Qed.

Lemma students_unique_empty : students_unique tbl_empty.
Proof.
  split_and!; try apply unique_rows_empty. apply Forall_nil_2.
Qed.

Ltac student_leaf :=
  idtac;
  lazymatch goal with
  | |- preserves _ (write Student_objects _ _ _ _) =>
      apply preserves_students_unique
  end.

Lemma run_students_unique now o db :
  on_table Student_objects students_unique db ->
  on_table Student_objects students_unique (run now o db).
Proof.
  intros HI.
  destruct o; simpl run;
    try (apply preserves_state_after; [|exact HI]; pres student_leaf).
  all: unfold_deletes; unfold on_table in *; simpl;
    repeat apply students_unique_delete; exact HI.
Qed.

Lemma reachable_students_unique db :
  reachable db -> students_unique (students db).
Proof.
  induction 1 as [|db now o _ IH _].
  - apply students_unique_empty.
  - by apply (run_students_unique now o db).
Qed.

Lemma preserves_staffs_unique pre_save i f :
  preserves (on_table Staff_objects staffs_unique)
    (write Staff_objects Staff_constraints pre_save i f).
Proof.
  unfold on_table, staffs_unique.
  apply preserves_and; [|apply preserves_and].
  - apply (preserves_write_unique_of staff_user Staff_objects);
      [done|]. by intros rs f' (? & _)%Staff_constraints_true.
  - apply (preserves_write_unique_of staff_email Staff_objects);
      [done|]. by intros rs f' (_ & ? & _)%Staff_constraints_true.
  - apply (preserves_write_unique_of staff_phone Staff_objects);
      [done|]. by intros rs f' (_ & _ & ?)%Staff_constraints_true.
Qed.

Lemma staffs_unique_delete t P :
  staffs_unique t -> staffs_unique (tbl_delete P t).
Proof. intros (H1 & H2 & H3). split_and!; by apply unique_rows_delete. Qed.

Lemma staffs_unique_update_where t P g :
  (forall f, staff_user (g f) = staff_user f) ->
  (forall f, staff_email (g f) = staff_email f) ->
  (forall f, staff_phone (g f) = staff_phone f) ->
  staffs_unique t -> staffs_unique (tbl_update_where P g t).
Proof.
  intros G1 G2 G3 (H1 & H2 & H3).
  split_and!; by apply unique_rows_update_where.
Qed.

Lemma staffs_unique_empty : staffs_unique tbl_empty.
Proof. split_and!; apply unique_rows_empty. Qed.

Ltac staff_leaf :=
  idtac;
  lazymatch goal with
  | |- preserves _ (write Staff_objects _ _ _ _) =>
      apply preserves_staffs_unique
  end.

Lemma run_staffs_unique now o db :
  on_table Staff_objects staffs_unique db ->
  on_table Staff_objects staffs_unique (run now o db).
Proof.
  intros HI.
  destruct o; simpl run;
    try (apply preserves_state_after; [|exact HI]; pres staff_leaf).
  all: unfold_deletes; unfold on_table in *; simpl;
    repeat first [ apply staffs_unique_delete
                 | apply staffs_unique_update_where; [done|done|done|] ];
    exact HI.
Qed.

Lemma reachable_staffs_unique db :
  reachable db -> staffs_unique (staffs db).
Proof.
  induction 1 as [|db now o _ IH _].
  - apply staffs_unique_empty.
  - by apply (run_staffs_unique now o db).
Qed.

(** ** The [deactivate] actions *)

(** Saving a stored student with the unique columns unchanged. *)
Lemma Student_update_run db s f :
  students_unique (students db) -> s ∈ rows (students db) ->
  registration_no f = registration_no (fields s) ->
  student_user f = student_user (fields s) ->
  student_email f = student_email (fields s) ->
  student_phone f = student_phone (fields s) ->
  Student_save (Some (pk s)) f db
  = (Ok (Row (pk s) f), over Student_objects (tbl_update (pk s) f) db).
Proof.
  intros (U1 & U2 & U3 & U4 & U5) Hs E1 E2 E3 E4.
  unfold Student_save, write, bind, gets, no_pre_save. simpl.
  destruct (tbl_get_stored (students db) s Hs) as [s0 ->].
  assert (Student_constraints (others (Some (pk s)) (students db)) f = true)
    as ->; [|done].
  unfold Student_constraints. rewrite !andb_true_iff. split_and!.
  - apply bool_decide_eq_true. rewrite E2.
    rewrite Forall_forall in U5. by apply U5.
  - by apply unique_on_others_same.
  - by apply unique_on_others_same.
  - by apply unique_on_others_same.
  - by apply unique_on_others_same.
Qed.

Lemma get_queryset_cases user db :
  (exists qs,
     StudentViewSet_get_queryset user db = (Ok qs, db)
     /\ (forall r, r ∈ qs -> r ∈ rows (students db))
     /\ (forall u p r,
           user = Authenticated u ->
           head (profiles_of db (pk u)) = Some p ->
           role (fields p) = "Student" ->
           r ∈ qs -> student_user (fields r) = Some (pk u)))
  \/ exists e, StudentViewSet_get_queryset user db = (Raise e, db).
Proof.
  destruct user as [|u].
  - right. by eexists.
  - rewrite get_queryset_run.
    destruct (head (profiles_of db (pk u))) as [p|] eqn:Hp;
      [|right; by eexists].
    left. case_bool_decide as Hst; [|case_bool_decide as Hsf].
    + eexists. split; [done|]. split.
      * by intros r [_ ?]%list_elem_of_filter.
      * by intros u' p' r [= <-] _ _ [? _]%list_elem_of_filter.
    + eexists. split; [done|]. split; [done|].
      intros u' p' r [= <-] Hp' Hrole Hr. congruence.
    + eexists. split; [done|]. split.
      * intros r Hr. unfold order_by_minus_id in Hr.
        by rewrite merge_sort_Permutation in Hr.
      * intros u' p' r [= <-] Hp' Hrole Hr. congruence.
Qed.

(** X18. In a reachable state [StudentViewSet.deactivate] answers 404 and
    changes nothing, or fails as [get_queryset] does and changes nothing,
    or answers 200 and clears [is_active] of the stored student with that
    key, leaving every other column, row and table alone; a user whose
    role is 'Student' gets 200 for a student record of their own only. *)
Theorem StudentViewSet_deactivate_outcomes filter_queryset user i db :
  reachable db -> narrows filter_queryset ->
  (exists s,
     s ∈ rows (students db) /\ pk s = i
     /\ StudentViewSet_deactivate filter_queryset user i db
        = (Ok (Response 200),
           over Student_objects
             (tbl_update i (deactivated_student (fields s))) db)
     /\ (forall u p,
           user = Authenticated u ->
           head (profiles_of db (pk u)) = Some p ->
           role (fields p) = "Student" ->
           student_user (fields s) = Some (pk u)))
  \/ StudentViewSet_deactivate filter_queryset user i db
     = (Ok (Response 404), db)
  \/ exists e,
       StudentViewSet_deactivate filter_queryset user i db = (Raise e, db)
       /\ StudentViewSet_get_queryset user db = (Raise e, db).
Proof.
  intros Hreach%reachable_students_unique Hfq.
  unfold StudentViewSet_deactivate.
  destruct (get_queryset_cases user db) as [(qs & Hqs & Hsub & Hown)|[e He]].
  - rewrite (bind_Ok _ _ _ _ _ Hqs).
    destruct (get_object (filter_queryset qs) i) as [s|] eqn:Hobj.
    + left. apply get_object_Some in Hobj as [Hin Hpk].
      apply Hfq in Hin. exists s. split; [by apply Hsub|].
      split; [done|]. split.
      * rewrite (bind_Ok _ _ _ _ _
                   (Student_update_run db s (deactivated_student (fields s))
                      Hreach (Hsub _ Hin)
                      eq_refl eq_refl eq_refl eq_refl)).
        by rewrite Hpk.
      * intros u p Hu Hp Hr. by apply (Hown u p).
    + right. by left.
  - right. right. exists e. split; [|done].
    by rewrite (bind_Raise _ _ _ _ _ He).
Qed.

Lemma narrows_all {F} : narrows (fun l : list (row F) => l).
Proof. by intros l r. Qed.

Lemma StudentViewSet_deactivate_witness :
  reachable college
  /\ exists db',
       StudentViewSet_deactivate (fun l => l) (Authenticated alice_row) 1
         college
       = (Ok (Response 200), db').
Proof.
  split; [exact college_reachable|].
  destruct (StudentViewSet_deactivate_outcomes (fun l => l)
              (Authenticated alice_row) 1 college college_reachable
              narrows_all) as [(s & _ & _ & Hrun & _)|[Hrun|(e & Hrun & _)]].
  - by eexists.
  - vm_compute in Hrun. discriminate.
  - vm_compute in Hrun. discriminate.
Defined.

(** Saving a stored staff record with the unique columns unchanged: the
    receiver adds the notification of an update. *)
Lemma Staff_update_run now db s f :
  staffs_unique (staffs db) -> s ∈ rows (staffs db) ->
  staff_user f = staff_user (fields s) ->
  staff_email f = staff_email (fields s) ->
  staff_phone f = staff_phone (fields s) ->
  Staff_save now (Some (pk s)) f db
  = (Ok (Row (pk s) f),
     with_notifications
       [Row (S (last_id (notifications db)))
            (mkNotification None (Some (pk s)) "Staff"
               "Staff Record Updated"
               [Lit "Your staff record has been updated."] now false false)]
       (over Staff_objects (tbl_update (pk s) f) db)).
Proof.
  intros (U1 & U2 & U3) Hs E1 E2 E3.
  assert (write Staff_objects Staff_constraints (Staff_pre_save now)
            (Some (pk s)) f db
          = (Ok (Row (pk s) f, false),
             over Staff_objects (tbl_update (pk s) f) db)) as Hw.
  { unfold write, bind, gets. simpl.
    destruct (tbl_get_stored (staffs db) s Hs) as [s0 ->]. simpl.
    assert (Staff_constraints (others (Some (pk s)) (staffs db)) f = true)
      as ->; [|done].
    unfold Staff_constraints. rewrite !andb_true_iff.
    split_and!; by apply unique_on_others_same. }
  unfold Staff_save. rewrite (bind_Ok _ _ _ _ _ Hw). cbn [fst snd].
  unfold create_staff_notification.
  by rewrite bind_assoc, bind_Notification_create, !bind_ret.
Qed.

Lemma bind_gets {A B} (f : DB -> A) (k : A -> M B) db :
  bind (gets f) k db = k (f db) db.
Proof. done. Qed.

(** X19. In a reachable state [StaffViewSet.deactivate] answers 404 and
    changes nothing, or answers 200, clears [is_active] of the stored staff
    record with that key, and, through the receiver of the staff, adds one
    unread 'Staff Record Updated' notification for that staff member; no
    other row or table changes. *)
Theorem StaffViewSet_deactivate_outcomes filter_queryset now i db :
  reachable db -> narrows filter_queryset ->
  (exists s notif,
     s ∈ rows (staffs db) /\ pk s = i
     /\ StaffViewSet_deactivate filter_queryset now i db
        = (Ok (Response 200),
           with_notifications [notif]
             (over Staff_objects
                (tbl_update i (deactivated_staff (fields s))) db))
     /\ recipient_staff (fields notif) = Some i
     /\ recipient_student (fields notif) = None
     /\ notif_type (fields notif) = "Staff"
     /\ title (fields notif) = "Staff Record Updated"
     /\ read (fields notif) = false)
  \/ StaffViewSet_deactivate filter_queryset now i db
     = (Ok (Response 404), db).
Proof.
  intros Hreach%reachable_staffs_unique Hfq.
  unfold StaffViewSet_deactivate, all. rewrite bind_gets.
  change (view Staff_objects db) with (staffs db).
  destruct (get_object (filter_queryset (rows (staffs db))) i)
    as [s|] eqn:Hobj; [|by right].
  left. apply get_object_Some in Hobj as [Hin Hpk]. apply Hfq in Hin.
  eexists s, _. split; [done|]. split; [done|]. split.
  - rewrite (bind_Ok _ _ _ _ _
               (Staff_update_run now db s (deactivated_staff (fields s))
                  Hreach Hin
                  eq_refl eq_refl eq_refl)).
    rewrite Hpk. reflexivity.
  - by split_and!.
Qed.

Lemma StaffViewSet_deactivate_witness :
  reachable college
  /\ exists db',
       StaffViewSet_deactivate (fun l => l) now0 1 college
       = (Ok (Response 200), db').
Proof.
  split; [exact college_reachable|].
  destruct (StaffViewSet_deactivate_outcomes (fun l => l) now0 1 college
              college_reachable narrows_all)
    as [(s & notif & _ & _ & Hrun & _)|Hrun].
  - by eexists.
  - vm_compute in Hrun. discriminate.
Defined.

(** X20. In every reachable state no two students agree on the
    registration number, on the user, on the email or on the phone, every
    student has a user, no two staff records agree on the user, on the
    email or on the phone, and the keys of both tables are distinct. *)
Theorem unique_columns_hold db :
  reachable db ->
  no_two_agree registration_no (students db)
  /\ no_two_agree student_user (students db)
  /\ no_two_agree student_email (students db)
  /\ no_two_agree student_phone (students db)
  /\ (forall s, s ∈ rows (students db) -> student_user (fields s) <> None)
  /\ no_two_agree staff_user (staffs db)
  /\ no_two_agree staff_email (staffs db)
  /\ no_two_agree staff_phone (staffs db)
  /\ NoDup (pks (students db)) /\ NoDup (pks (staffs db)).
Proof.
  intros Hreach.
  destruct (reachable_students_unique db Hreach)
    as (S1 & S2 & S3 & S4 & S5).
  destruct (reachable_staffs_unique db Hreach) as (T1 & T2 & T3).
  split_and!; try by apply unique_rows_no_two_agree.
  - intros s Hs. rewrite Forall_forall in S5. by apply S5.
  - apply S1.
  - apply T1.
Qed.

Lemma unique_columns_witness :
  reachable college
  /\ no_two_agree registration_no (students college)
  /\ no_two_agree staff_email (staffs college).
Proof.
  split; [exact college_reachable|].
  destruct (unique_columns_hold college college_reachable)
    as (H1 & _ & _ & _ & _ & _ & H7 & _).
  by split.
Defined.

(** ** Deleting records keeps the references valid *)

Lemma elem_of_tbl_delete {F} (P : row F -> bool) (t : table F) r :
  r ∈ rows (tbl_delete P t) -> P r = false /\ r ∈ rows t.
Proof. unfold tbl_delete. cbn [rows]. by intros ?%list_elem_of_filter. Qed.

Lemma elem_of_tbl_update_where {F} (P : row F -> bool) g (t : table F) r :
  r ∈ rows (tbl_update_where P g t) ->
  exists r0, r0 ∈ rows t
             /\ r = (if P r0 then Row (pk r0) (g (fields r0)) else r0).
Proof.
  unfold tbl_update_where. cbn [rows].
  intros (r0 & -> & Hr0)%list_elem_of_fmap. by exists r0.
Qed.

Lemma pks_delete_by_pk {F} (t : table F) ids k :
  k ∈ pks t -> inb k ids = false ->
  k ∈ pks (tbl_delete (fun r => inb (pk r) ids) t).
Proof.
  unfold pks, tbl_delete. cbn [rows].
  intros (r & -> & Hr)%list_elem_of_fmap Hk.
  apply list_elem_of_fmap. exists r. split; [done|].
  by apply list_elem_of_filter.
Qed.

Lemma not_referring {F} (rs : list (row F)) (Q : row F -> bool) r :
  r ∈ rs ->
  inb (pk r) (map pk (filter (fun r => Q r = true) rs)) = false ->
  Q r = false.
Proof.
  intros Hr Hin. unfold inb in Hin. apply bool_decide_eq_false in Hin.
  destruct (Q r) eqn:HQ; [|done]. destruct Hin.
  apply list_elem_of_fmap. exists r. split; [done|].
  by apply list_elem_of_filter.
Qed.

(** A row that survives the deletions and the SET NULL updates comes from a
    stored row. *)
Ltac survivor Hr :=
  repeat match type of Hr with
  | _ ∈ rows (tbl_delete _ _) =>
      let HP := fresh "HP" in
      apply elem_of_tbl_delete in Hr as [HP Hr]
  | _ ∈ rows (tbl_update_where _ _ _) =>
      let r0 := fresh "r0" in
      let Hc := fresh "Hc" in
      let HP := fresh "HP" in
      apply elem_of_tbl_update_where in Hr as (r0 & Hr & Hc);
      match type of Hc with
      | _ = (if ?c then _ else _) => destruct c eqn:HP
      end; subst
  end.

(** The row referred to is not among the deleted ones. *)
Ltac not_deleted Hk :=
  repeat match goal with
  | Hr : ?r ∈ ?rs, H : inb (pk ?r) (map pk (filter _ ?rs)) = false |- _ =>
      apply (not_referring rs _ r Hr) in H; cbn beta in H
  end;
  first
    [ injection Hk as <-; assumption
    | match goal with
      | H : oinb ?c _ = false |- _ => rewrite Hk in H; exact H
      end ].

Ltac reference H :=
  let r := fresh "r" in
  let k := fresh "k" in
  let Hr := fresh "Hr" in
  let Hk := fresh "Hk" in
  intros r k Hr Hk; survivor Hr; cbn [fields pk] in Hk; cbn beta in Hk;
  try discriminate;
  (repeat first [ rewrite pks_update_where | apply pks_delete_by_pk ];
   [ eapply H; [exact Hr | exact Hk] | not_deleted Hk.. ]).

(** X21. Deleting records, with the cascades and the SET NULL rules that
    models.py declares, keeps every reference valid: if each foreign key of
    the database names a stored row before users, departments, programs,
    courses, students, staff, admissions, enrollments, attendance rows,
    exams, grades, fees or notifications are deleted, each one does
    afterwards. *)
Theorem deletions_keep_references now o db :
  foreign_keys_valid db -> removes o ->
  foreign_keys_valid (run now o db).
Proof.
  intros (H1 & H2 & H3 & H4 & H5 & H6 & H7 & H8 & H9 & H10 & H11 & H12
          & H13 & H14 & H15 & H16 & H17 & H18 & H19 & H20) Ho.
  destruct o; try (by destruct Ho); clear Ho; cbn [run];
    unfold delete_users, delete_departments, delete_programs,
      delete_courses, delete_students, delete_staffs, delete_exams, del,
      referring, by_pk, foreign_keys_valid;
    cbn -[inb oinb tbl_delete tbl_update_where refers pks].
  all: split_and!.
  all: first [ reference H1 | reference H2 | reference H3 | reference H4
             | reference H5 | reference H6 | reference H7 | reference H8
             | reference H9 | reference H10 | reference H11 | reference H12
             | reference H13 | reference H14 | reference H15 | reference H16
             | reference H17 | reference H18 | reference H19
             | reference H20 ].
Qed.

Lemma college_references : foreign_keys_valid college.
Proof.
  unfold foreign_keys_valid, refers.
  split_and!; intros r k Hr Hk; vm_compute in Hr;
    repeat (apply elem_of_cons in Hr as [->|Hr]);
    try (by apply elem_of_nil in Hr);
    vm_compute in Hk; try discriminate; injection Hk as <-; vm_compute;
    repeat first [left | right].
Qed.

Lemma deletions_keep_references_witness :
  foreign_keys_valid college
  /\ foreign_keys_valid (run now0 (remove_students [1]) college).
Proof.
  split; [exact college_references|].
  exact (deletions_keep_references now0 (remove_students [1]) college
           college_references I).
Defined.
